(** * SceneManager: texture and material registries, transform composition
      and the shader-state gateway of [Source/SceneManager.cpp].

    The C++ class is embedded shallowly.  The scene manager's fields, the
    shader manager it points to and the OpenGL context form an explicit
    world state threaded through a small state-and-error monad; the error
    outcomes are the undefined behaviours the C++ code can run into (a
    store outside [m_textureIDs], a call through a null shader manager).
    Single-precision values are IEEE binary32 numbers ([spec_float] at
    precision 24), integers are [Z] with the 32-bit wrap-around written
    out.  GLM, stb_image and the OpenGL driver are external to the file
    and enter as interfaces. *)

From Stdlib Require Import ZArith QArith Qabs Reals Lra Lia.
From Stdlib Require Import Floats.SpecFloat.
From stdpp Require Import base option strings list gmap.

Local Open Scope Z_scope.

(** ** Machine integers *)

(** [int] is a 32-bit two's complement integer, [GLuint] a 32-bit
    unsigned one. *)
Definition wrap_int (z : Z) : Z := (z + 2 ^ 31) mod 2 ^ 32 - 2 ^ 31.
Definition wrap_GLuint (z : Z) : Z := z mod 2 ^ 32.

(** Conversion of a [GLuint] to [int], as in [int textureID = ....ID]. *)
Definition int_of_GLuint (u : Z) : Z := wrap_int u.

(** [a % b] of C++: the remainder of the division truncated towards 0. *)
Definition int_rem (a b : Z) : Z := Z.rem a b.

(** Unary minus on [int]. *)
Definition int_neg (a : Z) : Z := wrap_int (- a).

(** ** Single-precision floating point *)

Module F32.

Definition prec : Z := 24.
Definition emax : Z := 128.

(** A [float] is a binary32 number. *)
Definition float : Type := spec_float.

(** Conversion of an [int] to [float] (round to nearest, ties to even). *)
Definition of_int (z : Z) : float := binary_normalize prec emax z 0 false.

Definition add : float -> float -> float := SFadd prec emax.
Definition mul : float -> float -> float := SFmul prec emax.
Definition div : float -> float -> float := SFdiv prec emax.
Definition neg : float -> float := SFopp.

(** The literals [0.0f] and [1.0f]. *)
Definition zero : float := S754_zero false.
Definition one : float := of_int 1.

(** The rational a finite [float] denotes. *)
Definition to_Q (x : float) : option Q :=
  match x with
  | S754_zero _ => Some 0%Q
  | S754_finite s m e =>
      let v := if s then Zneg m else Zpos m in
      Some (if 0 <=? e then inject_Z (v * 2 ^ e)
            else Qmake v (Z.to_pos (2 ^ (- e))))
  | S754_infinity _ | S754_nan => None
  end.

(** [x] is finite and denotes exactly the rational [q]. *)
Definition is_Q (x : float) (q : Q) : bool :=
  match to_Q x with
  | Some v => Qeq_bool v q
  | None => false
  end.

(** [x] is finite and within [eps] of the rational [q]. *)
Definition near_Q (eps : Q) (x : float) (q : Q) : bool :=
  match to_Q x with
  | Some v => Qle_bool (Qabs (v - q)) eps
  | None => false
  end.

End F32.

Abbreviation float := F32.float.

(** ** GLM vectors *)

Record vec2 : Type := mk_vec2 { v2_x : float; v2_y : float }.
Record vec3 : Type := mk_vec3 { v3_x : float; v3_y : float; v3_z : float }.
Record vec4 : Type :=
  mk_vec4 { v4_r : float; v4_g : float; v4_b : float; v4_a : float }.

(** The part of GLM the scene manager calls.  [glm::mat4] stays opaque:
    the code builds matrices through GLM only and hands them to the shader
    manager without looking inside. *)
Class Glm : Type := {
  mat4 : Type;
  (** [glm::mat4(1.0f)] *)
  mat4_identity : mat4;
  (** [operator*] on [glm::mat4] *)
  mat4_mul : mat4 -> mat4 -> mat4;
  glm_radians : float -> float;
  glm_scale : vec3 -> mat4;
  glm_rotate : float -> vec3 -> mat4;
  glm_translate : vec3 -> mat4;
}.

(** ** stb_image *)

(** A decoded image: what [stbi_load] writes through its out-parameters,
    and the pixel buffer it returns. *)
Record stbi_image : Type := {
  width : Z;
  height : Z;
  colorChannels : Z;
  pixels : list Z;
}.

(** [stbi_load flip filename]: the decoder under the vertical-flip setting
    [flip]; [None] is the null pointer returned on failure. *)
Class Stb : Type := {
  stbi_load : bool -> string -> option stbi_image;
}.

(** ** OpenGL *)

Inductive GLenum : Type :=
  | GL_TEXTURE_2D
  | GL_TEXTURE_WRAP_S | GL_TEXTURE_WRAP_T | GL_REPEAT
  | GL_TEXTURE_MIN_FILTER | GL_TEXTURE_MAG_FILTER | GL_LINEAR
  | GL_RGB8 | GL_RGB | GL_RGBA8 | GL_RGBA | GL_UNSIGNED_BYTE
  | GL_TEXTURE0_plus (i : Z).

(** The calls the OpenGL context receives.  [GenTextures n] records a
    [glGenTextures(1, &x)] that wrote the name [n] to [x].
    [DeleteTextures] is the API's release call; the scene manager has no
    call site for it. *)
Inductive GLCall : Type :=
  | GenTextures (name : Z)
  | BindTexture (target : GLenum) (texture : Z)
  | TexParameteri (target pname param : GLenum)
  | TexImage2D (target : GLenum) (level : Z) (internalformat : GLenum)
      (w h border : Z) (format type : GLenum) (data : list Z)
  | GenerateMipmap (target : GLenum)
  | ActiveTexture (texture : GLenum)
  | DeleteTextures (name : Z).

(** The driver picks the texture names; its choice is a function of the
    calls the context has received so far. *)
Class OpenGL : Type := {
  gen_texture_name : list GLCall -> Z;
}.

(** ** Registry entries *)

(** [struct TEXTURE_INFO] and [struct OBJECT_MATERIAL] are declared in
    [SceneManager.h]; the fields are the ones [SceneManager.cpp] reads and
    writes.  [ID] is the [GLuint] that [glGenTextures] fills in. *)
Module TEXTURE_INFO.
Record t : Type := mk { tag : string; ID : Z }.
End TEXTURE_INFO.

Module OBJECT_MATERIAL.
Record t : Type := mk {
  tag : string;
  diffuseColor : vec3;
  specularColor : vec3;
  shininess : float;
}.
End OBJECT_MATERIAL.

(** Modelled from the spec: the length of the array [m_textureIDs] is part
    of its declaration in [SceneManager.h]; the spec gives "MAX_SLOTS (16,
    the fixed hardware/API texture-unit budget)". *)
Definition MAX_SLOTS : Z := 16.

(** ** Shader manager *)

Section Model.

Context `{glm : Glm} `{stb : Stb} `{ogl : OpenGL}.

(** The values the uniform setters take; [setIntValue] receives the
    [bool] literals of the source converted to [int]. *)
Inductive UniformValue : Type :=
  | UInt (z : Z)
  | UFloat (f : float)
  | UVec2 (v : vec2)
  | UVec3 (v : vec3)
  | UVec4 (v : vec4)
  | UMat4 (m : mat4)
  | USampler2D (slot : Z).

(** Modelled from the spec: the [ShaderManager] class is defined outside
    [SceneManager.cpp]; it is "an opaque key/value sink accepting
    scalars, vectors, and matrices by name".  The sink is the sequence
    of setter calls it has received, oldest first. *)
Definition ShaderManager : Type := list (string * UniformValue).

(** The value each uniform holds after the calls received: the last one
    set under its name. *)
Definition uniform_store (s : ShaderManager) : gmap string UniformValue :=
  foldl (fun m kv => <[kv.1 := kv.2]> m) ∅ s.

(** ** Scene manager state *)

(** [m_pShaderManager] is [NULL] or points to the shader manager. *)
Inductive ShaderManagerPtr : Type := NULL | pShaderManager.

(** The data members of the class.  [m_basicMeshes] is left out: the
    meshes take no part in the registries or in the shader state.  The
    constructor assigns [m_pShaderManager] only; the properties name the
    registry state they start from. *)

Record SceneManager : Type := mk_SceneManager {
  m_pShaderManager : ShaderManagerPtr;
  m_loadedTextures : Z;
  m_textureIDs : list TEXTURE_INFO.t;
  m_objectMaterials : list OBJECT_MATERIAL.t;
}.

(** The scene manager together with the two objects it acts on. *)
Record World : Type := mk_World {
  scene : SceneManager;
  shaderManager : ShaderManager;
  glContext : list GLCall;
}.

(** Undefined behaviour of the C++ code. *)
Inductive UB : Type :=
  | OutOfBounds (index : Z)
  | NullDereference.

Inductive outcome (A : Type) : Type :=
  | Ret (a : A)
  | Undefined (ub : UB).
Global Arguments Ret {A} a.
Global Arguments Undefined {A} ub.

Definition M (A : Type) : Type := World -> outcome (A * World).

Global Instance M_ret : MRet M := fun A a w => Ret (a, w).
Global Instance M_bind : MBind M := fun A B f c w =>
  match c w with
  | Ret (a, w') => f a w'
  | Undefined ub => Undefined ub
  end.

Definition undefined {A : Type} (ub : UB) : M A := fun _ => Undefined ub.
Definition get_scene : M SceneManager := fun w => Ret (scene w, w).
Definition put_scene (sm : SceneManager) : M unit := fun w =>
  Ret (tt, mk_World sm (shaderManager w) (glContext w)).

(** One OpenGL call. *)
Definition glCall (c : GLCall) : M unit := fun w =>
  Ret (tt, mk_World (scene w) (shaderManager w) (glContext w ++ [c])).

(** [glGenTextures(1, &x)]: returns the name written to [x]. *)
Definition glGenTextures : M Z := fun w =>
  let name := wrap_GLuint (gen_texture_name (glContext w)) in
  Ret (name, mk_World (scene w) (shaderManager w)
               (glContext w ++ [GenTextures name])).

(** [m_pShaderManager->set...Value(name, v)]. *)
Definition set_uniform (name : string) (v : UniformValue) : M unit :=
  fun w =>
    match m_pShaderManager (scene w) with
    | NULL => Undefined NullDereference
    | pShaderManager =>
        Ret (tt, mk_World (scene w) (shaderManager w ++ [(name, v)])
                   (glContext w))
    end.

Definition setIntValue (name : string) (z : Z) := set_uniform name (UInt z).
Definition setFloatValue (name : string) (f : float) :=
  set_uniform name (UFloat f).
Definition setVec2Value (name : string) (v : vec2) :=
  set_uniform name (UVec2 v).
Definition setVec3Value (name : string) (v : vec3) :=
  set_uniform name (UVec3 v).
Definition setVec4Value (name : string) (v : vec4) :=
  set_uniform name (UVec4 v).
Definition setMat4Value (name : string) (m : mat4) :=
  set_uniform name (UMat4 m).
Definition setSampler2DValue (name : string) (slot : Z) :=
  set_uniform name (USampler2D slot).

(** [m_textureIDs[i]] read as an rvalue. *)
Definition read_texture (i : Z) : M TEXTURE_INFO.t :=
  sm ← get_scene;
  match (if 0 <=? i then m_textureIDs sm !! Z.to_nat i else None) with
  | Some e => mret e
  | None => undefined (OutOfBounds i)
  end.

(** [m_textureIDs[i]] updated in place by [f]. *)
Definition write_texture (i : Z) (f : TEXTURE_INFO.t -> TEXTURE_INFO.t)
  : M unit :=
  e ← read_texture i;
  sm ← get_scene;
  put_scene (mk_SceneManager (m_pShaderManager sm) (m_loadedTextures sm)
               (<[Z.to_nat i := f e]> (m_textureIDs sm))
               (m_objectMaterials sm)).

Definition set_loadedTextures (n : Z) : M unit :=
  sm ← get_scene;
  put_scene (mk_SceneManager (m_pShaderManager sm) n (m_textureIDs sm)
               (m_objectMaterials sm)).

(** [for (int i = first; i < first + n; i++) body(i)], for a bound the
    body leaves alone. *)
Fixpoint for_loop (n : nat) (i : Z) (body : Z -> M unit) : M unit :=
  match n with
  | O => mret tt
  | S n' => body i;; for_loop n' (wrap_int (i + 1)) body
  end.

(** ** Names of the uniforms (the anonymous namespace) *)

Definition g_ModelName : string := "model".
Definition g_ColorValueName : string := "objectColor".
Definition g_TextureValueName : string := "objectTexture".
Definition g_UseTextureName : string := "bUseTexture".
Definition g_UseLightingName : string := "bUseLighting".

(** ** Texture registry *)

(** [CreateGLTexture(filename, tag)].  The console output is left out. *)
Definition CreateGLTexture (filename : string) (tag : string) : M bool :=
  match stbi_load true filename with
  | Some image =>
      textureID ← glGenTextures;
      glCall (BindTexture GL_TEXTURE_2D textureID);;
      glCall (TexParameteri GL_TEXTURE_2D GL_TEXTURE_WRAP_S GL_REPEAT);;
      glCall (TexParameteri GL_TEXTURE_2D GL_TEXTURE_WRAP_T GL_REPEAT);;
      glCall (TexParameteri GL_TEXTURE_2D GL_TEXTURE_MIN_FILTER GL_LINEAR);;
      glCall (TexParameteri GL_TEXTURE_2D GL_TEXTURE_MAG_FILTER GL_LINEAR);;
      let register : M bool :=
        glCall (GenerateMipmap GL_TEXTURE_2D);;
        glCall (BindTexture GL_TEXTURE_2D 0);;
        sm ← get_scene;
        write_texture (m_loadedTextures sm)
          (fun e => TEXTURE_INFO.mk (TEXTURE_INFO.tag e) textureID);;
        write_texture (m_loadedTextures sm)
          (fun e => TEXTURE_INFO.mk tag (TEXTURE_INFO.ID e));;
        set_loadedTextures (wrap_int (m_loadedTextures sm + 1));;
        mret true in
      if colorChannels image =? 3 then
        glCall (TexImage2D GL_TEXTURE_2D 0 GL_RGB8 (width image)
                  (height image) 0 GL_RGB GL_UNSIGNED_BYTE (pixels image));;
        register
      else if colorChannels image =? 4 then
        glCall (TexImage2D GL_TEXTURE_2D 0 GL_RGBA8 (width image)
                  (height image) 0 GL_RGBA GL_UNSIGNED_BYTE (pixels image));;
        register
      else mret false
  | None => mret false
  end.

(** [BindGLTextures()]. *)
Definition BindGLTextures : M unit :=
  sm ← get_scene;
  for_loop (Z.to_nat (m_loadedTextures sm)) 0 (fun i =>
    glCall (ActiveTexture (GL_TEXTURE0_plus i));;
    e ← read_texture i;
    glCall (BindTexture GL_TEXTURE_2D (TEXTURE_INFO.ID e))).

(** [DestroyGLTextures()]. *)
Definition DestroyGLTextures : M unit :=
  sm ← get_scene;
  for_loop (Z.to_nat (m_loadedTextures sm)) 0 (fun i =>
    _ ← read_texture i;
    name ← glGenTextures;
    write_texture i (fun e => TEXTURE_INFO.mk (TEXTURE_INFO.tag e) name)).

(** The [while ((index < m_loadedTextures) && (bFound == false))] loop
    of the two lookups: [n] is [m_loadedTextures - index], and [result]
    maps the matching index and entry to the value returned. *)
Fixpoint find_texture (result : Z -> TEXTURE_INFO.t -> Z) (tag : string)
    (n : nat) (index : Z) : M Z :=
  match n with
  | O => mret (-1)
  | S n' =>
      e ← read_texture index;
      if String.eqb (TEXTURE_INFO.tag e) tag then mret (result index e)
      else find_texture result tag n' (wrap_int (index + 1))
  end.

(** [FindTextureID(tag)]. *)
Definition FindTextureID (tag : string) : M Z :=
  sm ← get_scene;
  find_texture (fun _ e => int_of_GLuint (TEXTURE_INFO.ID e)) tag
    (Z.to_nat (m_loadedTextures sm)) 0.

(** [FindTextureSlot(tag)]. *)
Definition FindTextureSlot (tag : string) : M Z :=
  sm ← get_scene;
  find_texture (fun index _ => index) tag
    (Z.to_nat (m_loadedTextures sm)) 0.

(** ** Material registry *)

(** The scan of [FindMaterial] over the materials from [index] on:
    the first entry with the tag overwrites three fields of
    [material]. *)
Fixpoint find_material (tag : string) (rest : list OBJECT_MATERIAL.t)
    (material : OBJECT_MATERIAL.t) : OBJECT_MATERIAL.t :=
  match rest with
  | [] => material
  | m :: rest' =>
      if String.eqb (OBJECT_MATERIAL.tag m) tag then
        OBJECT_MATERIAL.mk (OBJECT_MATERIAL.tag material)
          (OBJECT_MATERIAL.diffuseColor m)
          (OBJECT_MATERIAL.specularColor m)
          (OBJECT_MATERIAL.shininess m)
      else find_material tag rest' material
  end.

(** [FindMaterial(tag, material)]: the result and the contents of the
    reference parameter [material] on return. *)
Definition FindMaterial (tag : string) (material : OBJECT_MATERIAL.t)
  : M (bool * OBJECT_MATERIAL.t) :=
  sm ← get_scene;
  if Z.of_nat (length (m_objectMaterials sm)) =? 0 then
    mret (false, material)
  else
    mret (true, find_material tag (m_objectMaterials sm) material).

(** ** Transform composer *)

(** The value of the local [modelView] of [SetTransformations]. *)
Definition modelView (scaleXYZ : vec3)
    (XrotationDegrees YrotationDegrees ZrotationDegrees : float)
    (positionXYZ : vec3) : mat4 :=
  let scale := glm_scale scaleXYZ in
  let rotationX :=
    glm_rotate (glm_radians XrotationDegrees)
      (mk_vec3 F32.one F32.zero F32.zero) in
  let rotationY :=
    glm_rotate (glm_radians YrotationDegrees)
      (mk_vec3 F32.zero F32.one F32.zero) in
  let rotationZ :=
    glm_rotate (glm_radians ZrotationDegrees)
      (mk_vec3 F32.zero F32.zero F32.one) in
  let translation := glm_translate positionXYZ in
  mat4_mul (mat4_mul (mat4_mul (mat4_mul translation rotationZ) rotationY)
              rotationX) scale.

(** [m_pShaderManager != NULL]. *)
Definition has_shader_manager (sm : SceneManager) : bool :=
  match m_pShaderManager sm with
  | NULL => false
  | pShaderManager => true
  end.

(** [SetTransformations(scaleXYZ, X, Y, Z, positionXYZ)]. *)
Definition SetTransformations (scaleXYZ : vec3)
    (XrotationDegrees YrotationDegrees ZrotationDegrees : float)
    (positionXYZ : vec3) : M unit :=
  let modelView :=
    modelView scaleXYZ XrotationDegrees YrotationDegrees ZrotationDegrees
      positionXYZ in
  sm ← get_scene;
  if has_shader_manager sm then setMat4Value g_ModelName modelView
  else mret tt.

(** ** Shader state gateway *)

(** [SetShaderColor(red, green, blue, alpha)]. *)
Definition SetShaderColor
    (redColorValue greenColorValue blueColorValue alphaValue : float)
  : M unit :=
  let currentColor :=
    mk_vec4 redColorValue greenColorValue blueColorValue alphaValue in
  sm ← get_scene;
  if has_shader_manager sm then
    setIntValue g_UseTextureName 0;;
    setVec4Value g_ColorValueName currentColor
  else mret tt.

(** [SetShaderTexture(textureTag)]. *)
Definition SetShaderTexture (textureTag : string) : M unit :=
  sm ← get_scene;
  if has_shader_manager sm then
    setIntValue g_UseTextureName 1;;
    textureID ← FindTextureSlot textureTag;
    setSampler2DValue g_TextureValueName textureID
  else mret tt.

(** [SetTextureUVScale(u, v)]. *)
Definition SetTextureUVScale (u v : float) : M unit :=
  sm ← get_scene;
  if has_shader_manager sm then setVec2Value "UVscale" (mk_vec2 u v)
  else mret tt.

(** [SetShaderMaterial(materialTag)].  The local [material] is declared
    without an initialiser; [indeterminate] is what its storage holds
    when [FindMaterial] receives it. *)
Definition SetShaderMaterial (indeterminate : OBJECT_MATERIAL.t)
    (materialTag : string) : M unit :=
  sm ← get_scene;
  if 0 <? Z.of_nat (length (m_objectMaterials sm)) then
    '(bReturn, material) ← FindMaterial materialTag indeterminate;
    if bReturn : bool then
      setVec3Value "material.diffuseColor"
        (OBJECT_MATERIAL.diffuseColor material);;
      setVec3Value "material.specularColor"
        (OBJECT_MATERIAL.specularColor material);;
      setFloatValue "material.shininess"
        (OBJECT_MATERIAL.shininess material)
    else mret tt
  else mret tt.

(** ** Clock hands *)

(** The fields of [struct tm] that [RenderScene] reads. *)
Record tm : Type := mk_tm { tm_sec : Z; tm_min : Z; tm_hour : Z }.

(** The three angles [RenderScene] derives from the local time. *)
Definition hourAngle (timeinfo : tm) : float :=
  F32.mul
    (F32.neg
       (F32.add (F32.of_int (int_rem (tm_hour timeinfo) 12))
          (F32.div (F32.of_int (tm_min timeinfo)) (F32.of_int 60))))
    (F32.of_int 30).

Definition minuteAngle (timeinfo : tm) : float :=
  F32.mul (F32.of_int (int_neg (tm_min timeinfo))) (F32.of_int 6).

Definition secondAngle (timeinfo : tm) : float :=
  F32.mul (F32.of_int (int_neg (tm_sec timeinfo))) (F32.of_int 6).

(** ** Drivers and invariants used to state the properties *)

(** The data-model invariant of the texture registry: the array has
    [MAX_SLOTS] entries and the live count stays within it. *)
Definition registry_ok (sm : SceneManager) : Prop :=
  length (m_textureIDs sm) = Z.to_nat MAX_SLOTS /\
  0 <= m_loadedTextures sm <= MAX_SLOTS.

(** The live entries, in registration order. *)
Definition live_textures (sm : SceneManager) : list TEXTURE_INFO.t :=
  take (Z.to_nat (m_loadedTextures sm)) (m_textureIDs sm).

(** The entries carrying a tag. *)
Definition has_tag (tag : string) (e : TEXTURE_INFO.t) : Prop :=
  TEXTURE_INFO.tag e = tag.

Global Instance has_tag_dec tag e : Decision (has_tag tag e).
Proof. unfold has_tag. apply _. Defined.

(** What a lookup returns when [r] is the first match of the scan that
    started at index [base]. *)
Definition lookup_result (result : Z -> TEXTURE_INFO.t -> Z) (base : nat)
    (r : option (nat * TEXTURE_INFO.t)) : Z :=
  match r with
  | Some (j, e) => result (Z.of_nat (base + j)) e
  | None => -1
  end.

(** The OpenGL calls of [CreateGLTexture] for a decoded image, up to
    the test of the channel count. *)
Definition texture_setup_calls (name : Z) : list GLCall :=
  [ GenTextures name;
    BindTexture GL_TEXTURE_2D name;
    TexParameteri GL_TEXTURE_2D GL_TEXTURE_WRAP_S GL_REPEAT;
    TexParameteri GL_TEXTURE_2D GL_TEXTURE_WRAP_T GL_REPEAT;
    TexParameteri GL_TEXTURE_2D GL_TEXTURE_MIN_FILTER GL_LINEAR;
    TexParameteri GL_TEXTURE_2D GL_TEXTURE_MAG_FILTER GL_LINEAR ].

(** The OpenGL calls of a [CreateGLTexture] that reaches the
    registration. *)
Definition texture_upload_calls (name : Z) (image : stbi_image)
  : list GLCall :=
  texture_setup_calls name ++
  [ (if colorChannels image =? 3 then
       TexImage2D GL_TEXTURE_2D 0 GL_RGB8 (width image) (height image) 0
         GL_RGB GL_UNSIGNED_BYTE (pixels image)
     else
       TexImage2D GL_TEXTURE_2D 0 GL_RGBA8 (width image) (height image) 0
         GL_RGBA GL_UNSIGNED_BYTE (pixels image));
    GenerateMipmap GL_TEXTURE_2D;
    BindTexture GL_TEXTURE_2D 0 ].

(** The texture names a sequence of OpenGL calls generated. *)
Definition generated_names (calls : list GLCall) : list Z :=
  omap (fun c => match c with GenTextures n => Some n | _ => None end)
    calls.

(** The names [k] consecutive [glGenTextures] calls return to a context
    that has received [calls]. *)
Fixpoint fresh_names (k : nat) (calls : list GLCall) : list Z :=
  match k with
  | O => []
  | S k' =>
      let name := wrap_GLuint (gen_texture_name calls) in
      name :: fresh_names k' (calls ++ [GenTextures name])
  end.

(** The world after the shader manager has received [calls]. *)
Definition with_uniforms (w : World) (calls : ShaderManager) : World :=
  mk_World (scene w) (shaderManager w ++ calls) (glContext w).

(** The tags of the material registry. *)
Definition material_tags (sm : SceneManager) : list string :=
  OBJECT_MATERIAL.tag <$> m_objectMaterials sm.

(** The OpenGL calls that bind [entries] to the texture units from
    [GL_TEXTURE0 + i] on. *)
Fixpoint bind_calls (i : Z) (entries : list TEXTURE_INFO.t) : list GLCall :=
  match entries with
  | [] => []
  | e :: rest =>
      ActiveTexture (GL_TEXTURE0_plus i) ::
      BindTexture GL_TEXTURE_2D (TEXTURE_INFO.ID e) ::
      bind_calls (i + 1) rest
  end.

(** An entry with its handle replaced. *)
Definition rename (e : TEXTURE_INFO.t) (name : Z) : TEXTURE_INFO.t :=
  TEXTURE_INFO.mk (TEXTURE_INFO.tag e) name.

(** A sequence of registrations [(filename, tag)], one
    [CreateGLTexture] call each, as [LoadSceneTextures] issues them. *)
Fixpoint CreateGLTextures (regs : list (string * string)) : M (list bool) :=
  match regs with
  | [] => mret []
  | (filename, tag) :: rest =>
      bReturn ← CreateGLTexture filename tag;
      others ← CreateGLTextures rest;
      mret (bReturn :: others)
  end.

(** [stbi_load] decodes [filename] to an image with 3 or 4 channels. *)
Definition loadable (filename : string) : Prop :=
  exists image, stbi_load true filename = Some image /\
    (colorChannels image = 3 \/ colorChannels image = 4).

(** The two mutually exclusive calls of the gateway. *)
Inductive GatewayCall : Type :=
  | CallSetShaderColor (r g b a : float)
  | CallSetShaderTexture (textureTag : string).

Definition run_call (c : GatewayCall) : M unit :=
  match c with
  | CallSetShaderColor r g b a => SetShaderColor r g b a
  | CallSetShaderTexture textureTag => SetShaderTexture textureTag
  end.

Fixpoint run_calls (cs : list GatewayCall) : M unit :=
  match cs with
  | [] => mret tt
  | c :: rest => run_call c;; run_calls rest
  end.

Definition is_texture_call (c : GatewayCall) : bool :=
  match c with
  | CallSetShaderColor _ _ _ _ => false
  | CallSetShaderTexture _ => true
  end.

(** ** The clock-hand formulas as the specification words them *)

(** "hourAngle = -(hour mod 12 + minute/60) x 30 degrees", in exact
    rational arithmetic. *)
Definition spec_hourAngle (timeinfo : tm) : Q :=
  (- (inject_Z (tm_hour timeinfo mod 12) + inject_Z (tm_min timeinfo) / 60)
   * 30)%Q.

(** "minuteAngle = -minute x 6 degrees". *)
Definition spec_minuteAngle (timeinfo : tm) : Q :=
  (- inject_Z (tm_min timeinfo) * 6)%Q.

(** "secondAngle = -second x 6 degrees". *)
Definition spec_secondAngle (timeinfo : tm) : Q :=
  (- inject_Z (tm_sec timeinfo) * 6)%Q.

(** The three angles the code derives are exactly the specified ones. *)
Definition clock_angles_exact (timeinfo : tm) : Prop :=
  F32.is_Q (hourAngle timeinfo) (spec_hourAngle timeinfo) = true /\
  F32.is_Q (minuteAngle timeinfo) (spec_minuteAngle timeinfo) = true /\
  F32.is_Q (secondAngle timeinfo) (spec_secondAngle timeinfo) = true.

(** A time [localtime_s] can report. *)
Definition valid_time (timeinfo : tm) : Prop :=
  0 <= tm_hour timeinfo <= 23 /\ 0 <= tm_min timeinfo <= 59 /\
  0 <= tm_sec timeinfo <= 60.

(** The integers [0 .. n-1]. *)
Definition range (n : nat) : list Z := Z.of_nat <$> seq 0 n.

(** The clock-hand properties at one hour and minute, one minute, one
    second, as executable checks. *)
Definition hour_check (h m : Z) : bool :=
  let t := mk_tm 0 m h in
  F32.near_Q (1 # 65536) (hourAngle t) (spec_hourAngle t) &&
  (if m mod 15 =? 0 then F32.is_Q (hourAngle t) (spec_hourAngle t)
   else true).

Definition minute_check (m : Z) : bool :=
  let t := mk_tm 0 m 0 in F32.is_Q (minuteAngle t) (spec_minuteAngle t).

Definition second_check (s : Z) : bool :=
  let t := mk_tm s 0 0 in F32.is_Q (secondAngle t) (spec_secondAngle t).

End Model.

(** * Reference instances of the interfaces

    Concrete collaborators on which the properties below are exercised. *)

(** GLM over the real numbers: the matrices GLM builds, with exact
    arithmetic in place of binary32 rounding.  Matrices are stored by
    columns, as in GLM. *)
Module RealGlm.

Local Open Scope R_scope.

(** The real number a [float] denotes (0 for infinities and NaN). *)
Definition to_R (x : float) : R :=
  match x with
  | S754_finite s m e => IZR (if s then Zneg m else Zpos m) * powerRZ 2 e
  | _ => 0
  end.

Record rvec4 : Type := mk_rvec4 { rx : R; ry : R; rz : R; rw : R }.
Record rmat4 : Type :=
  mk_rmat4 { col0 : rvec4; col1 : rvec4; col2 : rvec4; col3 : rvec4 }.

Definition vscale (v : rvec4) (a : R) : rvec4 :=
  mk_rvec4 (rx v * a) (ry v * a) (rz v * a) (rw v * a).

Definition vadd (u v : rvec4) : rvec4 :=
  mk_rvec4 (rx u + rx v) (ry u + ry v) (rz u + rz v) (rw u + rw v).

(** [m * v] for a column vector [v]. *)
Definition mul_vec (m : rmat4) (v : rvec4) : rvec4 :=
  vadd (vadd (vadd (vscale (col0 m) (rx v)) (vscale (col1 m) (ry v)))
          (vscale (col2 m) (rz v)))
    (vscale (col3 m) (rw v)).

Definition mul (m1 m2 : rmat4) : rmat4 :=
  mk_rmat4 (mul_vec m1 (col0 m2)) (mul_vec m1 (col1 m2))
    (mul_vec m1 (col2 m2)) (mul_vec m1 (col3 m2)).

Definition identity : rmat4 :=
  mk_rmat4 (mk_rvec4 1 0 0 0) (mk_rvec4 0 1 0 0) (mk_rvec4 0 0 1 0)
    (mk_rvec4 0 0 0 1).

Definition scale (v : vec3) : rmat4 :=
  mk_rmat4 (vscale (col0 identity) (to_R (v3_x v)))
    (vscale (col1 identity) (to_R (v3_y v)))
    (vscale (col2 identity) (to_R (v3_z v)))
    (col3 identity).

Definition translate (v : vec3) : rmat4 :=
  mk_rmat4 (col0 identity) (col1 identity) (col2 identity)
    (mul_vec identity
       (mk_rvec4 (to_R (v3_x v)) (to_R (v3_y v)) (to_R (v3_z v)) 1)).

(** Rotation by [angle] about the normalised [v]. *)
Definition rotate (angle : float) (v : vec3) : rmat4 :=
  let c := cos (to_R angle) in
  let s := sin (to_R angle) in
  let len :=
    sqrt (to_R (v3_x v) * to_R (v3_x v) + to_R (v3_y v) * to_R (v3_y v)
          + to_R (v3_z v) * to_R (v3_z v)) in
  let ax := to_R (v3_x v) / len in
  let ay := to_R (v3_y v) / len in
  let az := to_R (v3_z v) / len in
  let tx := (1 - c) * ax in
  let ty := (1 - c) * ay in
  let tz := (1 - c) * az in
  mul identity
    (mk_rmat4
       (mk_rvec4 (c + tx * ax) (tx * ay + s * az) (tx * az - s * ay) 0)
       (mk_rvec4 (ty * ax - s * az) (c + ty * ay) (ty * az + s * ax) 0)
       (mk_rvec4 (tz * ax + s * ay) (tz * ay - s * ax) (c + tz * az) 0)
       (mk_rvec4 0 0 0 1)).

(** The binary32 number nearest to pi/180. *)
Definition deg_to_rad : float := S754_finite false 9370165 (-29).

Definition radians (degrees : float) : float := F32.mul degrees deg_to_rad.

Definition glm : Glm := {|
  mat4 := rmat4;
  mat4_identity := identity;
  mat4_mul := mul;
  glm_radians := radians;
  glm_scale := scale;
  glm_rotate := rotate;
  glm_translate := translate;
|}.

End RealGlm.

(** A decoder that knows four files: an RGB image, an RGBA image, a
    grey-scale one, and a file that does not decode. *)
Module SampleStb.

Definition image (channels : Z) : stbi_image :=
  {| width := 2; height := 2; colorChannels := channels;
     pixels := Z.iter (4 * channels) (cons 255) [] |}.

Definition load (flip : bool) (filename : string) : option stbi_image :=
  if String.eqb filename "textures/Wood_table.png" then Some (image 4)
  else if String.eqb filename "textures/lamp_body.jpg" then Some (image 3)
  else if String.eqb filename "textures/gray.png" then Some (image 1)
  else None.

Definition stb : Stb := {| stbi_load := load |}.

End SampleStb.

(** A driver that hands out the names 1, 2, 3, ... in order. *)
Module SampleGL.

Definition next_name (calls : list GLCall) : Z :=
  1 + Z.of_nat (length (omap (fun c =>
                                match c with
                                | GenTextures n => Some n
                                | _ => None
                                end) calls)).

Definition ogl : OpenGL := {| gen_texture_name := next_name |}.

End SampleGL.

(** Sample states, over the reference instances. *)
Module Samples.

(** [n / d] rounded to binary32, for decimal literals such as [0.8f]. *)
Definition ratio (n d : Z) : float := F32.div (F32.of_int n) (F32.of_int d).

(** An unused entry of the table. *)
Definition blank : TEXTURE_INFO.t := TEXTURE_INFO.mk EmptyString 0.

(** A 16-entry table whose first entries are [entries]. *)
Definition table (entries : list TEXTURE_INFO.t) : list TEXTURE_INFO.t :=
  entries ++ replicate (16 - length entries) blank.

Definition world_of (p : ShaderManagerPtr) (entries : list TEXTURE_INFO.t)
    (mats : list OBJECT_MATERIAL.t) : @World RealGlm.glm :=
  mk_World
    (mk_SceneManager p (Z.of_nat (length entries)) (table entries) mats)
    [] [].

(** The first material [PrepareScene] defines. *)
Definition desk : OBJECT_MATERIAL.t :=
  OBJECT_MATERIAL.mk "desk"
    (mk_vec3 (ratio 8 10) (ratio 5 10) (ratio 2 10))
    (mk_vec3 (ratio 5 10) (ratio 5 10) (ratio 5 10))
    (F32.of_int 32).

(** No texture and no material registered. *)
Definition empty_world : @World RealGlm.glm := world_of pShaderManager [] [].

(** The same, without a shader manager. *)
Definition null_world : @World RealGlm.glm := world_of NULL [] [].

(** Two textures and the desk material registered. *)
Definition desk_world : @World RealGlm.glm :=
  world_of pShaderManager
    [TEXTURE_INFO.mk "desk" 1; TEXTURE_INFO.mk "bronze" 2] [desk].

(** The tags [LoadSceneTextures] registers, in its order. *)
Definition scene_tags : list string :=
  [ "desk"; "bronze"; "crome"; "rubber"; "cover"; "fabric"; "fabricB";
    "clockF"; "ceilingT"; "planksW"; "marble_floor" ].

(** The eleven textures of the scene registered under the names 1..11. *)
Definition scene_world : @World RealGlm.glm :=
  world_of pShaderManager
    (zip_with TEXTURE_INFO.mk scene_tags (Z.of_nat <$> seq 1 11)) [desk].

(** Sixteen textures registered: the eleven of the scene and five more. *)
Definition full_world : @World RealGlm.glm :=
  world_of pShaderManager
    (zip_with TEXTURE_INFO.mk
       (scene_tags ++ ["extra12"; "extra13"; "extra14"; "extra15"; "extra16"])
       (Z.of_nat <$> seq 1 16))
    [desk].

End Samples.

(** * Scene set-up, and the notions the further properties are stated with *)

(** Floating-point literals of the source. *)
Module Literal.

(** The literal [n/d] with suffix [f]: the binary32 number nearest to the
    decimal fraction. *)
Definition f (n d : Z) : float := F32.div (F32.of_int n) (F32.of_int d).

(** The literal [n/d] without suffix: the binary64 number nearest to the
    decimal fraction. *)
Definition d (n d : Z) : spec_float :=
  SFdiv 53 1024 (binary_normalize 53 1024 n 0 false)
    (binary_normalize 53 1024 d 0 false).

(** Conversion of a [double] to [float]. *)
Definition to_float (x : spec_float) : float :=
  match x with
  | S754_finite s m e =>
      binary_normalize F32.prec F32.emax (if s then Zneg m else Zpos m) e s
  | _ => x
  end.

End Literal.

(** [glm::cos], which only the light set-up calls. *)
Class GlmTrig : Type := {
  glm_cos : float -> float;
}.

Section SceneSetup.

Context `{glm : Glm} `{stb : Stb} `{ogl : OpenGL} `{trig : GlmTrig}.

(** [setBoolValue(name, b)].  The sink keeps a Boolean as the integer it
    converts to, as it does for the [bool] that [setIntValue] receives. *)
Definition setBoolValue (name : string) (b : bool) : M unit :=
  set_uniform name (UInt (if b then 1 else 0)).

(** [glm::vec3(x)]. *)
Definition splat (x : float) : vec3 := mk_vec3 x x x.

(** [SetupSceneLights()]. *)
Definition SetupSceneLights : M unit :=
  setBoolValue g_UseLightingName true;;
  setVec3Value "viewPosition"
    (mk_vec3 (Literal.f 0 1) (Literal.f (-10) 1) (Literal.f 10 1));;
  setBoolValue "directionalLight.bActive" true;;
  setVec3Value "directionalLight.direction"
    (mk_vec3 (Literal.f (-3) 10) (Literal.f (-1) 1)
       (Literal.to_float (SFopp (Literal.d 3 10))));;
  setVec3Value "directionalLight.ambient" (splat (Literal.f 2 10));;
  setVec3Value "directionalLight.diffuse" (splat (Literal.f 6 10));;
  setVec3Value "directionalLight.specular" (splat (Literal.f 1 1));;
  setBoolValue "pointLights[0].bActive" true;;
  setVec3Value "pointLights[0].position"
    (mk_vec3 (Literal.f (-5) 1) (Literal.f 65 10) (Literal.f (-5) 1));;
  setVec3Value "pointLights[0].ambient"
    (mk_vec3 (Literal.f 5 100) (Literal.f 5 100) (Literal.f 5 10));;
  setVec3Value "pointLights[0].diffuse"
    (mk_vec3 (Literal.f 2 10) (Literal.f 2 10) (Literal.f 2 10));;
  setVec3Value "pointLights[0].specular"
    (mk_vec3 (Literal.f 4 10) (Literal.f 3 10) (Literal.f 3 10));;
  setBoolValue "spotLight.bActive" true;;
  setVec3Value "spotLight.position"
    (mk_vec3 (Literal.f (-22) 10) (Literal.f 65 10)
       (Literal.to_float (Literal.d 25 10)));;
  setVec3Value "spotLight.direction"
    (mk_vec3 (Literal.f (-7) 10) (Literal.f (-15) 10) (Literal.f 1 1));;
  setFloatValue "spotLight.cutOff" (glm_cos (glm_radians (Literal.f 125 10)));;
  setFloatValue "spotLight.outerCutOff"
    (glm_cos (glm_radians (Literal.f 355 10)));;
  setVec3Value "spotLight.ambient" (splat (Literal.f 1 1000));;
  setVec3Value "spotLight.diffuse"
    (mk_vec3 (Literal.f 4 1) (Literal.f 44 10) (Literal.f 4 1));;
  setVec3Value "spotLight.specular" (splat (Literal.f 3 1));;
  setFloatValue "spotLight.constant" (Literal.f 1 1);;
  setFloatValue "spotLight.linear" (Literal.f 9 100);;
  setFloatValue "spotLight.quadratic" (Literal.f 32 1000).

(** [m_objectMaterials.push_back(material)]. *)
Definition push_back_material (material : OBJECT_MATERIAL.t) : M unit :=
  sm ← get_scene;
  put_scene (mk_SceneManager (m_pShaderManager sm) (m_loadedTextures sm)
               (m_textureIDs sm) (m_objectMaterials sm ++ [material])).

(** The twelve materials [PrepareScene] defines, in its order. *)
Definition scene_materials : list OBJECT_MATERIAL.t :=
  [ OBJECT_MATERIAL.mk "desk"
      (mk_vec3 (Literal.f 8 10) (Literal.f 5 10) (Literal.f 2 10))
      (splat (Literal.f 5 10)) (Literal.f 32 1);
    OBJECT_MATERIAL.mk "lamp"
      (splat (Literal.f 8 10)) (splat (Literal.f 5 10)) (Literal.f 64 1);
    OBJECT_MATERIAL.mk "lamp_head"
      (splat (Literal.f 5 10)) (splat (Literal.f 8 10)) (Literal.f 32 1);
    OBJECT_MATERIAL.mk "lamp_base"
      (splat (Literal.f 7 10)) (splat (Literal.f 4 10)) (Literal.f 16 1);
    OBJECT_MATERIAL.mk "rubber"
      (splat (Literal.f 6 10)) (splat (Literal.f 3 10)) (Literal.f 16 1);
    OBJECT_MATERIAL.mk "cover"
      (splat (Literal.f 5 10))
      (mk_vec3 (Literal.f 1 10) (Literal.f 1 10) (Literal.f 2 10))
      (Literal.f 1 1);
    OBJECT_MATERIAL.mk "fabric"
      (splat (Literal.f 5 10))
      (mk_vec3 (Literal.f 1 10) (Literal.f 1 10) (Literal.f 1 10))
      (Literal.f 1 1);
    OBJECT_MATERIAL.mk "fabricB"
      (splat (Literal.f 1 1))
      (mk_vec3 (Literal.f 1 10) (Literal.f 1 10) (Literal.f 1 10))
      (Literal.f 4 10);
    OBJECT_MATERIAL.mk "clockF"
      (splat (Literal.f 1 1))
      (mk_vec3 (Literal.f 1 10) (Literal.f 1 10) (Literal.f 1 10))
      (Literal.f 4 10);
    OBJECT_MATERIAL.mk "marbleF"
      (mk_vec3 (Literal.f 8 10) (Literal.f 5 10) (Literal.f 2 10))
      (splat (Literal.f 1 1)) (Literal.f 64 1);
    OBJECT_MATERIAL.mk "planksW"
      (mk_vec3 (Literal.f 8 10) (Literal.f 5 10) (Literal.f 2 10))
      (splat (Literal.f 5 10)) (Literal.f 5 10);
    OBJECT_MATERIAL.mk "ceilingT"
      (mk_vec3 (Literal.f 8 10) (Literal.f 5 10) (Literal.f 2 10))
      (splat (Literal.f 5 10)) (Literal.f 5 1) ].

(** The [material = ...; push_back(material)] blocks of [PrepareScene]:
    the local is assigned all four fields before each [push_back]. *)
Fixpoint define_materials (materials : list OBJECT_MATERIAL.t) : M unit :=
  match materials with
  | [] => mret tt
  | material :: rest => push_back_material material;; define_materials rest
  end.

(** [LoadSceneTextures()].  The console output is left out, and with it
    the test of the last [bReturn]. *)
Definition LoadSceneTextures : M unit :=
  bReturn ← CreateGLTexture "textures/Wood_table.png" "desk";
  bReturn ← CreateGLTexture "textures/lamp_body.jpg" "bronze";
  bReturn ← CreateGLTexture "textures/metal_head.jpg" "crome";
  bReturn ← CreateGLTexture "textures/rubber_holds.jpg" "rubber";
  bReturn ← CreateGLTexture "textures/book_cover.jpg" "cover";
  bReturn ← CreateGLTexture "textures/book_fabric.jpg" "fabric";
  bReturn ← CreateGLTexture "textures/fabric_black.jpg" "fabricB";
  bReturn ← CreateGLTexture "textures/clock_face.jpg" "clockF";
  bReturn ← CreateGLTexture "textures/ceiling.jpg" "ceilingT";
  bReturn ← CreateGLTexture "textures/planks.jpg" "planksW";
  bReturn ← CreateGLTexture "textures/marble.jpg" "marble_floor";
  BindGLTextures.

(** [PrepareScene()], without the mesh loading: the meshes are outside
    the state modelled. *)
Definition PrepareScene : M unit :=
  SetupSceneLights;;
  define_materials scene_materials;;
  LoadSceneTextures.

(** ** Notions for the properties *)

(** The files and tags of [LoadSceneTextures], in its order. *)
Definition scene_textures : list (string * string) :=
  [ ("textures/Wood_table.png", "desk");
    ("textures/lamp_body.jpg", "bronze");
    ("textures/metal_head.jpg", "crome");
    ("textures/rubber_holds.jpg", "rubber");
    ("textures/book_cover.jpg", "cover");
    ("textures/book_fabric.jpg", "fabric");
    ("textures/fabric_black.jpg", "fabricB");
    ("textures/clock_face.jpg", "clockF");
    ("textures/ceiling.jpg", "ceilingT");
    ("textures/planks.jpg", "planksW");
    ("textures/marble.jpg", "marble_floor") ].

(** [CreateGLTexture] registers [filename]: it decodes to 3 or 4
    channels. *)
Definition registers (filename : string) : bool :=
  match stbi_load true filename with
  | Some image => (colorChannels image =? 3) || (colorChannels image =? 4)
  | None => false
  end.

(** The OpenGL calls of a [CreateGLTexture] that does not register. *)
Definition rejected_calls (filename : string) (calls : list GLCall)
  : list GLCall :=
  match stbi_load true filename with
  | Some _ => texture_setup_calls (wrap_GLuint (gen_texture_name calls))
  | None => []
  end.

(** The registrations of a sequence that register. *)
Definition registered (regs : list (string * string))
  : list (string * string) :=
  List.filter (fun r => registers r.1) regs.

(** The tags of the live textures, in slot order. *)
Definition live_tags (sm : SceneManager) : list string :=
  TEXTURE_INFO.tag <$> live_textures sm.

(** The handles of the live textures, in slot order. *)
Definition live_handles (sm : SceneManager) : list Z :=
  TEXTURE_INFO.ID <$> live_textures sm.

(** The texture of the last [glBindTexture] call, if there was one. *)
Definition last_bound (calls : list GLCall) : option Z :=
  last (omap (fun c => match c with
                       | BindTexture _ texture => Some texture
                       | _ => None
                       end) calls).

(** The driver never hands out a name it has generated before, for as
    long as positive names are left. *)
Definition fresh_driver : Prop :=
  forall calls : list GLCall,
    Z.of_nat (length (generated_names calls)) < 2 ^ 32 - 1 ->
    wrap_GLuint (gen_texture_name calls) ∉ generated_names calls.

(** The context has names left for a full table. *)
Definition names_left (w : World) : Prop :=
  Z.of_nat (length (generated_names (glContext w))) + MAX_SLOTS
    < 2 ^ 32 - 1.

(** No two live entries share a handle, and every live handle is a name
    the context generated. *)
Definition handles_tracked (w : World) : Prop :=
  NoDup (live_handles (scene w)) /\
  forall id, id ∈ live_handles (scene w) ->
             id ∈ generated_names (glContext w).

(** The first material with a tag, and its position. *)
Definition first_material (tag : string) (sm : SceneManager)
  : option (nat * OBJECT_MATERIAL.t) :=
  list_find (fun m => OBJECT_MATERIAL.tag m = tag) (m_objectMaterials sm).

(** The three uniforms [SetShaderMaterial] pushes for a material. *)
Definition material_uniforms (material : OBJECT_MATERIAL.t) : ShaderManager :=
  [ ("material.diffuseColor",
     UVec3 (OBJECT_MATERIAL.diffuseColor material));
    ("material.specularColor",
     UVec3 (OBJECT_MATERIAL.specularColor material));
    ("material.shininess", UFloat (OBJECT_MATERIAL.shininess material)) ].

(** The five calls that push per-draw state. *)
Inductive SetterCall : Type :=
  | CallSetTransformations (scaleXYZ : vec3) (x y z : float)
      (positionXYZ : vec3)
  | CallSetColor (r g b a : float)
  | CallSetTexture (textureTag : string)
  | CallSetUVScale (u v : float)
  | CallSetMaterial (indeterminate : OBJECT_MATERIAL.t) (materialTag : string).

Definition run_setter (c : SetterCall) : M unit :=
  match c with
  | CallSetTransformations s x y z p => SetTransformations s x y z p
  | CallSetColor r g b a => SetShaderColor r g b a
  | CallSetTexture textureTag => SetShaderTexture textureTag
  | CallSetUVScale u v => SetTextureUVScale u v
  | CallSetMaterial indeterminate materialTag =>
      SetShaderMaterial indeterminate materialTag
  end.

Fixpoint run_setters (cs : list SetterCall) : M unit :=
  match cs with
  | [] => mret tt
  | c :: rest => run_setter c;; run_setters rest
  end.

(** The uniforms a call may set. *)
Definition setter_names (c : SetterCall) : list string :=
  match c with
  | CallSetTransformations _ _ _ _ _ => [g_ModelName]
  | CallSetColor _ _ _ _ => [g_UseTextureName; g_ColorValueName]
  | CallSetTexture _ => [g_UseTextureName; g_TextureValueName]
  | CallSetUVScale _ _ => ["UVscale"]
  | CallSetMaterial _ _ =>
      ["material.diffuseColor"; "material.specularColor";
       "material.shininess"]
  end.

Definition is_material_call (c : SetterCall) : bool :=
  match c with
  | CallSetMaterial _ _ => true
  | _ => false
  end.

(** The uniforms the per-draw calls may set. *)
Definition per_draw_names : list string :=
  [ g_ModelName; g_UseTextureName; g_ColorValueName; g_TextureValueName;
    "UVscale"; "material.diffuseColor"; "material.specularColor";
    "material.shininess" ].

(** The uniforms [SetupSceneLights] sets, in its order. *)
Definition light_names : list string :=
  [ g_UseLightingName; "viewPosition";
    "directionalLight.bActive"; "directionalLight.direction";
    "directionalLight.ambient"; "directionalLight.diffuse";
    "directionalLight.specular";
    "pointLights[0].bActive"; "pointLights[0].position";
    "pointLights[0].ambient"; "pointLights[0].diffuse";
    "pointLights[0].specular";
    "spotLight.bActive"; "spotLight.position"; "spotLight.direction";
    "spotLight.cutOff"; "spotLight.outerCutOff"; "spotLight.ambient";
    "spotLight.diffuse"; "spotLight.specular"; "spotLight.constant";
    "spotLight.linear"; "spotLight.quadratic" ].

(** The minute of the half-day a time falls in, 0..719. *)
Definition dial_minute (timeinfo : tm) : Z :=
  60 * (tm_hour timeinfo mod 12) + tm_min timeinfo.

(** [x] is finite and denotes a rational in [lo, 0], or in (lo, 0] when
    [strict]. *)
Definition in_turn (strict : bool) (lo : Q) (x : float) : bool :=
  match F32.to_Q x with
  | Some q =>
      Qle_bool q 0 && (if strict then negb (Qle_bool q lo) else Qle_bool lo q)
  | None => false
  end.

(** The ranges of the three angles at one hour and minute, one minute,
    one second, as executable checks. *)
Definition hour_range_check (h m : Z) : bool :=
  in_turn true (-360) (hourAngle (mk_tm 0 m h)).

Definition minute_range_check (m : Z) : bool :=
  in_turn false (-354) (minuteAngle (mk_tm 0 m 0)).

Definition second_range_check (s : Z) : bool :=
  in_turn false (-360) (secondAngle (mk_tm s 0 0)).

End SceneSetup.

(** A driver that hands out the smallest positive name it has not
    generated yet. *)
Module FreshGL.

Definition unused (calls : list GLCall) : Z :=
  let used := generated_names calls in
  default 0
    (head (filter (fun n => n ∉ used)
             (seqZ 1 (Z.of_nat (S (length used)))))).

Definition ogl : OpenGL := {| gen_texture_name := unused |}.

End FreshGL.

(** A stand-in for [glm::cos]: the first terms of its series. *)
Module SampleTrig.

Definition cos (x : float) : float :=
  F32.add F32.one (F32.neg (F32.div (F32.mul x x) (F32.of_int 2))).

Definition trig : GlmTrig := {| glm_cos := cos |}.

End SampleTrig.

(** Further sample states. *)
Module MoreSamples.

(** Two textures whose handles the context generated. *)
Definition tracked_world : @World RealGlm.glm :=
  mk_World (scene Samples.desk_world) []
    [GenTextures 1; GenTextures 2].

(** The desk material registered, without a shader manager. *)
Definition null_desk_world : @World RealGlm.glm :=
  Samples.world_of NULL [] [Samples.desk].

(** The desk material registered twice, the second time in another
    colour. *)
Definition repainted : OBJECT_MATERIAL.t :=
  OBJECT_MATERIAL.mk "desk" (splat (Literal.f 1 10))
    (splat (Literal.f 9 10)) (Literal.f 2 1).

Definition two_desks_world : @World RealGlm.glm :=
  Samples.world_of pShaderManager [] [Samples.desk; repainted].

(** One texture, whose handle is the largest [GLuint]. *)
Definition last_name_world : @World RealGlm.glm :=
  Samples.world_of pShaderManager [TEXTURE_INFO.mk "desk" (2 ^ 32 - 1)] [].

End MoreSamples.

(** * Properties *)

Section Properties.

Context `{glm : Glm} `{stb : Stb} `{ogl : OpenGL}.

(** ** Machine integers *)

Lemma wrap_int_small (z : Z) : - 2 ^ 31 <= z < 2 ^ 31 -> wrap_int z = z.
Proof.
  intros Hz. unfold wrap_int.
  rewrite Z.mod_small by lia. lia.
Qed.

Lemma wrap_GLuint_range (z : Z) : 0 <= wrap_GLuint z < 2 ^ 32.
Proof. unfold wrap_GLuint. apply Z.mod_pos_bound. lia. Qed.

Lemma GLuint_int_roundtrip (u : Z) :
  0 <= u < 2 ^ 32 -> wrap_GLuint (int_of_GLuint u) = u.
Proof.
  intros Hu. unfold wrap_GLuint, int_of_GLuint, wrap_int.
  destruct (Z_lt_ge_dec u (2 ^ 31)) as [Hlt | Hge].
  - rewrite (Z.mod_small (u + 2 ^ 31)) by lia.
    replace (u + 2 ^ 31 - 2 ^ 31) with u by lia.
    apply Z.mod_small; lia.
  - replace (u + 2 ^ 31) with (u - 2 ^ 31 + 1 * 2 ^ 32) by lia.
    rewrite Z.mod_add by lia.
    rewrite (Z.mod_small (u - 2 ^ 31)) by lia.
    replace (u - 2 ^ 31 - 2 ^ 31) with (u + (-1) * 2 ^ 32) by lia.
    rewrite Z.mod_add by lia.
    apply Z.mod_small; lia.
Qed.

(** ** Running the monad *)

Lemma bind_Ret {A B : Type} (c : M A) (f : A -> M B) (w w' : World) (a : A) :
  c w = Ret (a, w') -> (c ≫= f) w = f a w'.
Proof. intros Hc. unfold mbind, M_bind. by rewrite Hc. Qed.

Lemma bind_Undefined {A B : Type} (c : M A) (f : A -> M B) (w : World)
    (ub : UB) :
  c w = Undefined ub -> (c ≫= f) w = Undefined ub.
Proof. intros Hc. unfold mbind, M_bind. by rewrite Hc. Qed.

(** ** Reading and writing the texture table *)

Lemma read_texture_Some (i : nat) (e : TEXTURE_INFO.t) (w : World) :
  m_textureIDs (scene w) !! i = Some e ->
  read_texture (Z.of_nat i) w = Ret (e, w).
Proof.
  intros He. unfold read_texture, get_scene, mbind, M_bind.
  destruct (Z.leb_spec 0 (Z.of_nat i)) as [_ | ?]; [| lia].
  rewrite Nat2Z.id, He. reflexivity.
Qed.

Lemma read_texture_None (i : Z) (w : World) :
  Z.of_nat (length (m_textureIDs (scene w))) <= i ->
  read_texture i w = Undefined (OutOfBounds i).
Proof.
  intros Hi. unfold read_texture, get_scene, mbind, M_bind.
  destruct (Z.leb_spec 0 i) as [_ | ?]; [| lia].
  rewrite lookup_ge_None_2 by lia. reflexivity.
Qed.

Lemma write_texture_Some (i : nat) (f : TEXTURE_INFO.t -> TEXTURE_INFO.t)
    (e : TEXTURE_INFO.t) (w : World) :
  m_textureIDs (scene w) !! i = Some e ->
  write_texture (Z.of_nat i) f w =
    Ret (tt, mk_World
               (mk_SceneManager (m_pShaderManager (scene w))
                  (m_loadedTextures (scene w))
                  (<[i := f e]> (m_textureIDs (scene w)))
                  (m_objectMaterials (scene w)))
               (shaderManager w) (glContext w)).
Proof.
  intros He. unfold write_texture.
  rewrite (bind_Ret _ _ _ _ _ (read_texture_Some i e w He)).
  unfold get_scene, put_scene, mbind, M_bind. simpl.
  rewrite Nat2Z.id. reflexivity.
Qed.

Lemma write_texture_None (i : Z) (f : TEXTURE_INFO.t -> TEXTURE_INFO.t)
    (w : World) :
  Z.of_nat (length (m_textureIDs (scene w))) <= i ->
  write_texture i f w = Undefined (OutOfBounds i).
Proof.
  intros Hi. unfold write_texture.
  apply bind_Undefined, read_texture_None, Hi.
Qed.

(** ** The lookup loop *)

Lemma find_texture_scan (result : Z -> TEXTURE_INFO.t -> Z) (tag : string)
    (k i : nat) (w : World) :
  (i + k <= length (m_textureIDs (scene w)))%nat ->
  Z.of_nat (i + k) < 2 ^ 31 ->
  find_texture result tag k (Z.of_nat i) w =
    Ret (lookup_result result i
           (list_find (has_tag tag)
              (take k (drop i (m_textureIDs (scene w))))), w).
Proof.
  revert i. induction k as [| k IH]; intros i Hlen Hsmall.
  - reflexivity.
  - destruct (lookup_lt_is_Some_2 (m_textureIDs (scene w)) i) as [e He];
      [lia |].
    simpl find_texture.
    rewrite (bind_Ret _ _ _ _ _ (read_texture_Some i e w He)).
    rewrite (drop_S _ _ _ He). rewrite firstn_cons. simpl list_find.
    destruct (String.eqb_spec (TEXTURE_INFO.tag e) tag) as [Heq | Hne].
    + rewrite decide_True by exact Heq. simpl.
      rewrite Nat.add_0_r. reflexivity.
    + rewrite decide_False by exact Hne.
      rewrite wrap_int_small by lia.
      replace (Z.of_nat i + 1) with (Z.of_nat (S i)) by lia.
      rewrite IH by lia.
      destruct (list_find (has_tag tag)
                  (take k (drop (S i) (m_textureIDs (scene w)))))
        as [[j e'] |]; simpl; [| reflexivity].
      replace (S (i + j)) with (i + S j)%nat by lia. reflexivity.
Qed.

Lemma FindTextureSlot_scan (tag : string) (w : World) :
  registry_ok (scene w) ->
  FindTextureSlot tag w =
    Ret (lookup_result (fun index _ => index) 0
           (list_find (has_tag tag) (live_textures (scene w))), w).
Proof.
  intros [Hlen Hn]. unfold FindTextureSlot, get_scene, mbind, M_bind.
  unfold MAX_SLOTS in *.
  change 0 with (Z.of_nat 0).
  rewrite find_texture_scan by (simpl; lia).
  reflexivity.
Qed.

Lemma FindTextureID_scan (tag : string) (w : World) :
  registry_ok (scene w) ->
  FindTextureID tag w =
    Ret (lookup_result (fun _ e => int_of_GLuint (TEXTURE_INFO.ID e)) 0
           (list_find (has_tag tag) (live_textures (scene w))), w).
Proof.
  intros [Hlen Hn]. unfold FindTextureID, get_scene, mbind, M_bind.
  unfold MAX_SLOTS in *.
  change 0 with (Z.of_nat 0).
  rewrite find_texture_scan by (simpl; lia).
  reflexivity.
Qed.

(** ** Registration *)

Ltac run_gl :=
  unfold glGenTextures, glCall, get_scene, put_scene, set_loadedTextures,
    mbind, M_bind, mret, M_ret; simpl.

(** A registration at a free index: the entry is stored there and the
    count grows by one. *)
Lemma CreateGLTexture_registers (filename tag : string) (w : World)
    (image : stbi_image) (n : nat) :
  stbi_load true filename = Some image ->
  colorChannels image = 3 \/ colorChannels image = 4 ->
  m_loadedTextures (scene w) = Z.of_nat n ->
  (n < length (m_textureIDs (scene w)))%nat ->
  Z.of_nat n < 2 ^ 31 - 1 ->
  let name := wrap_GLuint (gen_texture_name (glContext w)) in
  CreateGLTexture filename tag w =
    Ret (true,
         mk_World
           (mk_SceneManager (m_pShaderManager (scene w)) (Z.of_nat (S n))
              (<[n := TEXTURE_INFO.mk tag name]> (m_textureIDs (scene w)))
              (m_objectMaterials (scene w)))
           (shaderManager w)
           (glContext w ++ texture_upload_calls name image)).
Proof.
  intros Hload Hch Hn Hlt Hsmall name.
  destruct (lookup_lt_is_Some_2 (m_textureIDs (scene w)) n Hlt) as [e He].
  unfold CreateGLTexture. rewrite Hload.
  unfold texture_upload_calls, texture_setup_calls.
  destruct Hch as [Hch | Hch]; rewrite Hch; simpl;
    run_gl; fold name; rewrite Hn;
    rewrite (write_texture_Some n _ e) by exact He; simpl;
    rewrite (write_texture_Some n _
               (TEXTURE_INFO.mk (TEXTURE_INFO.tag e) name))
      by (simpl; apply list_lookup_insert_eq; exact Hlt);
    simpl; rewrite list_insert_insert_eq;
    rewrite wrap_int_small by lia;
    replace (Z.of_nat n + 1) with (Z.of_nat (S n)) by lia;
    rewrite <- !app_assoc; reflexivity.
Qed.

(** A registration at an index outside the table: the store is
    undefined. *)
Lemma CreateGLTexture_overflows (filename tag : string) (w : World)
    (image : stbi_image) :
  stbi_load true filename = Some image ->
  colorChannels image = 3 \/ colorChannels image = 4 ->
  Z.of_nat (length (m_textureIDs (scene w))) <= m_loadedTextures (scene w) ->
  CreateGLTexture filename tag w =
    Undefined (OutOfBounds (m_loadedTextures (scene w))).
Proof.
  intros Hload Hch Hfull. unfold CreateGLTexture. rewrite Hload.
  destruct Hch as [Hch | Hch]; rewrite Hch; simpl;
    run_gl; rewrite write_texture_None by (simpl; exact Hfull);
    reflexivity.
Qed.

(** An image with another channel count: the call returns [false]
    after the set-up calls and leaves the scene manager alone. *)
Lemma CreateGLTexture_unsupported (filename tag : string) (w : World)
    (image : stbi_image) :
  stbi_load true filename = Some image ->
  colorChannels image <> 3 -> colorChannels image <> 4 ->
  CreateGLTexture filename tag w =
    Ret (false,
         mk_World (scene w) (shaderManager w)
           (glContext w ++
            texture_setup_calls
              (wrap_GLuint (gen_texture_name (glContext w))))).
Proof.
  intros Hload H3 H4. unfold CreateGLTexture. rewrite Hload.
  apply Z.eqb_neq in H3, H4. rewrite H3, H4.
  run_gl. unfold texture_setup_calls.
  rewrite <- !app_assoc. reflexivity.
Qed.

(** An image that does not decode: nothing happens. *)
Lemma CreateGLTexture_undecodable (filename tag : string) (w : World) :
  stbi_load true filename = None ->
  CreateGLTexture filename tag w = Ret (false, w).
Proof.
  intros Hload. unfold CreateGLTexture. rewrite Hload. reflexivity.
Qed.

Lemma generated_names_upload (calls : list GLCall) (name : Z)
    (image : stbi_image) :
  generated_names (calls ++ texture_upload_calls name image) =
    generated_names calls ++ [name].
Proof.
  unfold generated_names. rewrite omap_app. f_equal.
  unfold texture_upload_calls. simpl.
  destruct (colorChannels image =? 3); reflexivity.
Qed.

(** A run of registrations into free slots: all succeed, and the table
    holds the tags with the generated names, in order, from the first
    free slot on. *)
Lemma CreateGLTextures_registers (regs : list (string * string)) :
  forall (w : World) (n : nat),
    m_loadedTextures (scene w) = Z.of_nat n ->
    (n + length regs <= length (m_textureIDs (scene w)))%nat ->
    Z.of_nat (n + length regs) < 2 ^ 31 ->
    Forall (fun r => loadable r.1) regs ->
    exists (w' : World) (ids : list Z),
      CreateGLTextures regs w = Ret (replicate (length regs) true, w') /\
      length ids = length regs /\
      Forall (fun id => 0 <= id < 2 ^ 32) ids /\
      m_loadedTextures (scene w') = Z.of_nat (n + length regs) /\
      m_textureIDs (scene w') =
        take n (m_textureIDs (scene w)) ++
        zip_with TEXTURE_INFO.mk regs.*2 ids ++
        drop (n + length regs) (m_textureIDs (scene w)) /\
      generated_names (glContext w') =
        generated_names (glContext w) ++ ids /\
      shaderManager w' = shaderManager w /\
      m_pShaderManager (scene w') = m_pShaderManager (scene w) /\
      m_objectMaterials (scene w') = m_objectMaterials (scene w).
Proof.
  induction regs as [| [filename tag] rest IH]; intros w n Hn Hlen Hsmall Hall.
  - exists w, []. simpl. rewrite Nat.add_0_r.
    rewrite take_drop. repeat split; try done.
    by rewrite app_nil_r.
  - simpl in Hlen, Hsmall.
    apply Forall_cons in Hall as [(image & Hload & Hch) Hall].
    simpl in Hload.
    pose (name := wrap_GLuint (gen_texture_name (glContext w))).
    pose proof (CreateGLTexture_registers filename tag w image n Hload Hch Hn
                  ltac:(lia) ltac:(lia)) as Hreg.
    simpl in Hreg. fold name in Hreg.
    set (w1 := mk_World _ _ _) in Hreg.
    destruct (IH w1 (S n)) as
      (w' & ids & Hrun & Hids & Hrange & Hcount & Htable & Hgen & Hsh & Hp & Hm).
    { reflexivity. }
    { simpl. rewrite length_insert. lia. }
    { lia. }
    { exact Hall. }
    exists w', (name :: ids).
    split.
    { simpl. rewrite (bind_Ret _ _ _ _ _ Hreg).
      rewrite (bind_Ret _ _ _ _ _ Hrun). reflexivity. }
    split; [simpl; lia |].
    split; [constructor; [apply wrap_GLuint_range | exact Hrange] |].
    split; [rewrite Hcount; f_equal; simpl; lia |].
    split.
    { rewrite Htable. simpl.
      destruct (lookup_lt_is_Some_2 (m_textureIDs (scene w)) n) as [e He];
        [lia |].
      rewrite (take_S_r _ _ (TEXTURE_INFO.mk tag name))
        by (apply list_lookup_insert_eq; lia).
      rewrite take_insert_ge by lia.
      rewrite drop_insert_lt by lia.
      rewrite <- app_assoc. simpl.
      replace (n + S (length rest))%nat with (S (n + length rest)) by lia.
      reflexivity. }
    split.
    { rewrite Hgen. simpl. rewrite generated_names_upload.
      rewrite <- app_assoc. reflexivity. }
    repeat split; assumption.
Qed.

(** ** Texture registry: the claims *)

(** C5.  Starting from an empty registry, a sequence of at most 16
    registrations of loadable images succeeds throughout; the
    registration at position [N] of the sequence (counted from 0, so
    the (N+1)-th one) is stored in slot [N] with the name generated for
    it.  For a registered tag [T], [FindTextureSlot] returns the slot
    and [FindTextureID] the handle (as the [int] the [GLuint] converts
    to) of the first registration that carries [T]; for a tag that was
    never registered both return [-1]. *)
Theorem C5_registration_order_and_lookups
    (regs : list (string * string)) (w : World) :
  m_loadedTextures (scene w) = 0 ->
  length (m_textureIDs (scene w)) = Z.to_nat MAX_SLOTS ->
  (length regs <= Z.to_nat MAX_SLOTS)%nat ->
  Forall (fun r => loadable r.1) regs ->
  exists (w' : World) (ids : list Z),
    CreateGLTextures regs w = Ret (replicate (length regs) true, w') /\
    length ids = length regs /\
    generated_names (glContext w') = generated_names (glContext w) ++ ids /\
    m_loadedTextures (scene w') = Z.of_nat (length regs) /\
    (forall (N : nat) (filename T : string),
       regs !! N = Some (filename, T) ->
       exists id, ids !! N = Some id /\
         m_textureIDs (scene w') !! N = Some (TEXTURE_INFO.mk T id)) /\
    (forall (N : nat) (filename T : string),
       regs !! N = Some (filename, T) ->
       (forall j r, regs !! j = Some r -> (j < N)%nat -> r.2 <> T) ->
       exists id, ids !! N = Some id /\
         FindTextureSlot T w' = Ret (Z.of_nat N, w') /\
         FindTextureID T w' = Ret (int_of_GLuint id, w') /\
         wrap_GLuint (int_of_GLuint id) = id /\
         (id < 2 ^ 31 -> int_of_GLuint id = id)) /\
    (forall T : string,
       T ∉ regs.*2 ->
       FindTextureSlot T w' = Ret (-1, w') /\
       FindTextureID T w' = Ret (-1, w')).
Proof.
  intros Hzero Hlen Hmax Hall. unfold MAX_SLOTS in *.
  destruct (CreateGLTextures_registers regs w 0) as
    (w' & ids & Hrun & Hids & Hrange & Hcount & Htable & Hgen & _);
    [exact Hzero | simpl; lia | simpl; lia | exact Hall |].
  simpl in Hcount, Htable.
  set (entries := zip_with TEXTURE_INFO.mk regs.*2 ids) in *.
  assert (Hentries : length entries = length regs).
  { unfold entries. rewrite length_zip_with, length_fmap. lia. }
  assert (Hlive : live_textures (scene w') = entries).
  { unfold live_textures. rewrite Hcount, Nat2Z.id, Htable.
    apply take_app_length'. lia. }
  assert (Hok : registry_ok (scene w')).
  { split; unfold MAX_SLOTS; [| lia].
    rewrite Htable, length_app, length_drop. lia. }
  assert (Hentry : forall N filename T, regs !! N = Some (filename, T) ->
            exists id, ids !! N = Some id /\
              entries !! N = Some (TEXTURE_INFO.mk T id)).
  { intros N filename T HN.
    destruct (lookup_lt_is_Some_2 ids N) as [id Hid].
    { rewrite Hids. eapply lookup_lt_Some, HN. }
    exists id. split; [exact Hid |].
    unfold entries. apply lookup_zip_with_Some.
    exists T, id. rewrite list_lookup_fmap, HN. done. }
  exists w', ids.
  split; [exact Hrun |]. split; [exact Hids |]. split; [exact Hgen |].
  split; [exact Hcount |].
  split; [| split].
  - intros N filename T HN.
    destruct (Hentry N filename T HN) as (id & Hid & He).
    exists id. split; [exact Hid |].
    rewrite Htable. rewrite lookup_app_l; [exact He |].
    rewrite Hentries. eapply lookup_lt_Some, HN.
  - intros N filename T HN Hfirst.
    destruct (Hentry N filename T HN) as (id & Hid & He).
    exists id. split; [exact Hid |].
    assert (Hfind : list_find (has_tag T) entries =
                      Some (N, TEXTURE_INFO.mk T id)).
    { apply list_find_Some. split; [exact He |]. split; [reflexivity |].
      intros j y Hy Hj Htag.
      unfold entries in Hy. apply lookup_zip_with_Some in Hy
        as (t & i & -> & Ht & _).
      rewrite list_lookup_fmap in Ht.
      destruct (regs !! j) as [r |] eqn:Hr; [| discriminate].
      simpl in Ht. injection Ht as <-.
      exact (Hfirst j r Hr Hj Htag). }
    rewrite FindTextureSlot_scan, FindTextureID_scan by exact Hok.
    rewrite Hlive, Hfind. simpl.
    split; [reflexivity |]. split; [reflexivity |].
    assert (Hr : 0 <= id < 2 ^ 32).
    { eapply Forall_lookup_1 in Hrange; [exact Hrange | exact Hid]. }
    split; [apply GLuint_int_roundtrip, Hr |].
    intros Hsmall. apply wrap_int_small. lia.
  - intros T HT.
    assert (Hfind : list_find (has_tag T) entries = None).
    { apply list_find_None, Forall_forall. intros y Hy Htag.
      apply list_elem_of_lookup in Hy as [j Hy].
      unfold entries in Hy. apply lookup_zip_with_Some in Hy
        as (t & i & -> & Ht & _).
      apply HT. simpl in Htag. unfold has_tag in Htag. simpl in Htag.
      subst t. eapply list_elem_of_lookup_2, Ht. }
    rewrite FindTextureSlot_scan, FindTextureID_scan by exact Hok.
    rewrite Hlive, Hfind. done.
Qed.

(** C6.  An image that decodes but has neither 3 nor 4 channels is not
    registered: [CreateGLTexture] returns [false], and the live count
    and the entries are the ones before the call. *)
Theorem C6_unsupported_channels_not_registered
    (filename tag : string) (w : World) (image : stbi_image) :
  stbi_load true filename = Some image ->
  colorChannels image <> 3 ->
  colorChannels image <> 4 ->
  exists w' : World,
    CreateGLTexture filename tag w = Ret (false, w') /\
    m_loadedTextures (scene w') = m_loadedTextures (scene w) /\
    m_textureIDs (scene w') = m_textureIDs (scene w) /\
    scene w' = scene w.
Proof.
  intros Hload H3 H4.
  rewrite (CreateGLTexture_unsupported filename tag w image Hload H3 H4).
  eexists. split; [reflexivity |]. done.
Qed.

(** C2 (amended).  With 16 textures registered, a further
    [CreateGLTexture] is not guarded by a capacity check: for an image
    with 3 or 4 channels it stores at index 16, outside the 16-entry
    table, which is undefined behaviour and not a reported failure.  It
    returns [false] with the registry unchanged only when the image
    does not decode or has another channel count. *)
Theorem C2_no_capacity_guard (filename tag : string) (w : World) :
  length (m_textureIDs (scene w)) = Z.to_nat MAX_SLOTS ->
  m_loadedTextures (scene w) = MAX_SLOTS ->
  CreateGLTexture filename tag w =
    match stbi_load true filename with
    | Some image =>
        if (colorChannels image =? 3) || (colorChannels image =? 4) then
          Undefined (OutOfBounds MAX_SLOTS)
        else
          Ret (false,
               mk_World (scene w) (shaderManager w)
                 (glContext w ++
                  texture_setup_calls
                    (wrap_GLuint (gen_texture_name (glContext w)))))
    | None => Ret (false, w)
    end.
Proof.
  intros Hlen Hfull.
  destruct (stbi_load true filename) as [image |] eqn:Hload.
  - destruct (Z.eqb_spec (colorChannels image) 3) as [H3 | H3];
      [| destruct (Z.eqb_spec (colorChannels image) 4) as [H4 | H4]];
      simpl.
    + rewrite <- Hfull.
      apply (CreateGLTexture_overflows _ _ _ image Hload); [by left |].
      rewrite Hlen, Hfull. unfold MAX_SLOTS. simpl. lia.
    + rewrite <- Hfull.
      apply (CreateGLTexture_overflows _ _ _ image Hload); [by right |].
      rewrite Hlen, Hfull. unfold MAX_SLOTS. simpl. lia.
    + apply (CreateGLTexture_unsupported _ _ _ image Hload H3 H4).
  - apply CreateGLTexture_undecodable, Hload.
Qed.

(** ** Binding *)

Lemma BindGLTextures_loop (k : nat) :
  forall (i : nat) (w : World),
    (i + k <= length (m_textureIDs (scene w)))%nat ->
    Z.of_nat (i + k) < 2 ^ 31 ->
    for_loop k (Z.of_nat i)
      (fun i =>
         glCall (ActiveTexture (GL_TEXTURE0_plus i));;
         e ← read_texture i;
         glCall (BindTexture GL_TEXTURE_2D (TEXTURE_INFO.ID e))) w =
      Ret (tt,
           mk_World (scene w) (shaderManager w)
             (glContext w ++
              bind_calls (Z.of_nat i)
                (take k (drop i (m_textureIDs (scene w)))))).
Proof.
  induction k as [| k IH]; intros i w Hlen Hsmall.
  - simpl. rewrite app_nil_r. destruct w. reflexivity.
  - destruct (lookup_lt_is_Some_2 (m_textureIDs (scene w)) i) as [e He];
      [lia |].
    simpl for_loop.
    assert (Hbody :
      (glCall (ActiveTexture (GL_TEXTURE0_plus (Z.of_nat i)));;
       e ← read_texture (Z.of_nat i);
       glCall (BindTexture GL_TEXTURE_2D (TEXTURE_INFO.ID e))) w =
      Ret (tt,
           mk_World (scene w) (shaderManager w)
             (glContext w ++
              [ ActiveTexture (GL_TEXTURE0_plus (Z.of_nat i));
                BindTexture GL_TEXTURE_2D (TEXTURE_INFO.ID e) ]))).
    { erewrite bind_Ret by reflexivity.
      erewrite bind_Ret by (apply (read_texture_Some i e); exact He).
      unfold glCall. simpl. rewrite <- app_assoc. reflexivity. }
    rewrite (bind_Ret _ _ _ _ _ Hbody).
    rewrite wrap_int_small by lia.
    replace (Z.of_nat i + 1) with (Z.of_nat (S i)) by lia.
    rewrite IH by (simpl; lia). simpl.
    rewrite (drop_S _ _ _ He). simpl.
    rewrite <- app_assoc. simpl.
    replace (Z.of_nat i + 1) with (Z.of_nat (S i)) by lia.
    reflexivity.
Qed.

(** [BindGLTextures] binds the handle in slot [i] to texture unit [i],
    for the live entries in registration order. *)
Lemma BindGLTextures_units (w : World) :
  registry_ok (scene w) ->
  BindGLTextures w =
    Ret (tt,
         mk_World (scene w) (shaderManager w)
           (glContext w ++ bind_calls 0 (live_textures (scene w)))).
Proof.
  intros [Hlen Hn]. unfold MAX_SLOTS in *.
  unfold BindGLTextures, get_scene. unfold mbind at 1, M_bind at 1.
  change 0 with (Z.of_nat 0).
  rewrite BindGLTextures_loop by (simpl; lia). reflexivity.
Qed.

(** ** Teardown *)

Lemma length_fresh_names (k : nat) (calls : list GLCall) :
  length (fresh_names k calls) = k.
Proof.
  revert calls. induction k as [| k IH]; intros calls; simpl;
    [reflexivity | by rewrite IH].
Qed.

Lemma tags_rename (l : list TEXTURE_INFO.t) (names : list Z) :
  (length l <= length names)%nat ->
  TEXTURE_INFO.tag <$> zip_with rename l names = TEXTURE_INFO.tag <$> l.
Proof.
  revert names. induction l as [| e l IH]; intros [| name names] Hlen;
    simpl in *; try reflexivity; try lia.
  f_equal. apply IH. lia.
Qed.

(** The loop of [DestroyGLTextures] from index [i] over [k] entries. *)
Lemma DestroyGLTextures_loop (k : nat) :
  forall (i : nat) (w : World),
    (i + k <= length (m_textureIDs (scene w)))%nat ->
    Z.of_nat (i + k) < 2 ^ 31 ->
    for_loop k (Z.of_nat i)
      (fun i =>
         _ ← read_texture i;
         name ← glGenTextures;
         write_texture i
           (fun e => TEXTURE_INFO.mk (TEXTURE_INFO.tag e) name)) w =
      Ret (tt,
           mk_World
             (mk_SceneManager (m_pShaderManager (scene w))
                (m_loadedTextures (scene w))
                (take i (m_textureIDs (scene w)) ++
                 zip_with rename (take k (drop i (m_textureIDs (scene w))))
                   (fresh_names k (glContext w)) ++
                 drop (i + k) (m_textureIDs (scene w)))
                (m_objectMaterials (scene w)))
             (shaderManager w)
             (glContext w ++ (GenTextures <$> fresh_names k (glContext w)))).
Proof.
  induction k as [| k IH]; intros i w Hlen Hsmall.
  - simpl. rewrite Nat.add_0_r, take_drop, app_nil_r.
    destruct w as [[] ? ?]. reflexivity.
  - destruct (lookup_lt_is_Some_2 (m_textureIDs (scene w)) i) as [e He];
      [lia |].
    simpl for_loop.
    set (name := wrap_GLuint (gen_texture_name (glContext w))).
    set (w1 := mk_World
                 (mk_SceneManager (m_pShaderManager (scene w))
                    (m_loadedTextures (scene w))
                    (<[i := rename e name]> (m_textureIDs (scene w)))
                    (m_objectMaterials (scene w)))
                 (shaderManager w) (glContext w ++ [GenTextures name])).
    assert (Hbody :
      (_ ← read_texture (Z.of_nat i);
       name ← glGenTextures;
       write_texture (Z.of_nat i)
         (fun e => TEXTURE_INFO.mk (TEXTURE_INFO.tag e) name)) w =
      Ret (tt, w1)).
    { rewrite (bind_Ret _ _ _ _ _ (read_texture_Some i e w He)).
      unfold glGenTextures at 1. unfold mbind at 1. unfold M_bind at 1.
      rewrite (write_texture_Some i _ e) by exact He. reflexivity. }
    rewrite (bind_Ret _ _ _ _ _ Hbody).
    rewrite wrap_int_small by lia.
    replace (Z.of_nat i + 1) with (Z.of_nat (S i)) by lia.
    rewrite IH by (simpl; rewrite ?length_insert; lia).
    simpl scene. simpl glContext. simpl shaderManager.
    simpl m_textureIDs. simpl m_pShaderManager. simpl m_loadedTextures.
    simpl m_objectMaterials. simpl fresh_names. fold name.
    rewrite (take_S_r _ _ (rename e name))
      by (apply list_lookup_insert_eq; lia).
    rewrite take_insert_ge by lia.
    rewrite !drop_insert_lt by lia.
    rewrite (drop_S _ _ _ He), firstn_cons. simpl zip_with.
    rewrite <- !app_assoc. simpl.
    replace (i + S k)%nat with (S (i + k)) by lia.
    reflexivity.
Qed.

(** C10.  With [N] live entries in a well-formed registry,
    [DestroyGLTextures] issues exactly [N] OpenGL calls, each a
    [glGenTextures] whose freshly generated name overwrites the handle
    of the entry it visits; no [glDeleteTextures] is among them, and
    the live count and all the tags are as before. *)
Theorem C10_teardown_generates_names (w : World) :
  registry_ok (scene w) ->
  let N := Z.to_nat (m_loadedTextures (scene w)) in
  let names := fresh_names N (glContext w) in
  exists w' : World,
    DestroyGLTextures w = Ret (tt, w') /\
    length names = N /\
    glContext w' = glContext w ++ (GenTextures <$> names) /\
    (forall c, c ∈ (GenTextures <$> names) ->
       forall name, c <> DeleteTextures name) /\
    (forall (i : nat) (e : TEXTURE_INFO.t),
       (i < N)%nat -> m_textureIDs (scene w) !! i = Some e ->
       exists name, names !! i = Some name /\
         m_textureIDs (scene w') !! i =
           Some (TEXTURE_INFO.mk (TEXTURE_INFO.tag e) name)) /\
    (forall i : nat,
       (N <= i)%nat ->
       m_textureIDs (scene w') !! i = m_textureIDs (scene w) !! i) /\
    m_loadedTextures (scene w') = m_loadedTextures (scene w) /\
    TEXTURE_INFO.tag <$> m_textureIDs (scene w') =
      TEXTURE_INFO.tag <$> m_textureIDs (scene w) /\
    shaderManager w' = shaderManager w.
Proof.
  intros [Hlen Hn] N names. unfold MAX_SLOTS in *.
  assert (HN : (N <= length (m_textureIDs (scene w)))%nat) by (unfold N; lia).
  assert (Hnames : length names = N) by apply length_fresh_names.
  eexists. split.
  { unfold DestroyGLTextures, get_scene. unfold mbind at 1, M_bind at 1.
    fold N. change 0 with (Z.of_nat 0).
    apply DestroyGLTextures_loop; simpl; lia. }
  simpl. fold names. rewrite drop_0.
  split; [exact Hnames |]. split; [reflexivity |].
  split.
  { intros c Hc name ->. apply list_elem_of_fmap in Hc as (n & Hc & _).
    discriminate. }
  split.
  { intros i e Hi He.
    destruct (lookup_lt_is_Some_2 names i) as [name Hname]; [lia |].
    exists name. split; [exact Hname |].
    rewrite lookup_app_l
      by (rewrite length_zip_with, length_take; lia).
    apply lookup_zip_with_Some. exists e, name.
    split; [reflexivity |]. split; [| exact Hname].
    rewrite lookup_take_lt by exact Hi. exact He. }
  split.
  { intros i Hi.
    rewrite lookup_app_r
      by (rewrite length_zip_with, length_take; lia).
    rewrite length_zip_with, length_take, lookup_drop.
    f_equal. lia. }
  split; [reflexivity |]. split; [| reflexivity].
  rewrite fmap_app, tags_rename by (rewrite length_take; lia).
  rewrite <- fmap_app, take_drop. reflexivity.
Qed.

(** ** Shader state gateway *)

Ltac run_shader H :=
  unfold setIntValue, setVec4Value, setVec2Value, setMat4Value,
    setSampler2DValue, setVec3Value, setFloatValue, set_uniform,
    get_scene, has_shader_manager, with_uniforms, mbind, M_bind, mret,
    M_ret; simpl; repeat (rewrite H; simpl).

Lemma uniform_store_snoc (s : ShaderManager) (name : string)
    (v : UniformValue) :
  uniform_store (s ++ [(name, v)]) = <[name := v]> (uniform_store s).
Proof. unfold uniform_store. rewrite foldl_snoc. reflexivity. Qed.

Lemma uniform_store_snoc2 (s : ShaderManager) (name1 name2 : string)
    (v1 v2 : UniformValue) :
  uniform_store (s ++ [(name1, v1); (name2, v2)]) =
    <[name2 := v2]> (<[name1 := v1]> (uniform_store s)).
Proof.
  change (s ++ [(name1, v1); (name2, v2)])
    with (s ++ [(name1, v1)] ++ [(name2, v2)]).
  rewrite app_assoc, !uniform_store_snoc. reflexivity.
Qed.

Lemma SetShaderColor_pushes (r g b a : float) (w : World) :
  m_pShaderManager (scene w) = pShaderManager ->
  SetShaderColor r g b a w =
    Ret (tt, with_uniforms w
               [ (g_UseTextureName, UInt 0);
                 (g_ColorValueName, UVec4 (mk_vec4 r g b a)) ]).
Proof.
  intros Hp. unfold SetShaderColor. run_shader Hp.
  rewrite <- app_assoc. reflexivity.
Qed.

Lemma SetShaderTexture_pushes (textureTag : string) (w : World) :
  m_pShaderManager (scene w) = pShaderManager ->
  registry_ok (scene w) ->
  let slot :=
    lookup_result (fun index _ => index) 0
      (list_find (has_tag textureTag) (live_textures (scene w))) in
  SetShaderTexture textureTag w =
    Ret (tt, with_uniforms w
               [ (g_UseTextureName, UInt 1);
                 (g_TextureValueName, USampler2D slot) ]).
Proof.
  intros Hp Hok slot. unfold SetShaderTexture. run_shader Hp.
  rewrite FindTextureSlot_scan by exact Hok. simpl. rewrite Hp.
  rewrite <- app_assoc. reflexivity.
Qed.

(** C7.  With a shader manager attached, [SetShaderTexture] for a tag
    that no live texture carries sets [bUseTexture] to true and then
    sets the sampler [objectTexture] to [-1]: the miss neither skips the
    push nor switches to flat colour. *)
Theorem C7_missing_texture_pushes_sentinel (textureTag : string) (w : World) :
  m_pShaderManager (scene w) = pShaderManager ->
  registry_ok (scene w) ->
  textureTag ∉ TEXTURE_INFO.tag <$> live_textures (scene w) ->
  FindTextureSlot textureTag w = Ret (-1, w) /\
  SetShaderTexture textureTag w =
    Ret (tt, with_uniforms w
               [ (g_UseTextureName, UInt 1);
                 (g_TextureValueName, USampler2D (-1)) ]) /\
  uniform_store
    (shaderManager
       (with_uniforms w
          [ (g_UseTextureName, UInt 1);
            (g_TextureValueName, USampler2D (-1)) ]))
    !! g_UseTextureName = Some (UInt 1).
Proof.
  intros Hp Hok Hmiss.
  assert (Hfind : list_find (has_tag textureTag) (live_textures (scene w))
                  = None).
  { apply list_find_None, Forall_forall. intros e He Htag.
    apply Hmiss. apply list_elem_of_fmap. exists e. split; [| exact He].
    symmetry. exact Htag. }
  split; [| split].
  - rewrite FindTextureSlot_scan by exact Hok. by rewrite Hfind.
  - rewrite SetShaderTexture_pushes by assumption. by rewrite Hfind.
  - simpl. rewrite uniform_store_snoc2.
    rewrite lookup_insert_ne by done. apply lookup_insert_eq.
Qed.

Lemma run_call_pushes (c : GatewayCall) (w : World) :
  m_pShaderManager (scene w) = pShaderManager ->
  registry_ok (scene w) ->
  exists (name : string) (v : UniformValue),
    name <> g_UseTextureName /\
    run_call c w =
      Ret (tt, with_uniforms w
                 [ (g_UseTextureName,
                    UInt (if is_texture_call c then 1 else 0));
                   (name, v) ]).
Proof.
  intros Hp Hok. destruct c as [r g b a | textureTag]; simpl.
  - eexists _, _. split; [| apply SetShaderColor_pushes, Hp]. done.
  - eexists _, _. split; [| apply SetShaderTexture_pushes; assumption]. done.
Qed.

Lemma run_calls_last (cs : list GatewayCall) :
  forall (c : GatewayCall) (w : World),
    m_pShaderManager (scene w) = pShaderManager ->
    registry_ok (scene w) ->
    exists w' : World,
      run_calls (cs ++ [c]) w = Ret (tt, w') /\
      scene w' = scene w /\
      glContext w' = glContext w /\
      uniform_store (shaderManager w') !! g_UseTextureName =
        Some (UInt (if is_texture_call c then 1 else 0)).
Proof.
  induction cs as [| c0 cs IH]; intros c w Hp Hok.
  - destruct (run_call_pushes c w Hp Hok) as (name & v & Hne & Hrun).
    eexists. simpl. rewrite (bind_Ret _ _ _ _ _ Hrun).
    split; [reflexivity |]. split; [reflexivity |]. split; [reflexivity |].
    simpl. rewrite uniform_store_snoc2.
    rewrite lookup_insert_ne by done. apply lookup_insert_eq.
  - destruct (run_call_pushes c0 w Hp Hok) as (name & v & Hne & Hrun).
    destruct (IH c (with_uniforms w
                      [ (g_UseTextureName,
                         UInt (if is_texture_call c0 then 1 else 0));
                        (name, v) ]) Hp Hok)
      as (w' & Hrest & Hscene & Hgl & Hstore).
    exists w'. simpl. rewrite (bind_Ret _ _ _ _ _ Hrun).
    split; [exact Hrest |]. split; [exact Hscene |].
    split; [exact Hgl | exact Hstore].
Qed.

(** C8.  With a shader manager attached (and a well-formed texture
    registry), [SetShaderColor] pushes [bUseTexture] as false followed
    by the RGBA colour, [SetShaderTexture] pushes [bUseTexture] as true
    followed by the slot its lookup resolved, and after any non-empty
    sequence of the two calls the value [bUseTexture] holds says whether
    the last call was [SetShaderTexture]. *)
Theorem C8_last_gateway_call_wins (w : World) :
  m_pShaderManager (scene w) = pShaderManager ->
  registry_ok (scene w) ->
  (forall r g b a : float,
     SetShaderColor r g b a w =
       Ret (tt, with_uniforms w
                  [ (g_UseTextureName, UInt 0);
                    (g_ColorValueName, UVec4 (mk_vec4 r g b a)) ])) /\
  (forall textureTag : string,
     exists slot : Z,
       FindTextureSlot textureTag w = Ret (slot, w) /\
       SetShaderTexture textureTag w =
         Ret (tt, with_uniforms w
                    [ (g_UseTextureName, UInt 1);
                      (g_TextureValueName, USampler2D slot) ])) /\
  (forall (cs : list GatewayCall) (c : GatewayCall),
     exists w' : World,
       run_calls (cs ++ [c]) w = Ret (tt, w') /\
       uniform_store (shaderManager w') !! g_UseTextureName =
         Some (UInt (if is_texture_call c then 1 else 0))).
Proof.
  intros Hp Hok. split; [| split].
  - intros r g b a. apply SetShaderColor_pushes, Hp.
  - intros textureTag. eexists. split.
    + apply FindTextureSlot_scan, Hok.
    + apply SetShaderTexture_pushes; assumption.
  - intros cs c.
    destruct (run_calls_last cs c w Hp Hok) as (w' & Hrun & _ & _ & Hstore).
    exists w'. split; assumption.
Qed.

(** C9.  With [m_pShaderManager] null, [SetTransformations],
    [SetShaderColor], [SetShaderTexture] and [SetTextureUVScale] return
    without a call to the shader manager: the world after each is the
    world before it. *)
Theorem C9_null_shader_manager_no_push (w : World) :
  m_pShaderManager (scene w) = NULL ->
  (forall (scaleXYZ : vec3) (x y z : float) (positionXYZ : vec3),
     SetTransformations scaleXYZ x y z positionXYZ w = Ret (tt, w)) /\
  (forall r g b a : float, SetShaderColor r g b a w = Ret (tt, w)) /\
  (forall textureTag : string, SetShaderTexture textureTag w = Ret (tt, w)) /\
  (forall u v : float, SetTextureUVScale u v w = Ret (tt, w)).
Proof.
  intros Hp. repeat split; intros.
  - unfold SetTransformations. run_shader Hp. reflexivity.
  - unfold SetShaderColor. run_shader Hp. reflexivity.
  - unfold SetShaderTexture. run_shader Hp. reflexivity.
  - unfold SetTextureUVScale. run_shader Hp. reflexivity.
Qed.

(** ** Material registry *)

Lemma find_material_miss (tag : string) (mats : list OBJECT_MATERIAL.t)
    (material : OBJECT_MATERIAL.t) :
  tag ∉ OBJECT_MATERIAL.tag <$> mats ->
  find_material tag mats material = material.
Proof.
  induction mats as [| m mats IH]; intros Hmiss; simpl; [reflexivity |].
  rewrite fmap_cons, not_elem_of_cons in Hmiss. destruct Hmiss as [Hne Hmiss].
  destruct (String.eqb_spec (OBJECT_MATERIAL.tag m) tag) as [Heq | _].
  - by destruct Hne.
  - apply IH, Hmiss.
Qed.

(** The empty registry reports not-found. *)
Lemma FindMaterial_empty (tag : string) (material : OBJECT_MATERIAL.t)
    (w : World) :
  m_objectMaterials (scene w) = [] ->
  FindMaterial tag material w = Ret ((false, material), w).
Proof.
  intros Hempty. unfold FindMaterial, get_scene, mbind, M_bind.
  rewrite Hempty. reflexivity.
Qed.

(** A registry with an entry reports found, whatever the scan met. *)
Lemma FindMaterial_nonempty (tag : string) (material : OBJECT_MATERIAL.t)
    (w : World) :
  m_objectMaterials (scene w) <> [] ->
  FindMaterial tag material w =
    Ret ((true, find_material tag (m_objectMaterials (scene w)) material), w).
Proof.
  intros Hne. unfold FindMaterial, get_scene, mbind, M_bind.
  destruct (m_objectMaterials (scene w)) as [| m mats]; [done |].
  reflexivity.
Qed.

(** With no material registered [SetShaderMaterial] pushes nothing. *)
Lemma SetShaderMaterial_empty (indeterminate : OBJECT_MATERIAL.t)
    (materialTag : string) (w : World) :
  m_objectMaterials (scene w) = [] ->
  SetShaderMaterial indeterminate materialTag w = Ret (tt, w).
Proof.
  intros Hempty. unfold SetShaderMaterial, get_scene, mbind, M_bind.
  rewrite Hempty. reflexivity.
Qed.

(** With some material registered, a tag that none of them carries still
    makes [SetShaderMaterial] push the three material uniforms, read
    from the local that [FindMaterial] left untouched. *)
Lemma SetShaderMaterial_miss (indeterminate : OBJECT_MATERIAL.t)
    (materialTag : string) (w : World) :
  m_pShaderManager (scene w) = pShaderManager ->
  m_objectMaterials (scene w) <> [] ->
  materialTag ∉ material_tags (scene w) ->
  SetShaderMaterial indeterminate materialTag w =
    Ret (tt, with_uniforms w
               [ ("material.diffuseColor",
                  UVec3 (OBJECT_MATERIAL.diffuseColor indeterminate));
                 ("material.specularColor",
                  UVec3 (OBJECT_MATERIAL.specularColor indeterminate));
                 ("material.shininess",
                  UFloat (OBJECT_MATERIAL.shininess indeterminate)) ]).
Proof.
  intros Hp Hne Hmiss. unfold SetShaderMaterial.
  unfold get_scene at 1. unfold mbind at 1, M_bind at 1.
  destruct (m_objectMaterials (scene w)) as [| m mats] eqn:Hmats; [done |].
  replace (0 <? Z.of_nat (length (m :: mats))) with true
    by (symmetry; apply Z.ltb_lt; simpl; lia).
  rewrite (bind_Ret _ _ _ _ _
             (FindMaterial_nonempty materialTag indeterminate w
                ltac:(rewrite Hmats; done))).
  rewrite Hmats, find_material_miss
    by (unfold material_tags in Hmiss; rewrite Hmats in Hmiss; exact Hmiss).
  run_shader Hp. rewrite <- !app_assoc. reflexivity.
Qed.

(** ** Transform composer *)

(** C3.  The matrix [SetTransformations] builds is
    [translate * rotateZ * rotateY * rotateX * scale], multiplied from
    the left in that order, each rotation about its unit axis by the
    angle passed through [glm::radians]; with a shader manager attached
    it is pushed as the uniform [model].  For a GLM whose scale by
    (1,1,1), translation by (0,0,0) and rotations by [radians(0)] are
    the identity matrix, the matrix built from scale (1,1,1), rotation
    (0,0,0) and position (0,0,0) is the identity matrix. *)
Theorem C3_compose_order_and_identity :
  glm_scale (mk_vec3 F32.one F32.one F32.one) = mat4_identity ->
  glm_translate (mk_vec3 F32.zero F32.zero F32.zero) = mat4_identity ->
  glm_rotate (glm_radians F32.zero) (mk_vec3 F32.one F32.zero F32.zero) =
    mat4_identity ->
  glm_rotate (glm_radians F32.zero) (mk_vec3 F32.zero F32.one F32.zero) =
    mat4_identity ->
  glm_rotate (glm_radians F32.zero) (mk_vec3 F32.zero F32.zero F32.one) =
    mat4_identity ->
  mat4_mul mat4_identity mat4_identity = mat4_identity ->
  (forall (s : vec3) (x y z : float) (p : vec3),
     modelView s x y z p =
       mat4_mul
         (mat4_mul
            (mat4_mul
               (mat4_mul (glm_translate p)
                  (glm_rotate (glm_radians z)
                     (mk_vec3 F32.zero F32.zero F32.one)))
               (glm_rotate (glm_radians y)
                  (mk_vec3 F32.zero F32.one F32.zero)))
            (glm_rotate (glm_radians x)
               (mk_vec3 F32.one F32.zero F32.zero)))
         (glm_scale s)) /\
  (forall (s : vec3) (x y z : float) (p : vec3) (w : World),
     m_pShaderManager (scene w) = pShaderManager ->
     SetTransformations s x y z p w =
       Ret (tt, with_uniforms w [ (g_ModelName, UMat4 (modelView s x y z p)) ]))
  /\
  modelView (mk_vec3 F32.one F32.one F32.one) F32.zero F32.zero F32.zero
    (mk_vec3 F32.zero F32.zero F32.zero) = mat4_identity.
Proof.
  intros Hscale Htranslate HrotX HrotY HrotZ Hmul.
  split; [| split].
  - intros s x y z p. reflexivity.
  - intros s x y z p w Hp. unfold SetTransformations. run_shader Hp.
    reflexivity.
  - unfold modelView.
    rewrite Hscale, Htranslate, HrotX, HrotY, HrotZ, !Hmul. reflexivity.
Qed.

(** ** Clock hands *)

Lemma elem_of_range (n : nat) (z : Z) :
  0 <= z < Z.of_nat n -> z ∈ range n.
Proof.
  intros Hz. unfold range. apply list_elem_of_fmap.
  exists (Z.to_nat z). split; [lia |].
  apply elem_of_seq. lia.
Qed.

Lemma all_hours_checked :
  forallb (fun h => forallb (hour_check h) (range 60)) (range 24) = true.
Proof. vm_compute. reflexivity. Qed.

Lemma all_minutes_checked : forallb minute_check (range 60) = true.
Proof. vm_compute. reflexivity. Qed.

Lemma all_seconds_checked : forallb second_check (range 61) = true.
Proof. vm_compute. reflexivity. Qed.

Lemma forallb_elem_of {A : Type} (f : A -> bool) (l : list A) (x : A) :
  forallb f l = true -> x ∈ l -> f x = true.
Proof.
  intros Hall Hx. rewrite forallb_forall in Hall.
  apply Hall, list_elem_of_In, Hx.
Qed.

(** C4 (amended).  For every local time with hour in 0..23, minute in
    0..59 and second in 0..60, [minuteAngle] is exactly -minute x 6 and
    [secondAngle] exactly -second x 6; [hourAngle], the single-precision
    evaluation of -((hour mod 12) + minute/60) x 30, lies within 2^-16
    of that value and equals it when the minute is a multiple of 15.  At
    3:00:00 the angles are -90, 0, 0 and at 6:30:00 they are -195, -180,
    0. *)
Theorem C4_clock_angles_single_precision (timeinfo : tm) :
  valid_time timeinfo ->
  F32.is_Q (minuteAngle timeinfo) (spec_minuteAngle timeinfo) = true /\
  F32.is_Q (secondAngle timeinfo) (spec_secondAngle timeinfo) = true /\
  F32.near_Q (1 # 65536) (hourAngle timeinfo) (spec_hourAngle timeinfo)
    = true /\
  (tm_min timeinfo mod 15 = 0 ->
   F32.is_Q (hourAngle timeinfo) (spec_hourAngle timeinfo) = true) /\
  (F32.is_Q (hourAngle (mk_tm 0 0 3)) (-90) = true /\
   F32.is_Q (minuteAngle (mk_tm 0 0 3)) 0 = true /\
   F32.is_Q (secondAngle (mk_tm 0 0 3)) 0 = true) /\
  (F32.is_Q (hourAngle (mk_tm 0 30 6)) (-195) = true /\
   F32.is_Q (minuteAngle (mk_tm 0 30 6)) (-180) = true /\
   F32.is_Q (secondAngle (mk_tm 0 30 6)) 0 = true).
Proof.
  destruct timeinfo as [s m h]. intros (Hh & Hm & Hs). simpl in Hh, Hm, Hs.
  pose proof (forallb_elem_of _ _ m all_minutes_checked
                (elem_of_range 60 m ltac:(lia))) as Hmin.
  pose proof (forallb_elem_of _ _ s all_seconds_checked
                (elem_of_range 61 s ltac:(lia))) as Hsec.
  pose proof (forallb_elem_of _ _ h all_hours_checked
                (elem_of_range 24 h ltac:(lia))) as Hhours.
  cbv beta in Hhours.
  pose proof (forallb_elem_of _ _ m Hhours
                (elem_of_range 60 m ltac:(lia))) as Hhour.
  unfold hour_check in Hhour. apply andb_true_iff in Hhour as [Hnear Hexact].
  split; [exact Hmin |]. split; [exact Hsec |]. split; [exact Hnear |].
  split.
  { simpl. intros Hquarter. apply Z.eqb_eq in Hquarter.
    rewrite Hquarter in Hexact. exact Hexact. }
  split; repeat split; vm_compute; reflexivity.
Qed.

End Properties.

(** * The properties on the reference instances *)

Section RealGlmFacts.

Local Open Scope R_scope.

Lemma to_R_zero : RealGlm.to_R F32.zero = 0.
Proof. reflexivity. Qed.

Lemma to_R_one : RealGlm.to_R F32.one = 1.
Proof.
  change F32.one with (S754_finite false 8388608 (-23)).
  unfold RealGlm.to_R, powerRZ. simpl. lra.
Qed.

Lemma radians_zero : RealGlm.radians F32.zero = F32.zero.
Proof. reflexivity. Qed.

Lemma RealGlm_mul_identity :
  RealGlm.mul RealGlm.identity RealGlm.identity = RealGlm.identity.
Proof.
  unfold RealGlm.mul, RealGlm.mul_vec, RealGlm.vadd, RealGlm.vscale,
    RealGlm.identity. simpl.
  f_equal; f_equal; lra.
Qed.

Lemma RealGlm_scale_one :
  RealGlm.scale (mk_vec3 F32.one F32.one F32.one) = RealGlm.identity.
Proof.
  unfold RealGlm.scale, RealGlm.vscale, RealGlm.identity.
  cbn [v3_x v3_y v3_z RealGlm.col0 RealGlm.col1 RealGlm.col2 RealGlm.col3
       RealGlm.rx RealGlm.ry RealGlm.rz RealGlm.rw].
  rewrite to_R_one. f_equal; f_equal; lra.
Qed.

Lemma RealGlm_translate_zero :
  RealGlm.translate (mk_vec3 F32.zero F32.zero F32.zero) = RealGlm.identity.
Proof.
  unfold RealGlm.translate, RealGlm.mul_vec, RealGlm.vadd, RealGlm.vscale,
    RealGlm.identity.
  cbn [v3_x v3_y v3_z RealGlm.col0 RealGlm.col1 RealGlm.col2 RealGlm.col3
       RealGlm.rx RealGlm.ry RealGlm.rz RealGlm.rw].
  rewrite to_R_zero. f_equal; f_equal; lra.
Qed.

(** A rotation by the angle 0 about a coordinate axis. *)
Lemma RealGlm_rotate_zero (x y z : float) :
  RealGlm.to_R x * RealGlm.to_R x + RealGlm.to_R y * RealGlm.to_R y
    + RealGlm.to_R z * RealGlm.to_R z = 1 ->
  RealGlm.rotate (RealGlm.radians F32.zero) (mk_vec3 x y z)
    = RealGlm.identity.
Proof.
  intros Hunit. rewrite radians_zero.
  unfold RealGlm.rotate, RealGlm.mul, RealGlm.mul_vec, RealGlm.vadd,
    RealGlm.vscale, RealGlm.identity.
  cbn [v3_x v3_y v3_z RealGlm.col0 RealGlm.col1 RealGlm.col2 RealGlm.col3
       RealGlm.rx RealGlm.ry RealGlm.rz RealGlm.rw].
  rewrite Hunit, to_R_zero, cos_0, sin_0, sqrt_1.
  f_equal; f_equal; lra.
Qed.

Lemma RealGlm_rotate_zero_X :
  RealGlm.rotate (RealGlm.radians F32.zero)
    (mk_vec3 F32.one F32.zero F32.zero) = RealGlm.identity.
Proof. apply RealGlm_rotate_zero. rewrite to_R_one, to_R_zero. lra. Qed.

Lemma RealGlm_rotate_zero_Y :
  RealGlm.rotate (RealGlm.radians F32.zero)
    (mk_vec3 F32.zero F32.one F32.zero) = RealGlm.identity.
Proof. apply RealGlm_rotate_zero. rewrite to_R_one, to_R_zero. lra. Qed.

Lemma RealGlm_rotate_zero_Z :
  RealGlm.rotate (RealGlm.radians F32.zero)
    (mk_vec3 F32.zero F32.zero F32.one) = RealGlm.identity.
Proof. apply RealGlm_rotate_zero. rewrite to_R_one, to_R_zero. lra. Qed.

End RealGlmFacts.

(** ** Material registry on the sample states *)

(** A registered tag: the three uniforms carry the material's values. *)
Example SetShaderMaterial_desk (indeterminate : OBJECT_MATERIAL.t) :
  SetShaderMaterial indeterminate "desk" Samples.desk_world =
    Ret (tt, with_uniforms Samples.desk_world
               [ ("material.diffuseColor",
                  UVec3 (OBJECT_MATERIAL.diffuseColor Samples.desk));
                 ("material.specularColor",
                  UVec3 (OBJECT_MATERIAL.specularColor Samples.desk));
                 ("material.shininess",
                  UFloat (OBJECT_MATERIAL.shininess Samples.desk)) ]).
Proof. reflexivity. Qed.

(** The empty registry: the lookup reports not-found and nothing is
    pushed. *)
Example SetShaderMaterial_no_materials (indeterminate : OBJECT_MATERIAL.t) :
  FindMaterial "desk" indeterminate Samples.empty_world =
    Ret ((false, indeterminate), Samples.empty_world) /\
  SetShaderMaterial indeterminate "desk" Samples.empty_world =
    Ret (tt, Samples.empty_world).
Proof.
  split; [apply FindMaterial_empty | apply SetShaderMaterial_empty];
    reflexivity.
Qed.

(** ** Transform composer on the real-number GLM *)

Lemma C3_witness :
  @modelView RealGlm.glm (mk_vec3 F32.one F32.one F32.one)
    F32.zero F32.zero F32.zero (mk_vec3 F32.zero F32.zero F32.zero)
  = RealGlm.identity.
Proof.
  exact (proj2 (proj2
    (C3_compose_order_and_identity (glm := RealGlm.glm)
       RealGlm_scale_one RealGlm_translate_zero RealGlm_rotate_zero_X
       RealGlm_rotate_zero_Y RealGlm_rotate_zero_Z RealGlm_mul_identity))).
Defined.

(** ** Material registry: the miss that is reported as a hit *)

(** C1 (code defect).  In a registry that holds only the material "desk",
    the lookup of "lamp" exhausts the scan without a match, yet
    [FindMaterial] returns [true] with the caller's local untouched, and
    [SetShaderMaterial] pushes the three material uniforms from that
    uninitialised local. *)
Theorem C1_unregistered_material_is_pushed
    (indeterminate : OBJECT_MATERIAL.t) :
  ("lamp" ∉ material_tags (scene Samples.desk_world)) /\
  FindMaterial "lamp" indeterminate Samples.desk_world =
    Ret ((true, indeterminate), Samples.desk_world) /\
  SetShaderMaterial indeterminate "lamp" Samples.desk_world =
    Ret (tt, with_uniforms Samples.desk_world
               [ ("material.diffuseColor",
                  UVec3 (OBJECT_MATERIAL.diffuseColor indeterminate));
                 ("material.specularColor",
                  UVec3 (OBJECT_MATERIAL.specularColor indeterminate));
                 ("material.shininess",
                  UFloat (OBJECT_MATERIAL.shininess indeterminate)) ]).
Proof.
  assert (Hmiss : "lamp" ∉ material_tags (scene Samples.desk_world)).
  { unfold material_tags. simpl. rewrite list_elem_of_singleton. discriminate. }
  split; [exact Hmiss |]. split.
  - rewrite FindMaterial_nonempty by discriminate.
    rewrite find_material_miss by exact Hmiss. reflexivity.
  - apply SetShaderMaterial_miss; [reflexivity | discriminate | exact Hmiss].
Qed.

(** ** Texture registry on the sample states *)

Lemma full_world_ok : registry_ok (scene Samples.full_world).
Proof. split; [reflexivity | simpl; unfold MAX_SLOTS; lia]. Qed.

(** The claim C2 as stated fails on the full registry: the seventeenth
    registration of a decodable RGBA image does not return [false] with
    the registry unchanged. *)
Lemma C2_counterexample :
  m_loadedTextures (scene Samples.full_world) = 16 /\
  (~ exists w' : World,
       CreateGLTexture (stb := SampleStb.stb) (ogl := SampleGL.ogl)
         "textures/Wood_table.png" "seventeenth" Samples.full_world
       = Ret (false, w') /\
       scene w' = scene Samples.full_world).
Proof.
  split; [reflexivity |].
  intros (w' & Hrun & _).
  rewrite (CreateGLTexture_overflows (stb := SampleStb.stb)
             (ogl := SampleGL.ogl) _ _ _ (SampleStb.image 4)) in Hrun.
  - discriminate Hrun.
  - reflexivity.
  - right. reflexivity.
  - apply Z.leb_le. reflexivity.
Qed.

Lemma C2_witness :
  CreateGLTexture (stb := SampleStb.stb) (ogl := SampleGL.ogl)
    "textures/Wood_table.png" "seventeenth" Samples.full_world
  = Undefined (OutOfBounds 16).
Proof.
  apply (C2_no_capacity_guard (stb := SampleStb.stb) (ogl := SampleGL.ogl)
           "textures/Wood_table.png" "seventeenth" Samples.full_world).
  - reflexivity.
  - reflexivity.
Defined.

Lemma C5_witness :
  exists w' : World,
    CreateGLTextures (stb := SampleStb.stb) (ogl := SampleGL.ogl)
      [ ("textures/Wood_table.png", "desk");
        ("textures/lamp_body.jpg", "bronze") ] Samples.empty_world
    = Ret ([true; true], w') /\
    FindTextureSlot "bronze" w' = Ret (1, w') /\
    FindTextureSlot "crome" w' = Ret (-1, w').
Proof.
  destruct (C5_registration_order_and_lookups
              (stb := SampleStb.stb) (ogl := SampleGL.ogl)
              [ ("textures/Wood_table.png", "desk");
                ("textures/lamp_body.jpg", "bronze") ] Samples.empty_world)
    as (w' & ids & Hrun & _ & _ & _ & _ & Hhit & Hmiss).
  - reflexivity.
  - reflexivity.
  - unfold MAX_SLOTS. simpl. lia.
  - apply Forall_cons_2; [| apply Forall_cons_2; [| apply Forall_nil_2]].
    + exists (SampleStb.image 4). split; [reflexivity | right; reflexivity].
    + exists (SampleStb.image 3). split; [reflexivity | left; reflexivity].
  - exists w'. split; [exact Hrun |]. split.
    + destruct (Hhit 1%nat "textures/lamp_body.jpg" "bronze") as
        (id & _ & Hslot & _); [reflexivity | | exact Hslot].
      intros [| [| j]] r Hr Hj; [| lia | lia].
      injection Hr as <-. discriminate.
    + apply Hmiss. simpl. rewrite !not_elem_of_cons.
      split; [discriminate | split; [discriminate | apply not_elem_of_nil]].
Defined.

Lemma C6_witness :
  exists w' : World,
    CreateGLTexture (stb := SampleStb.stb) (ogl := SampleGL.ogl)
      "textures/gray.png" "gray" Samples.desk_world = Ret (false, w') /\
    m_loadedTextures (scene w') = 2 /\
    m_textureIDs (scene w') = m_textureIDs (scene Samples.desk_world).
Proof.
  destruct (C6_unsupported_channels_not_registered
              (stb := SampleStb.stb) (ogl := SampleGL.ogl)
              "textures/gray.png" "gray" Samples.desk_world (SampleStb.image 1))
    as (w' & Hrun & Hcount & Htable & _).
  - reflexivity.
  - discriminate.
  - discriminate.
  - exists w'. split; [exact Hrun |]. split; [exact Hcount | exact Htable].
Defined.

Lemma desk_world_ok : registry_ok (scene Samples.desk_world).
Proof. split; [reflexivity | simpl; unfold MAX_SLOTS; lia]. Qed.

Lemma C10_witness :
  exists w' : World,
    DestroyGLTextures (ogl := SampleGL.ogl) Samples.desk_world = Ret (tt, w') /\
    glContext w' = [GenTextures 1; GenTextures 2] /\
    m_loadedTextures (scene w') = 2.
Proof.
  destruct (C10_teardown_generates_names (ogl := SampleGL.ogl)
              Samples.desk_world desk_world_ok)
    as (w' & Hrun & _ & Hgl & _ & _ & _ & Hcount & _).
  exists w'. split; [exact Hrun |]. split; [exact Hgl | exact Hcount].
Defined.

(** ** Shader state gateway on the sample states *)

Lemma scene_world_ok : registry_ok (scene Samples.scene_world).
Proof. split; [reflexivity | simpl; unfold MAX_SLOTS; lia]. Qed.

(** The call [SetShaderTexture] with the empty tag that [RenderScene]
    issues before the clock face, on the textures of the scene. *)
Lemma C7_witness :
  SetShaderTexture EmptyString Samples.scene_world =
    Ret (tt, with_uniforms Samples.scene_world
               [ (g_UseTextureName, UInt 1);
                 (g_TextureValueName, USampler2D (-1)) ]).
Proof.
  refine (proj1 (proj2 (C7_missing_texture_pushes_sentinel EmptyString
                          Samples.scene_world _ scene_world_ok _))).
  - reflexivity.
  - intros Hin. simpl in Hin.
    repeat (apply elem_of_cons in Hin as [Hin | Hin]; [discriminate Hin |]).
    by apply elem_of_nil in Hin.
Defined.

Lemma C8_witness :
  exists w' : World,
    run_calls
      [ CallSetShaderTexture "desk";
        CallSetShaderColor F32.one F32.zero F32.zero F32.one ]
      Samples.desk_world = Ret (tt, w') /\
    uniform_store (shaderManager w') !! g_UseTextureName = Some (UInt 0).
Proof.
  exact (proj2 (proj2 (C8_last_gateway_call_wins Samples.desk_world
                         eq_refl desk_world_ok))
           [CallSetShaderTexture "desk"]
           (CallSetShaderColor F32.one F32.zero F32.zero F32.one)).
Defined.

Lemma C9_witness :
  SetShaderTexture "desk" Samples.null_world = Ret (tt, Samples.null_world).
Proof.
  exact (proj1 (proj2 (proj2 (C9_null_shader_manager_no_push
                                Samples.null_world eq_refl))) "desk").
Defined.

(** ** Clock hands at sample times *)

(** At 1:03:00 the hour hand's angle is 16515071 * 2^-19 =
    -31.49999809265137, one unit in the last place away from -31.5. *)
Lemma hourAngle_at_1_03 :
  hourAngle (mk_tm 0 3 1) = S754_finite true 16515071 (-19) /\
  F32.to_Q (hourAngle (mk_tm 0 3 1)) = Some (-16515071 # 524288)%Q /\
  spec_hourAngle (mk_tm 0 3 1) == - (63 # 2).
Proof. split; [| split]; vm_compute; reflexivity. Qed.

(** The claim C4 as stated fails at 1:03:00: the single-precision
    [hourAngle] is not the rational -31.5. *)
Lemma C4_counterexample :
  valid_time (mk_tm 0 3 1) /\ (~ clock_angles_exact (mk_tm 0 3 1)).
Proof.
  split.
  - unfold valid_time. simpl. lia.
  - intros [Hhour _]. vm_compute in Hhour. discriminate.
Qed.

Lemma C4_witness :
  F32.near_Q (1 # 65536) (hourAngle (mk_tm 0 3 1)) (spec_hourAngle (mk_tm 0 3 1))
    = true.
Proof.
  refine (proj1 (proj2 (proj2 (C4_clock_angles_single_precision
                                 (mk_tm 0 3 1) _)))).
  unfold valid_time. simpl. lia.
Defined.

(** * Further properties *)

From Stdlib Require Import Lqa.

Section MoreProperties.

Context `{glm : Glm} `{stb : Stb} `{ogl : OpenGL} `{trig : GlmTrig}.

(** ** One registration *)

Lemma registers_loadable (filename : string) :
  registers filename = true <-> loadable filename.
Proof.
  unfold registers, loadable. split.
  - destruct (stbi_load true filename) as [image |]; [| discriminate].
    intros Hch. exists image. split; [reflexivity |].
    apply orb_true_iff in Hch as [Hch | Hch]; apply Z.eqb_eq in Hch; auto.
  - intros (image & -> & [Hch | Hch]); rewrite Hch; reflexivity.
Qed.

Lemma CreateGLTexture_rejects (filename tag : string) (w : World) :
  registers filename = false ->
  CreateGLTexture filename tag w =
    Ret (false,
         mk_World (scene w) (shaderManager w)
           (glContext w ++ rejected_calls filename (glContext w))).
Proof.
  unfold registers, rejected_calls. intros Hrej.
  destruct (stbi_load true filename) as [image |] eqn:Hload.
  - apply orb_false_iff in Hrej as [H3 H4].
    apply Z.eqb_neq in H3, H4.
    apply (CreateGLTexture_unsupported _ _ _ image Hload H3 H4).
  - rewrite app_nil_r. destruct w.
    apply CreateGLTexture_undecodable, Hload.
Qed.

Lemma CreateGLTexture_accepts (filename tag : string) (w : World) :
  registers filename = true ->
  registry_ok (scene w) ->
  m_loadedTextures (scene w) < MAX_SLOTS ->
  exists image : stbi_image,
    stbi_load true filename = Some image /\
    let n := Z.to_nat (m_loadedTextures (scene w)) in
    let name := wrap_GLuint (gen_texture_name (glContext w)) in
    CreateGLTexture filename tag w =
      Ret (true,
           mk_World
             (mk_SceneManager (m_pShaderManager (scene w)) (Z.of_nat (S n))
                (<[n := TEXTURE_INFO.mk tag name]> (m_textureIDs (scene w)))
                (m_objectMaterials (scene w)))
             (shaderManager w)
             (glContext w ++ texture_upload_calls name image)).
Proof.
  intros Hreg [Hlen Hn] Hfree. unfold MAX_SLOTS in *.
  apply registers_loadable in Hreg as (image & Hload & Hch).
  exists image. split; [exact Hload |]. cbv zeta.
  apply (CreateGLTexture_registers filename tag w image
           (Z.to_nat (m_loadedTextures (scene w))) Hload Hch); lia.
Qed.

Lemma CreateGLTexture_full (filename tag : string) (w : World) :
  registers filename = true ->
  registry_ok (scene w) ->
  m_loadedTextures (scene w) = MAX_SLOTS ->
  CreateGLTexture filename tag w = Undefined (OutOfBounds MAX_SLOTS).
Proof.
  intros Hreg [Hlen Hn] Hfull.
  apply registers_loadable in Hreg as (image & Hload & Hch).
  rewrite <- Hfull.
  apply (CreateGLTexture_overflows filename tag w image Hload Hch).
  rewrite Hlen, Hfull. unfold MAX_SLOTS. simpl. lia.
Qed.

(** The live entries after a registration into slot [n]. *)
Lemma live_textures_registered (sm : SceneManager) (e : TEXTURE_INFO.t) :
  registry_ok sm ->
  m_loadedTextures sm < MAX_SLOTS ->
  let n := Z.to_nat (m_loadedTextures sm) in
  live_textures
    (mk_SceneManager (m_pShaderManager sm) (Z.of_nat (S n))
       (<[n := e]> (m_textureIDs sm)) (m_objectMaterials sm)) =
    live_textures sm ++ [e].
Proof.
  intros [Hlen Hn] Hfree n. unfold MAX_SLOTS in *.
  unfold live_textures. simpl. rewrite Nat2Z.id. fold n.
  rewrite (take_S_r _ _ e) by (apply list_lookup_insert_eq; unfold n; lia).
  rewrite take_insert_ge by lia. reflexivity.
Qed.

Lemma registry_ok_registered (sm : SceneManager) (e : TEXTURE_INFO.t) :
  registry_ok sm ->
  m_loadedTextures sm < MAX_SLOTS ->
  let n := Z.to_nat (m_loadedTextures sm) in
  registry_ok
    (mk_SceneManager (m_pShaderManager sm) (Z.of_nat (S n))
       (<[n := e]> (m_textureIDs sm)) (m_objectMaterials sm)).
Proof.
  intros [Hlen Hn] Hfree n. unfold MAX_SLOTS in *.
  split; simpl; [rewrite length_insert; exact Hlen | unfold MAX_SLOTS, n; lia].
Qed.

(** X1.  Whatever the file, in a well-formed registry [CreateGLTexture]
    either returns or overflows the table, and it overflows exactly when
    the table is full and the image is one it would register.  When it
    returns, its result says whether the image has 3 or 4 channels, the
    live count has grown by one for [true] and not at all for [false],
    the entries that were live are still there in their slots, and the
    shader manager and the materials are untouched. *)
Theorem X1_CreateGLTexture_outcome (filename tag : string) (w : World) :
  registry_ok (scene w) ->
  match CreateGLTexture filename tag w with
  | Ret (b, w') =>
      b = registers filename /\
      registry_ok (scene w') /\
      m_loadedTextures (scene w') =
        m_loadedTextures (scene w) + (if b then 1 else 0) /\
      live_textures (scene w) `prefix_of` live_textures (scene w') /\
      glContext w `prefix_of` glContext w' /\
      shaderManager w' = shaderManager w /\
      m_objectMaterials (scene w') = m_objectMaterials (scene w) /\
      m_pShaderManager (scene w') = m_pShaderManager (scene w)
  | Undefined ub =>
      ub = OutOfBounds MAX_SLOTS /\
      registers filename = true /\
      m_loadedTextures (scene w) = MAX_SLOTS
  end.
Proof.
  intros Hok. destruct (registers filename) eqn:Hreg.
  - destruct (Z_lt_ge_dec (m_loadedTextures (scene w)) MAX_SLOTS)
      as [Hfree | Hfull].
    + destruct (CreateGLTexture_accepts filename tag w Hreg Hok Hfree)
        as (image & _ & Hrun).
      simpl in Hrun. rewrite Hrun.
      split; [reflexivity |].
      split; [apply registry_ok_registered; assumption |].
      split; [simpl; destruct Hok as [_ Hn]; lia |].
      split.
      { cbn [scene].
        rewrite (live_textures_registered (scene w)) by assumption.
        apply prefix_app_r. reflexivity. }
      split; [simpl; apply prefix_app_r; reflexivity |].
      done.
    + assert (Heq : m_loadedTextures (scene w) = MAX_SLOTS)
        by (destruct Hok as [_ Hn]; lia).
      rewrite (CreateGLTexture_full filename tag w Hreg Hok Heq). done.
  - rewrite (CreateGLTexture_rejects filename tag w Hreg). simpl.
    split; [reflexivity |]. split; [exact Hok |]. split; [lia |].
    split; [reflexivity |].
    split; [apply prefix_app_r; reflexivity |]. done.
Qed.

(** ** Sequences of registrations *)

Lemma CreateGLTextures_room (regs : list (string * string)) :
  forall w : World,
    registry_ok (scene w) ->
    m_loadedTextures (scene w) + Z.of_nat (length (registered regs))
      <= MAX_SLOTS ->
    exists w' : World,
      CreateGLTextures regs w =
        Ret ((fun r => registers r.1) <$> regs, w') /\
      registry_ok (scene w') /\
      m_loadedTextures (scene w') =
        m_loadedTextures (scene w) + Z.of_nat (length (registered regs)) /\
      live_tags (scene w') = live_tags (scene w) ++ (registered regs).*2 /\
      live_textures (scene w) `prefix_of` live_textures (scene w') /\
      glContext w `prefix_of` glContext w' /\
      shaderManager w' = shaderManager w /\
      m_objectMaterials (scene w') = m_objectMaterials (scene w) /\
      m_pShaderManager (scene w') = m_pShaderManager (scene w).
Proof.
  induction regs as [| [filename tag] rest IH]; intros w Hok Hroom.
  - exists w. simpl. rewrite Z.add_0_r, app_nil_r. done.
  - unfold registered in *. simpl List.filter in Hroom |- *.
    simpl CreateGLTextures. simpl fmap.
    destruct (registers filename) eqn:Hreg.
    + simpl length in Hroom.
      assert (Hfree : m_loadedTextures (scene w) < MAX_SLOTS) by lia.
      destruct (CreateGLTexture_accepts filename tag w Hreg Hok Hfree)
        as (image & _ & Hrun).
      simpl in Hrun. set (w1 := mk_World _ _ _) in Hrun.
      assert (Hok1 : registry_ok (scene w1))
        by (apply registry_ok_registered; assumption).
      assert (Hlive1 : live_textures (scene w1) =
                       live_textures (scene w) ++
                       [TEXTURE_INFO.mk tag
                          (wrap_GLuint (gen_texture_name (glContext w)))])
        by (apply live_textures_registered; assumption).
      destruct (IH w1 Hok1) as
        (w' & Hrest & Hok' & Hcount & Htags & Hpre & Hgl & Hsh & Hm & Hp).
      { simpl. destruct Hok as [_ Hn]. lia. }
      exists w'. rewrite (bind_Ret _ _ _ _ _ Hrun).
      rewrite (bind_Ret _ _ _ _ _ Hrest).
      split; [reflexivity |]. split; [exact Hok' |].
      split.
      { rewrite Hcount. simpl. destruct Hok as [_ Hn].
        lia. }
      split.
      { rewrite Htags. unfold live_tags. rewrite Hlive1, fmap_app.
        rewrite <- app_assoc. reflexivity. }
      split.
      { etrans; [| exact Hpre]. rewrite Hlive1.
        apply prefix_app_r. reflexivity. }
      split.
      { etrans; [| exact Hgl]. simpl. apply prefix_app_r. reflexivity. }
      done.
    + pose proof (CreateGLTexture_rejects filename tag w Hreg) as Hrun.
      set (w1 := mk_World _ _ _) in Hrun.
      destruct (IH w1 Hok Hroom) as
        (w' & Hrest & Hok' & Hcount & Htags & Hpre & Hgl & Hsh & Hm & Hp).
      exists w'. rewrite (bind_Ret _ _ _ _ _ Hrun).
      rewrite (bind_Ret _ _ _ _ _ Hrest).
      split; [reflexivity |]. split; [exact Hok' |].
      split; [exact Hcount |]. split; [exact Htags |].
      split; [exact Hpre |].
      split.
      { etrans; [| exact Hgl]. simpl. apply prefix_app_r. reflexivity. }
      done.
Qed.

Lemma CreateGLTextures_overflow (regs : list (string * string)) :
  forall w : World,
    registry_ok (scene w) ->
    MAX_SLOTS <
      m_loadedTextures (scene w) + Z.of_nat (length (registered regs)) ->
    CreateGLTextures regs w = Undefined (OutOfBounds MAX_SLOTS).
Proof.
  induction regs as [| [filename tag] rest IH]; intros w Hok Hover.
  - simpl in Hover. destruct Hok as [_ Hn]. lia.
  - unfold registered in *. simpl List.filter in Hover.
    simpl CreateGLTextures.
    destruct (registers filename) eqn:Hreg.
    + simpl length in Hover.
      destruct (Z_lt_ge_dec (m_loadedTextures (scene w)) MAX_SLOTS)
        as [Hfree | Hfull].
      * destruct (CreateGLTexture_accepts filename tag w Hreg Hok Hfree)
          as (image & _ & Hrun).
        simpl in Hrun. set (w1 := mk_World _ _ _) in Hrun.
        rewrite (bind_Ret _ _ _ _ _ Hrun). cbv beta.
        apply bind_Undefined, IH.
        -- apply registry_ok_registered; assumption.
        -- simpl. destruct Hok as [_ Hn]. lia.
      * apply bind_Undefined, CreateGLTexture_full; [exact Hreg | exact Hok |].
        destruct Hok as [_ Hn]. lia.
    + pose proof (CreateGLTexture_rejects filename tag w Hreg) as Hrun.
      set (w1 := mk_World _ _ _) in Hrun.
      rewrite (bind_Ret _ _ _ _ _ Hrun). cbv beta.
      apply bind_Undefined, IH; assumption.
Qed.

(** X2.  In a sequence of registrations with room for those that
    register, every call returns, with [true] exactly for the files that
    decode to 3 or 4 channels.  The rejected files take no slot: the tags
    of the live entries afterwards are the tags that were live followed
    by the tags of the registering calls, in call order. *)
Theorem X2_rejected_registrations_take_no_slot
    (regs : list (string * string)) (w : World) :
  registry_ok (scene w) ->
  m_loadedTextures (scene w) + Z.of_nat (length (registered regs))
    <= MAX_SLOTS ->
  exists w' : World,
    CreateGLTextures regs w =
      Ret ((fun r => registers r.1) <$> regs, w') /\
    registry_ok (scene w') /\
    m_loadedTextures (scene w') =
      m_loadedTextures (scene w) + Z.of_nat (length (registered regs)) /\
    live_tags (scene w') = live_tags (scene w) ++ (registered regs).*2 /\
    live_textures (scene w) `prefix_of` live_textures (scene w') /\
    glContext w `prefix_of` glContext w' /\
    shaderManager w' = shaderManager w /\
    m_objectMaterials (scene w') = m_objectMaterials (scene w) /\
    m_pShaderManager (scene w') = m_pShaderManager (scene w).
Proof. apply CreateGLTextures_room. Qed.

(** X3.  A sequence of registrations that holds more registering files
    than the table has free slots runs into the store at index 16: the
    whole sequence is undefined, however many rejected files it holds. *)
Theorem X3_too_many_registrations_overflow
    (regs : list (string * string)) (w : World) :
  registry_ok (scene w) ->
  MAX_SLOTS <
    m_loadedTextures (scene w) + Z.of_nat (length (registered regs)) ->
  CreateGLTextures regs w = Undefined (OutOfBounds MAX_SLOTS).
Proof. apply CreateGLTextures_overflow. Qed.

(** ** Lookups *)

Lemma live_textures_length (sm : SceneManager) :
  registry_ok sm ->
  Z.of_nat (length (live_textures sm)) = m_loadedTextures sm.
Proof.
  intros [Hlen Hn]. unfold MAX_SLOTS in *. unfold live_textures.
  rewrite length_take. lia.
Qed.

Lemma find_live_miss (tag : string) (sm : SceneManager) :
  tag ∉ live_tags sm <-> list_find (has_tag tag) (live_textures sm) = None.
Proof.
  rewrite list_find_None, Forall_forall. unfold live_tags, has_tag. split.
  - intros Hmiss e He Htag. apply Hmiss. apply list_elem_of_fmap.
    exists e. split; [symmetry; exact Htag | exact He].
  - intros Hall Hin. apply list_elem_of_fmap in Hin as (e & -> & He).
    exact (Hall e He eq_refl).
Qed.

(** X4.  In a well-formed registry the two lookups agree and change
    nothing.  Either no live entry carries the tag and both return [-1],
    or both report the first live entry with the tag: [FindTextureSlot]
    its index, which lies below the live count, and [FindTextureID] the
    handle stored at that index. *)
Theorem X4_lookups_agree (tag : string) (w : World) :
  registry_ok (scene w) ->
  ((tag ∉ live_tags (scene w)) /\
   FindTextureSlot tag w = Ret (-1, w) /\
   FindTextureID tag w = Ret (-1, w))
  \/
  (exists (i : nat) (e : TEXTURE_INFO.t),
     m_textureIDs (scene w) !! i = Some e /\
     TEXTURE_INFO.tag e = tag /\
     (forall (j : nat) (e' : TEXTURE_INFO.t),
        m_textureIDs (scene w) !! j = Some e' -> (j < i)%nat ->
        TEXTURE_INFO.tag e' <> tag) /\
     0 <= Z.of_nat i < m_loadedTextures (scene w) /\
     FindTextureSlot tag w = Ret (Z.of_nat i, w) /\
     FindTextureID tag w = Ret (int_of_GLuint (TEXTURE_INFO.ID e), w)).
Proof.
  intros Hok.
  rewrite FindTextureSlot_scan, FindTextureID_scan by exact Hok.
  pose proof (live_textures_length (scene w) Hok) as Hlive.
  destruct (list_find (has_tag tag) (live_textures (scene w)))
    as [[i e] |] eqn:Hfind.
  - right. exists i, e. apply list_find_Some in Hfind as (He & Htag & Hfirst).
    assert (Hi : (i < length (live_textures (scene w)))%nat)
      by (eapply lookup_lt_Some, He).
    unfold live_textures in He, Hfirst.
    apply lookup_take_Some in He as [He Hlt].
    split; [exact He |]. split; [exact Htag |].
    split.
    { intros j e' Hj Hji. apply (Hfirst j e'); [| exact Hji].
      apply lookup_take_Some. split; [exact Hj | lia]. }
    split; [lia |]. done.
  - left. split; [by apply find_live_miss |]. done.
Qed.

(** X5.  A registration never changes what the lookups return for a tag
    that is already live, not even when it registers that tag again: the
    earlier entry keeps answering, and the new one takes a slot that no
    lookup reaches. *)
Theorem X5_first_registration_wins (filename tag T : string) (w : World) :
  registry_ok (scene w) ->
  m_loadedTextures (scene w) < MAX_SLOTS ->
  registers filename = true ->
  T ∈ live_tags (scene w) ->
  exists (w' : World) (slot id : Z),
    CreateGLTexture filename tag w = Ret (true, w') /\
    0 <= slot < m_loadedTextures (scene w) /\
    FindTextureSlot T w = Ret (slot, w) /\
    FindTextureSlot T w' = Ret (slot, w') /\
    FindTextureID T w = Ret (id, w) /\
    FindTextureID T w' = Ret (id, w').
Proof.
  intros Hok Hfree Hreg Hlive.
  destruct (CreateGLTexture_accepts filename tag w Hreg Hok Hfree)
    as (image & _ & Hrun).
  simpl in Hrun. set (w1 := mk_World _ _ _) in Hrun.
  assert (Hok1 : registry_ok (scene w1))
    by (apply registry_ok_registered; assumption).
  assert (Hlive1 : live_textures (scene w1) =
                   live_textures (scene w) ++
                   [TEXTURE_INFO.mk tag
                      (wrap_GLuint (gen_texture_name (glContext w)))])
    by (apply live_textures_registered; assumption).
  destruct (list_find (has_tag T) (live_textures (scene w)))
    as [[i e] |] eqn:Hfind.
  2:{ apply find_live_miss in Hfind. contradiction. }
  exists w1, (Z.of_nat i), (int_of_GLuint (TEXTURE_INFO.ID e)).
  split; [exact Hrun |].
  split.
  { apply list_find_Some in Hfind as (He & _).
    apply lookup_lt_Some in He.
    pose proof (live_textures_length (scene w) Hok). lia. }
  rewrite !FindTextureSlot_scan, !FindTextureID_scan by assumption.
  rewrite Hlive1, (list_find_app_l _ _ _ _ _ Hfind), Hfind. done.
Qed.

(** X6.  Registering a tag that no live entry carries makes it
    resolvable: before the call both lookups return [-1] for it, after
    the call [FindTextureSlot] returns the slot the entry took, the
    former live count, and [FindTextureID] the name the driver generated
    for it. *)
Theorem X6_register_then_lookup (filename tag : string) (w : World) :
  registry_ok (scene w) ->
  m_loadedTextures (scene w) < MAX_SLOTS ->
  registers filename = true ->
  tag ∉ live_tags (scene w) ->
  exists w' : World,
    CreateGLTexture filename tag w = Ret (true, w') /\
    FindTextureSlot tag w = Ret (-1, w) /\
    FindTextureID tag w = Ret (-1, w) /\
    FindTextureSlot tag w' = Ret (m_loadedTextures (scene w), w') /\
    FindTextureID tag w' =
      Ret (int_of_GLuint (wrap_GLuint (gen_texture_name (glContext w))), w').
Proof.
  intros Hok Hfree Hreg Hmiss.
  destruct (CreateGLTexture_accepts filename tag w Hreg Hok Hfree)
    as (image & _ & Hrun).
  simpl in Hrun. set (w1 := mk_World _ _ _) in Hrun.
  assert (Hok1 : registry_ok (scene w1))
    by (apply registry_ok_registered; assumption).
  assert (Hlive1 : live_textures (scene w1) =
                   live_textures (scene w) ++
                   [TEXTURE_INFO.mk tag
                      (wrap_GLuint (gen_texture_name (glContext w)))])
    by (apply live_textures_registered; assumption).
  apply find_live_miss in Hmiss.
  exists w1. split; [exact Hrun |].
  rewrite !FindTextureSlot_scan, !FindTextureID_scan by assumption.
  rewrite Hlive1, (list_find_app_r _ _ _ Hmiss), Hmiss. simpl.
  rewrite decide_True by reflexivity. simpl.
  rewrite (live_textures_length (scene w) Hok). done.
Qed.

Lemma wrap_int_large (u : Z) :
  2 ^ 31 <= u < 2 ^ 32 -> wrap_int u = u - 2 ^ 32.
Proof.
  intros Hu. unfold wrap_int.
  replace (u + 2 ^ 31) with (u - 2 ^ 31 + 1 * 2 ^ 32) by lia.
  rewrite Z.mod_add by lia. rewrite Z.mod_small by lia. lia.
Qed.

(** X23.  [FindTextureID] returns the handle as an [int].  For the first
    live entry with the tag it returns the number that converts back to
    the stored [GLuint]; that number is negative exactly for the handles
    from 2^31 on, and it is [-1], the value that also reports a missing
    tag, exactly for the handle 2^32 - 1, while [FindTextureSlot] still
    reports the slot. *)
Theorem X23_FindTextureID_as_int
    (tag : string) (w : World) (i : nat) (e : TEXTURE_INFO.t) :
  registry_ok (scene w) ->
  list_find (has_tag tag) (live_textures (scene w)) = Some (i, e) ->
  0 <= TEXTURE_INFO.ID e < 2 ^ 32 ->
  exists r : Z,
    FindTextureID tag w = Ret (r, w) /\
    FindTextureSlot tag w = Ret (Z.of_nat i, w) /\
    wrap_GLuint r = TEXTURE_INFO.ID e /\
    (r < 0 <-> 2 ^ 31 <= TEXTURE_INFO.ID e) /\
    (r = -1 <-> TEXTURE_INFO.ID e = 2 ^ 32 - 1).
Proof.
  intros Hok Hfind Hid.
  exists (int_of_GLuint (TEXTURE_INFO.ID e)).
  rewrite FindTextureID_scan, FindTextureSlot_scan by exact Hok.
  rewrite Hfind. split; [reflexivity |]. split; [reflexivity |].
  split; [apply GLuint_int_roundtrip, Hid |].
  unfold int_of_GLuint.
  destruct (Z_lt_ge_dec (TEXTURE_INFO.ID e) (2 ^ 31)) as [Hlt | Hge].
  - rewrite wrap_int_small by lia. lia.
  - rewrite wrap_int_large by lia. lia.
Qed.

(** ** Binding and the sampler index *)

Lemma bind_calls_lookup (l : list TEXTURE_INFO.t) :
  forall (b : Z) (j : nat) (e : TEXTURE_INFO.t),
    l !! j = Some e ->
    exists pre post : list GLCall,
      bind_calls b l =
        pre ++
        [ ActiveTexture (GL_TEXTURE0_plus (b + Z.of_nat j));
          BindTexture GL_TEXTURE_2D (TEXTURE_INFO.ID e) ] ++ post.
Proof.
  induction l as [| e0 l IH]; intros b j e Hj; [discriminate |].
  destruct j as [| j]; simpl in Hj.
  - injection Hj as ->. exists [], (bind_calls (b + 1) l).
    simpl. rewrite Z.add_0_r. reflexivity.
  - destruct (IH (b + 1) j e Hj) as (pre & post & Hcalls).
    exists (ActiveTexture (GL_TEXTURE0_plus b) ::
            BindTexture GL_TEXTURE_2D (TEXTURE_INFO.ID e0) :: pre), post.
    simpl. rewrite Hcalls.
    replace (b + 1 + Z.of_nat j) with (b + Z.of_nat (S j)) by lia.
    reflexivity.
Qed.

Lemma length_bind_calls (l : list TEXTURE_INFO.t) (b : Z) :
  length (bind_calls b l) = (2 * length l)%nat.
Proof.
  revert b. induction l as [| e l IH]; intros b; simpl; [reflexivity |].
  rewrite IH. lia.
Qed.

(** X7.  The sampler index and the texture unit agree.  In a well-formed
    registry [BindGLTextures] returns after two calls per live entry and
    touches only the OpenGL context; for a live tag it has selected unit
    [GL_TEXTURE0 + i] and bound there the handle of the first entry with
    the tag, and [i] is the sampler index that [SetShaderTexture] then
    pushes for the tag. *)
Theorem X7_sampler_is_the_bound_unit (tag : string) (w : World) :
  m_pShaderManager (scene w) = pShaderManager ->
  registry_ok (scene w) ->
  tag ∈ live_tags (scene w) ->
  exists (w1 : World) (i : Z) (handle : Z) (pre post : list GLCall),
    BindGLTextures w = Ret (tt, w1) /\
    scene w1 = scene w /\
    shaderManager w1 = shaderManager w /\
    glContext w1 =
      glContext w ++
      pre ++
      [ ActiveTexture (GL_TEXTURE0_plus i);
        BindTexture GL_TEXTURE_2D handle ] ++ post /\
    Z.of_nat (length (pre ++
                      [ ActiveTexture (GL_TEXTURE0_plus i);
                        BindTexture GL_TEXTURE_2D handle ] ++ post)) =
      2 * m_loadedTextures (scene w) /\
    FindTextureID tag w1 = Ret (int_of_GLuint handle, w1) /\
    SetShaderTexture tag w1 =
      Ret (tt, with_uniforms w1
                 [ (g_UseTextureName, UInt 1);
                   (g_TextureValueName, USampler2D i) ]).
Proof.
  intros Hp Hok Hlive.
  destruct (list_find (has_tag tag) (live_textures (scene w)))
    as [[j e] |] eqn:Hfind.
  2:{ apply find_live_miss in Hfind. contradiction. }
  pose proof Hfind as Hfind'.
  apply list_find_Some in Hfind' as (He & _).
  destruct (bind_calls_lookup _ 0 j e He) as (pre & post & Hcalls).
  rewrite Z.add_0_l in Hcalls.
  eexists _, (Z.of_nat j), (TEXTURE_INFO.ID e), pre, post.
  split; [apply BindGLTextures_units, Hok |].
  split; [reflexivity |]. split; [reflexivity |].
  split; [simpl; rewrite Hcalls; reflexivity |].
  split.
  { rewrite <- Hcalls, length_bind_calls.
    pose proof (live_textures_length (scene w) Hok). lia. }
  split.
  - rewrite FindTextureID_scan by exact Hok. simpl scene.
    rewrite Hfind. reflexivity.
  - rewrite SetShaderTexture_pushes by assumption. simpl scene.
    rewrite Hfind. reflexivity.
Qed.

(** ** Teardown and the handles *)

Lemma DestroyGLTextures_result (w : World) :
  registry_ok (scene w) ->
  let N := Z.to_nat (m_loadedTextures (scene w)) in
  let names := fresh_names N (glContext w) in
  DestroyGLTextures w =
    Ret (tt,
         mk_World
           (mk_SceneManager (m_pShaderManager (scene w))
              (m_loadedTextures (scene w))
              (zip_with rename (live_textures (scene w)) names ++
               drop N (m_textureIDs (scene w)))
              (m_objectMaterials (scene w)))
           (shaderManager w)
           (glContext w ++ (GenTextures <$> names))).
Proof.
  intros [Hlen Hn]. unfold MAX_SLOTS in *. cbv zeta.
  unfold DestroyGLTextures, get_scene. unfold mbind at 1, M_bind at 1.
  change 0 with (Z.of_nat 0).
  rewrite DestroyGLTextures_loop by (simpl; lia).
  simpl. rewrite drop_0. reflexivity.
Qed.

Lemma live_textures_destroyed (sm : SceneManager) (names : list Z) :
  registry_ok sm ->
  length names = Z.to_nat (m_loadedTextures sm) ->
  live_textures
    (mk_SceneManager (m_pShaderManager sm) (m_loadedTextures sm)
       (zip_with rename (live_textures sm) names ++
        drop (Z.to_nat (m_loadedTextures sm)) (m_textureIDs sm))
       (m_objectMaterials sm)) =
    zip_with rename (live_textures sm) names.
Proof.
  intros Hok Hnames. pose proof (live_textures_length sm Hok) as Hlive.
  unfold live_textures at 1. simpl.
  apply take_app_length'. rewrite length_zip_with. lia.
Qed.

Lemma registry_ok_destroyed (sm : SceneManager) (names : list Z) :
  registry_ok sm ->
  length names = Z.to_nat (m_loadedTextures sm) ->
  registry_ok
    (mk_SceneManager (m_pShaderManager sm) (m_loadedTextures sm)
       (zip_with rename (live_textures sm) names ++
        drop (Z.to_nat (m_loadedTextures sm)) (m_textureIDs sm))
       (m_objectMaterials sm)).
Proof.
  intros Hok Hnames. pose proof (live_textures_length sm Hok) as Hlive.
  destruct Hok as [Hlen Hn]. unfold MAX_SLOTS in *.
  split; cbn [m_textureIDs m_loadedTextures]; [| unfold MAX_SLOTS; lia].
  rewrite length_app, length_zip_with, length_drop. unfold MAX_SLOTS. lia.
Qed.

Lemma handles_rename (l : list TEXTURE_INFO.t) (names : list Z) :
  length names = length l ->
  TEXTURE_INFO.ID <$> zip_with rename l names = names.
Proof.
  revert names. induction l as [| e l IH]; intros [| name names] Hlen;
    simpl in *; try reflexivity; try lia.
  f_equal. apply IH. lia.
Qed.

(** A scan by tag sees the tags only. *)
Lemma find_by_tags (tag : string) (l : list TEXTURE_INFO.t) :
  forall l' : list TEXTURE_INFO.t,
    TEXTURE_INFO.tag <$> l = TEXTURE_INFO.tag <$> l' ->
    fst <$> list_find (has_tag tag) l = fst <$> list_find (has_tag tag) l'.
Proof.
  induction l as [| e l IH]; intros [| e' l'] Htags; simpl in Htags;
    try discriminate; [reflexivity |].
  injection Htags as Htag Htags. simpl.
  destruct (decide (has_tag tag e)) as [H1 | H1],
           (decide (has_tag tag e')) as [H2 | H2];
    unfold has_tag in H1, H2; try congruence; [reflexivity |].
  specialize (IH l' Htags).
  destruct (list_find (has_tag tag) l) as [[i x] |],
           (list_find (has_tag tag) l') as [[i' x'] |];
    simpl in *; congruence.
Qed.

(** X8.  Teardown unregisters nothing.  In a well-formed registry
    [DestroyGLTextures] returns, the registry is still well formed with
    the same live count and the same tags in the same slots, and
    [FindTextureSlot] answers every tag as it did before. *)
Theorem X8_teardown_keeps_every_slot (w : World) :
  registry_ok (scene w) ->
  exists w' : World,
    DestroyGLTextures w = Ret (tt, w') /\
    registry_ok (scene w') /\
    m_loadedTextures (scene w') = m_loadedTextures (scene w) /\
    live_tags (scene w') = live_tags (scene w) /\
    forall tag : string,
      exists slot : Z,
        FindTextureSlot tag w = Ret (slot, w) /\
        FindTextureSlot tag w' = Ret (slot, w').
Proof.
  intros Hok.
  pose proof (DestroyGLTextures_result w Hok) as Hrun. cbv zeta in Hrun.
  set (names := fresh_names _ _) in Hrun.
  assert (Hnames : length names = Z.to_nat (m_loadedTextures (scene w)))
    by apply length_fresh_names.
  set (w' := mk_World _ _ _) in Hrun.
  assert (Hok' : registry_ok (scene w'))
    by (apply registry_ok_destroyed; assumption).
  assert (Hlive' : live_textures (scene w') =
                   zip_with rename (live_textures (scene w)) names)
    by (apply live_textures_destroyed; assumption).
  assert (Htags : live_tags (scene w') = live_tags (scene w)).
  { unfold live_tags. rewrite Hlive'. apply tags_rename.
    pose proof (live_textures_length (scene w) Hok). lia. }
  exists w'. split; [exact Hrun |]. split; [exact Hok' |].
  split; [reflexivity |]. split; [exact Htags |].
  intros tag. eexists. split; [apply FindTextureSlot_scan, Hok |].
  rewrite FindTextureSlot_scan by exact Hok'.
  pose proof (find_by_tags tag _ _ Htags) as Hfind.
  destruct (list_find (has_tag tag) (live_textures (scene w')))
    as [[i x] |],
    (list_find (has_tag tag) (live_textures (scene w))) as [[i' x'] |];
    simpl in Hfind; try discriminate; [| reflexivity].
  injection Hfind as ->. reflexivity.
Qed.

Lemma generated_names_app (a b : list GLCall) :
  generated_names (a ++ b) = generated_names a ++ generated_names b.
Proof. unfold generated_names. apply omap_app. Qed.

Lemma generated_names_gen (names : list Z) :
  generated_names (GenTextures <$> names) = names.
Proof.
  unfold generated_names.
  induction names as [| n names IH]; simpl; [reflexivity |].
  f_equal. exact IH.
Qed.

Lemma generated_names_bind_calls (l : list TEXTURE_INFO.t) (b : Z) :
  generated_names (bind_calls b l) = [].
Proof.
  unfold generated_names.
  revert b. induction l as [| e l IH]; intros b; simpl; [reflexivity |].
  apply IH.
Qed.

Lemma generated_names_rejected (filename : string) (calls : list GLCall) :
  generated_names calls `prefix_of`
    generated_names (calls ++ rejected_calls filename calls).
Proof. rewrite generated_names_app. apply prefix_app_r. reflexivity. Qed.

(** Under a driver that never reuses a name, consecutive
    [glGenTextures] calls return names that are new and distinct. *)
Lemma fresh_names_fresh (Hfresh : fresh_driver) (k : nat) :
  forall calls : list GLCall,
    Z.of_nat (length (generated_names calls)) + Z.of_nat k <= 2 ^ 32 - 1 ->
    NoDup (fresh_names k calls) /\
    forall x, x ∈ fresh_names k calls -> x ∉ generated_names calls.
Proof.
  induction k as [| k IH]; intros calls Hleft; simpl.
  - split; [constructor |]. intros x Hx. by apply elem_of_nil in Hx.
  - set (name := wrap_GLuint (gen_texture_name calls)).
    assert (Hgen : generated_names (calls ++ [GenTextures name]) =
                   generated_names calls ++ [name])
      by (rewrite generated_names_app; reflexivity).
    destruct (IH (calls ++ [GenTextures name])) as [Hnodup Hnew].
    { rewrite Hgen, length_app. simpl. lia. }
    split.
    + apply NoDup_cons. split; [| exact Hnodup].
      intros Hin. apply (Hnew name Hin). rewrite Hgen.
      apply elem_of_app. right. apply list_elem_of_singleton. reflexivity.
    + intros x Hx. apply elem_of_cons in Hx as [-> | Hx].
      * apply Hfresh. lia.
      * intros Hin. apply (Hnew x Hx). rewrite Hgen.
        apply elem_of_app. left. exact Hin.
Qed.

(** X9.  Teardown loses the textures instead of releasing them.  With a
    driver that never reuses a name and live handles that the context
    generated, [DestroyGLTextures] leaves no entry holding a handle that
    was live before it, and the calls it issues are [glGenTextures] calls
    only: none of the former handles is deleted. *)
Theorem X9_teardown_drops_every_handle (w : World) :
  fresh_driver ->
  names_left w ->
  registry_ok (scene w) ->
  (forall id, id ∈ live_handles (scene w) ->
              id ∈ generated_names (glContext w)) ->
  exists (w' : World) (issued : list GLCall),
    DestroyGLTextures w = Ret (tt, w') /\
    glContext w' = glContext w ++ issued /\
    length issued = Z.to_nat (m_loadedTextures (scene w)) /\
    (forall c, c ∈ issued -> exists name, c = GenTextures name) /\
    (forall id, id ∈ live_handles (scene w) ->
                id ∉ live_handles (scene w')).
Proof.
  intros Hfresh Hleft Hok Hgen.
  pose proof (DestroyGLTextures_result w Hok) as Hrun. cbv zeta in Hrun.
  set (names := fresh_names _ _) in Hrun.
  assert (Hnames : length names = Z.to_nat (m_loadedTextures (scene w)))
    by apply length_fresh_names.
  set (w' := mk_World _ _ _) in Hrun.
  exists w', (GenTextures <$> names).
  split; [exact Hrun |]. split; [reflexivity |].
  split; [rewrite length_fmap; exact Hnames |].
  split.
  { intros c Hc. apply list_elem_of_fmap in Hc as (n & -> & _). by exists n. }
  intros id Hid Hid'.
  unfold live_handles, w' in Hid'. cbn [scene] in Hid'.
  rewrite (live_textures_destroyed (scene w) names Hok Hnames) in Hid'.
  rewrite handles_rename in Hid'
    by (pose proof (live_textures_length (scene w) Hok); lia).
  destruct (fresh_names_fresh Hfresh (Z.to_nat (m_loadedTextures (scene w)))
              (glContext w)) as [_ Hnew].
  { unfold names_left in Hleft. destruct Hok as [_ Hn]. lia. }
  exact (Hnew id Hid' (Hgen id Hid)).
Qed.

(** X10.  With a driver that never reuses a name, the registry never
    comes to hold one handle in two live entries: the property that the
    live handles are pairwise distinct names generated by the context is
    kept by every [CreateGLTexture] that returns, by [BindGLTextures] and
    by [DestroyGLTextures]. *)
Theorem X10_live_handles_stay_distinct (w : World) :
  fresh_driver ->
  names_left w ->
  registry_ok (scene w) ->
  handles_tracked w ->
  (forall filename tag : string,
     match CreateGLTexture filename tag w with
     | Ret (_, w') => handles_tracked w'
     | Undefined _ => True
     end) /\
  (exists w' : World, BindGLTextures w = Ret (tt, w') /\ handles_tracked w') /\
  (exists w' : World,
     DestroyGLTextures w = Ret (tt, w') /\ handles_tracked w').
Proof.
  intros Hfresh Hleft Hok [Hnodup Hgen].
  unfold names_left, MAX_SLOTS in Hleft. split; [| split].
  - intros filename tag. destruct (registers filename) eqn:Hreg.
    + destruct (Z_lt_ge_dec (m_loadedTextures (scene w)) MAX_SLOTS)
        as [Hfree | Hfull].
      * destruct (CreateGLTexture_accepts filename tag w Hreg Hok Hfree)
          as (image & _ & Hrun).
        simpl in Hrun. rewrite Hrun. clear Hrun.
        set (name := wrap_GLuint (gen_texture_name (glContext w))).
        unfold handles_tracked, live_handles. cbn [scene glContext].
        rewrite (live_textures_registered (scene w)) by assumption.
        rewrite fmap_app. simpl. split.
        -- apply NoDup_app. split; [exact Hnodup |].
           split; [| apply NoDup_singleton].
           intros id Hid Hname. apply list_elem_of_singleton in Hname as ->.
           exact (Hfresh (glContext w) ltac:(lia) (Hgen name Hid)).
        -- intros id Hid. rewrite generated_names_upload.
           apply elem_of_app in Hid as [Hid | Hid].
           ++ apply elem_of_app. left. exact (Hgen id Hid).
           ++ apply elem_of_app. right. exact Hid.
      * assert (Heq : m_loadedTextures (scene w) = MAX_SLOTS)
          by (destruct Hok as [_ Hn]; lia).
        rewrite (CreateGLTexture_full filename tag w Hreg Hok Heq).
        exact I.
    + rewrite (CreateGLTexture_rejects filename tag w Hreg).
      split; [exact Hnodup |]. intros id Hid. cbn [scene glContext] in *.
      eapply elem_of_prefix; [exact (Hgen id Hid) |].
      apply generated_names_rejected.
  - eexists. split; [apply BindGLTextures_units, Hok |].
    split; [exact Hnodup |]. intros id Hid. cbn [scene glContext] in *.
    rewrite generated_names_app, generated_names_bind_calls, app_nil_r.
    exact (Hgen id Hid).
  - pose proof (DestroyGLTextures_result w Hok) as Hrun. cbv zeta in Hrun.
    set (names := fresh_names _ _) in Hrun.
    assert (Hnames : length names = Z.to_nat (m_loadedTextures (scene w)))
      by apply length_fresh_names.
    eexists. split; [exact Hrun |].
    unfold handles_tracked, live_handles. cbn [scene glContext].
    rewrite (live_textures_destroyed (scene w) names Hok Hnames).
    rewrite handles_rename
      by (pose proof (live_textures_length (scene w) Hok); lia).
    split.
    + apply (fresh_names_fresh Hfresh).
      destruct Hok as [_ Hn]. unfold MAX_SLOTS in Hn. lia.
    + intros id Hid. rewrite generated_names_app, generated_names_gen.
      apply elem_of_app. right. exact Hid.
Qed.

(** ** The binding a registration leaves *)

Lemma last_bound_app (a b : list GLCall) (texture : Z) :
  last_bound b = Some texture -> last_bound (a ++ b) = Some texture.
Proof.
  unfold last_bound. intros Hb. rewrite omap_app, last_app, Hb. reflexivity.
Qed.

(** X11.  What a registration leaves bound.  A call that registers ends
    with texture 0 bound to [GL_TEXTURE_2D].  A call that rejects a
    decoded image for its channel count has already generated a texture
    name and bound it: it returns [false] with that name still bound and
    with no entry of the registry referring to it.  A call whose file
    does not decode issues no OpenGL call at all. *)
Theorem X11_binding_left_by_registration
    (filename tag : string) (w : World) :
  registry_ok (scene w) ->
  m_loadedTextures (scene w) < MAX_SLOTS ->
  match stbi_load true filename with
  | None => CreateGLTexture filename tag w = Ret (false, w)
  | Some image =>
      let name := wrap_GLuint (gen_texture_name (glContext w)) in
      exists w' : World,
        CreateGLTexture filename tag w = Ret (registers filename, w') /\
        name ∈ generated_names (glContext w') /\
        if registers filename then last_bound (glContext w') = Some 0
        else last_bound (glContext w') = Some name /\
             scene w' = scene w
  end.
Proof.
  intros Hok Hfree.
  destruct (stbi_load true filename) as [image |] eqn:Hload.
  - cbv zeta. destruct (registers filename) eqn:Hreg.
    + destruct (CreateGLTexture_accepts filename tag w Hreg Hok Hfree)
        as (image' & Hload' & Hrun).
      simpl in Hrun. eexists. split; [exact Hrun |]. cbn [glContext].
      split.
      * rewrite generated_names_upload. apply elem_of_app. right.
        apply list_elem_of_singleton. reflexivity.
      * apply last_bound_app. unfold texture_upload_calls. simpl.
        destruct (colorChannels image' =? 3); reflexivity.
    + pose proof (CreateGLTexture_rejects filename tag w Hreg) as Hrun.
      eexists. split; [exact Hrun |]. cbn [glContext scene].
      unfold rejected_calls. rewrite Hload. split.
      * rewrite generated_names_app. apply elem_of_app. right.
        apply list_elem_of_here.
      * split; [| reflexivity]. apply last_bound_app. reflexivity.
  - apply CreateGLTexture_undecodable, Hload.
Qed.

(** ** Material lookups that hit *)

Lemma find_material_first (tag : string) (mats : list OBJECT_MATERIAL.t) :
  forall (i : nat) (m material : OBJECT_MATERIAL.t),
    list_find (fun m => OBJECT_MATERIAL.tag m = tag) mats = Some (i, m) ->
    find_material tag mats material =
      OBJECT_MATERIAL.mk (OBJECT_MATERIAL.tag material)
        (OBJECT_MATERIAL.diffuseColor m) (OBJECT_MATERIAL.specularColor m)
        (OBJECT_MATERIAL.shininess m).
Proof.
  induction mats as [| m0 mats IH]; intros i m material Hfind;
    [discriminate |].
  simpl in Hfind |- *.
  destruct (String.eqb_spec (OBJECT_MATERIAL.tag m0) tag) as [Heq | Hne].
  - rewrite decide_True in Hfind by exact Heq. injection Hfind as _ <-.
    reflexivity.
  - rewrite decide_False in Hfind by exact Hne.
    destruct (list_find _ mats) as [[j m'] |] eqn:Hrest; [| discriminate].
    injection Hfind as _ <-. exact (IH j m' material eq_refl).
Qed.

(** X12.  A lookup that hits returns the first material with the tag,
    whatever follows it in the list: [FindMaterial] returns [true],
    copies that material's two colours and its shininess into the
    caller's variable, leaves the variable's own tag as it was, and
    changes nothing else. *)
Theorem X12_FindMaterial_first_match
    (tag : string) (material : OBJECT_MATERIAL.t) (w : World)
    (i : nat) (m : OBJECT_MATERIAL.t) :
  first_material tag (scene w) = Some (i, m) ->
  FindMaterial tag material w =
    Ret ((true,
          OBJECT_MATERIAL.mk (OBJECT_MATERIAL.tag material)
            (OBJECT_MATERIAL.diffuseColor m)
            (OBJECT_MATERIAL.specularColor m)
            (OBJECT_MATERIAL.shininess m)), w).
Proof.
  unfold first_material. intros Hfind.
  rewrite FindMaterial_nonempty.
  - rewrite (find_material_first tag _ i m material Hfind). reflexivity.
  - intros Hnil. rewrite Hnil in Hfind. discriminate.
Qed.

Lemma SetShaderMaterial_attached (indeterminate : OBJECT_MATERIAL.t)
    (materialTag : string) (w : World) :
  m_pShaderManager (scene w) = pShaderManager ->
  m_objectMaterials (scene w) <> [] ->
  SetShaderMaterial indeterminate materialTag w =
    Ret (tt, with_uniforms w
               (material_uniforms
                  (find_material materialTag (m_objectMaterials (scene w))
                     indeterminate))).
Proof.
  intros Hp Hne. unfold SetShaderMaterial.
  unfold get_scene at 1. unfold mbind at 1, M_bind at 1.
  destruct (m_objectMaterials (scene w)) as [| m mats] eqn:Hmats; [done |].
  replace (0 <? Z.of_nat (length (m :: mats))) with true
    by (symmetry; apply Z.ltb_lt; simpl; lia).
  rewrite (bind_Ret _ _ _ _ _
             (FindMaterial_nonempty materialTag indeterminate w
                ltac:(rewrite Hmats; done))).
  rewrite Hmats.
  unfold setVec3Value, setFloatValue, set_uniform, with_uniforms,
    material_uniforms, mbind, M_bind.
  simpl. repeat (rewrite Hp; simpl).
  rewrite <- !app_assoc. reflexivity.
Qed.

(** X13.  With a shader manager attached, [SetShaderMaterial] for a tag
    that some material carries pushes exactly the three material
    uniforms, with the values of the first material carrying the tag;
    what the uninitialised local held does not reach the shader. *)
Theorem X13_SetShaderMaterial_pushes_first_match
    (indeterminate : OBJECT_MATERIAL.t) (materialTag : string) (w : World)
    (i : nat) (m : OBJECT_MATERIAL.t) :
  m_pShaderManager (scene w) = pShaderManager ->
  first_material materialTag (scene w) = Some (i, m) ->
  SetShaderMaterial indeterminate materialTag w =
    Ret (tt, with_uniforms w (material_uniforms m)).
Proof.
  unfold first_material. intros Hp Hfind.
  rewrite SetShaderMaterial_attached; [| exact Hp |].
  - rewrite (find_material_first _ _ i m indeterminate Hfind). reflexivity.
  - intros Hnil. rewrite Hnil in Hfind. discriminate.
Qed.

(** X14.  [SetShaderMaterial] is the one per-draw call without a null
    test.  With [m_pShaderManager] null it returns untouched only while
    no material is registered; as soon as one is, it calls through the
    null pointer, for every tag, registered or not. *)
Theorem X14_SetShaderMaterial_null_shader_manager
    (indeterminate : OBJECT_MATERIAL.t) (materialTag : string) (w : World) :
  m_pShaderManager (scene w) = NULL ->
  SetShaderMaterial indeterminate materialTag w =
    match m_objectMaterials (scene w) with
    | [] => Ret (tt, w)
    | _ :: _ => Undefined NullDereference
    end.
Proof.
  intros Hp. destruct (m_objectMaterials (scene w)) as [| m mats] eqn:Hmats.
  - apply SetShaderMaterial_empty, Hmats.
  - unfold SetShaderMaterial.
    unfold get_scene at 1. unfold mbind at 1, M_bind at 1. rewrite Hmats.
    replace (0 <? Z.of_nat (length (m :: mats))) with true
      by (symmetry; apply Z.ltb_lt; simpl; lia).
    rewrite (bind_Ret _ _ _ _ _
               (FindMaterial_nonempty materialTag indeterminate w
                  ltac:(rewrite Hmats; done))).
    unfold setVec3Value, set_uniform, mbind, M_bind. simpl.
    rewrite Hp. reflexivity.
Qed.

(** ** Per-draw state: what each call leaves alone *)

Lemma uniform_store_frame (calls s : ShaderManager) (name : string) :
  name ∉ calls.*1 ->
  uniform_store (s ++ calls) !! name = uniform_store s !! name.
Proof.
  induction calls as [| [k v] calls IH] using rev_ind; intros Hname.
  - rewrite app_nil_r. reflexivity.
  - rewrite fmap_app, not_elem_of_app in Hname. destruct Hname as [Hl Hk].
    rewrite app_assoc, uniform_store_snoc.
    rewrite lookup_insert_ne.
    + apply IH, Hl.
    + intros ->. apply Hk. simpl. apply list_elem_of_here.
Qed.

Lemma with_uniforms_app (w : World) (a b : ShaderManager) :
  with_uniforms (with_uniforms w a) b = with_uniforms w (a ++ b).
Proof. unfold with_uniforms. simpl. rewrite app_assoc. reflexivity. Qed.

Lemma with_uniforms_nil (w : World) : with_uniforms w [] = w.
Proof. unfold with_uniforms. rewrite app_nil_r. destruct w. reflexivity. Qed.

(** With a shader manager attached every per-draw call returns, having
    set uniforms among its own only. *)
Lemma run_setter_pushes (c : SetterCall) (w : World) :
  m_pShaderManager (scene w) = pShaderManager ->
  registry_ok (scene w) ->
  exists calls : ShaderManager,
    run_setter c w = Ret (tt, with_uniforms w calls) /\
    calls.*1 ⊆ setter_names c.
Proof.
  intros Hp Hok.
  destruct c as [sc x y z p | r g b a | textureTag | u v | ind materialTag];
    simpl.
  - eexists. split.
    + unfold SetTransformations, get_scene, has_shader_manager, setMat4Value,
        set_uniform, with_uniforms, mbind, M_bind. simpl.
      repeat (rewrite Hp; simpl). reflexivity.
    + simpl. set_solver.
  - eexists. split; [apply SetShaderColor_pushes, Hp |]. simpl. set_solver.
  - eexists. split; [apply SetShaderTexture_pushes; assumption |].
    simpl. set_solver.
  - eexists. split.
    + unfold SetTextureUVScale, get_scene, has_shader_manager, setVec2Value,
        set_uniform, with_uniforms, mbind, M_bind. simpl.
      repeat (rewrite Hp; simpl). reflexivity.
    + simpl. set_solver.
  - destruct (m_objectMaterials (scene w)) as [| m mats] eqn:Hmats.
    + exists []. split; [| simpl; set_solver].
      rewrite with_uniforms_nil. apply SetShaderMaterial_empty, Hmats.
    + eexists. split.
      * apply SetShaderMaterial_attached; [exact Hp |].
        rewrite Hmats. discriminate.
      * simpl. set_solver.
Qed.

Lemma run_setters_pushes (cs : list SetterCall) :
  forall w : World,
    m_pShaderManager (scene w) = pShaderManager ->
    registry_ok (scene w) ->
    exists calls : ShaderManager,
      run_setters cs w = Ret (tt, with_uniforms w calls) /\
      forall name, name ∈ calls.*1 ->
                   exists c, c ∈ cs /\ name ∈ setter_names c.
Proof.
  induction cs as [| c cs IH]; intros w Hp Hok.
  - exists []. split; [by rewrite with_uniforms_nil |].
    intros name Hname. by apply elem_of_nil in Hname.
  - destruct (run_setter_pushes c w Hp Hok) as (calls1 & Hrun1 & Hnames1).
    destruct (IH (with_uniforms w calls1) Hp Hok) as (calls2 & Hrun2 & Hnames2).
    exists (calls1 ++ calls2). split.
    + simpl. rewrite (bind_Ret _ _ _ _ _ Hrun1), Hrun2, with_uniforms_app.
      reflexivity.
    + intros name Hname. rewrite fmap_app in Hname.
      apply elem_of_app in Hname as [Hname | Hname].
      * exists c. split; [apply list_elem_of_here | apply Hnames1, Hname].
      * destruct (Hnames2 name Hname) as (c' & Hc' & Hn).
        exists c'. split; [apply list_elem_of_further, Hc' | exact Hn].
Qed.

(** X15.  With a shader manager attached and a well-formed registry, any
    sequence of [SetTransformations], [SetShaderColor],
    [SetShaderTexture], [SetTextureUVScale] and [SetShaderMaterial]
    calls returns; it changes neither the registries nor the OpenGL
    context, keeps every earlier push, and leaves each uniform that is
    not among those of its calls with the value it had. *)
Theorem X15_per_draw_calls_frame (cs : list SetterCall) (w : World) :
  m_pShaderManager (scene w) = pShaderManager ->
  registry_ok (scene w) ->
  exists w' : World,
    run_setters cs w = Ret (tt, w') /\
    scene w' = scene w /\
    glContext w' = glContext w /\
    shaderManager w `prefix_of` shaderManager w' /\
    forall name : string,
      (forall c, c ∈ cs -> name ∉ setter_names c) ->
      uniform_store (shaderManager w') !! name =
        uniform_store (shaderManager w) !! name.
Proof.
  intros Hp Hok.
  destruct (run_setters_pushes cs w Hp Hok) as (calls & Hrun & Hnames).
  exists (with_uniforms w calls). split; [exact Hrun |].
  split; [reflexivity |]. split; [reflexivity |].
  split; [simpl; apply prefix_app_r; reflexivity |].
  intros name Hother. simpl. apply uniform_store_frame.
  intros Hin. destruct (Hnames name Hin) as (c & Hc & Hn).
  exact (Hother c Hc Hn).
Qed.

Lemma material_names_apart (c : SetterCall) (name : string) :
  is_material_call c = false ->
  name ∈ setter_names c ->
  name ∉ ["material.diffuseColor"; "material.specularColor";
          "material.shininess"].
Proof.
  intros Hc Hn Hname.
  destruct c; simpl in Hc, Hn; try discriminate;
    repeat (apply elem_of_cons in Hn as [-> | Hn]);
    try (by apply elem_of_nil in Hn);
    repeat (apply elem_of_cons in Hname as [Hname | Hname];
            [discriminate Hname |]);
    by apply elem_of_nil in Hname.
Qed.

(** X16.  The material carries over.  After [SetShaderMaterial] has
    pushed a registered material, any sequence of transform, colour,
    texture and UV-scale calls leaves the three material uniforms at that
    material's values: they hold for every later draw until the next
    [SetShaderMaterial]. *)
Theorem X16_material_carries_over
    (indeterminate : OBJECT_MATERIAL.t) (materialTag : string)
    (cs : list SetterCall) (w : World) (i : nat) (m : OBJECT_MATERIAL.t) :
  m_pShaderManager (scene w) = pShaderManager ->
  registry_ok (scene w) ->
  first_material materialTag (scene w) = Some (i, m) ->
  Forall (fun c => is_material_call c = false) cs ->
  exists w' : World,
    run_setters (CallSetMaterial indeterminate materialTag :: cs) w =
      Ret (tt, w') /\
    uniform_store (shaderManager w') !! "material.diffuseColor" =
      Some (UVec3 (OBJECT_MATERIAL.diffuseColor m)) /\
    uniform_store (shaderManager w') !! "material.specularColor" =
      Some (UVec3 (OBJECT_MATERIAL.specularColor m)) /\
    uniform_store (shaderManager w') !! "material.shininess" =
      Some (UFloat (OBJECT_MATERIAL.shininess m)).
Proof.
  unfold first_material. intros Hp Hok Hfind Hcs.
  assert (Hset : SetShaderMaterial indeterminate materialTag w =
                 Ret (tt, with_uniforms w (material_uniforms m))).
  { rewrite SetShaderMaterial_attached; [| exact Hp |].
    - rewrite (find_material_first _ _ i m indeterminate Hfind). reflexivity.
    - intros Hnil. rewrite Hnil in Hfind. discriminate. }
  destruct (run_setters_pushes cs (with_uniforms w (material_uniforms m))
              Hp Hok) as (calls & Hrun & Hnames).
  eexists. split.
  { simpl. rewrite (bind_Ret _ _ _ _ _ Hset). exact Hrun. }
  assert (Hkeep : forall name,
            name ∈ (material_uniforms m).*1 ->
            uniform_store
              (shaderManager
                 (with_uniforms (with_uniforms w (material_uniforms m)) calls))
              !! name =
            uniform_store (shaderManager w ++ material_uniforms m) !! name).
  { intros name Hname. simpl. apply uniform_store_frame.
    intros Hin. destruct (Hnames name Hin) as (c & Hc & Hn).
    rewrite Forall_forall in Hcs.
    exact (material_names_apart c name (Hcs c Hc) Hn Hname). }
  assert (Hstore : uniform_store (shaderManager w ++ material_uniforms m) =
            <["material.shininess" := UFloat (OBJECT_MATERIAL.shininess m)]>
              (<["material.specularColor" :=
                   UVec3 (OBJECT_MATERIAL.specularColor m)]>
                 (<["material.diffuseColor" :=
                      UVec3 (OBJECT_MATERIAL.diffuseColor m)]>
                    (uniform_store (shaderManager w))))).
  { unfold material_uniforms.
    change (shaderManager w ++ [?x; ?y; ?z])
      with (shaderManager w ++ [x] ++ [y; z]).
    rewrite app_assoc, uniform_store_snoc2, uniform_store_snoc.
    reflexivity. }
  split; [| split].
  - rewrite Hkeep by (simpl; apply list_elem_of_here). rewrite Hstore.
    rewrite !lookup_insert_ne by done. apply lookup_insert_eq.
  - rewrite Hkeep
      by (simpl; apply list_elem_of_further, list_elem_of_here).
    rewrite Hstore.
    rewrite lookup_insert_ne by done. apply lookup_insert_eq.
  - rewrite Hkeep
      by (simpl; do 2 apply list_elem_of_further; apply list_elem_of_here).
    rewrite Hstore. apply lookup_insert_eq.
Qed.

(** ** Lights *)

Lemma set_uniform_attached (name : string) (v : UniformValue) (w : World) :
  m_pShaderManager (scene w) = pShaderManager ->
  set_uniform name v w = Ret (tt, with_uniforms w [(name, v)]).
Proof. intros Hp. unfold set_uniform. rewrite Hp. reflexivity. Qed.

Ltac push_uniform Hp :=
  erewrite bind_Ret by (apply set_uniform_attached; exact Hp);
  cbv beta.

Lemma SetupSceneLights_attached (w : World) :
  m_pShaderManager (scene w) = pShaderManager ->
  exists calls : ShaderManager,
    SetupSceneLights w = Ret (tt, with_uniforms w calls) /\
    calls.*1 = light_names /\
    calls !! 0%nat = Some (g_UseLightingName, UInt 1).
Proof.
  intros Hp. eexists. split.
  - unfold SetupSceneLights, setBoolValue, setVec3Value, setFloatValue.
    do 22 push_uniform Hp.
    erewrite set_uniform_attached by exact Hp.
    rewrite !with_uniforms_app. reflexivity.
  - split; reflexivity.
Qed.

Lemma light_names_apart :
  forall name : string, name ∈ light_names -> name ∉ per_draw_names.
Proof.
  intros name Hl Hd. unfold light_names in Hl.
  repeat (apply elem_of_cons in Hl as [-> | Hl];
          [ unfold per_draw_names in Hd;
            repeat (apply elem_of_cons in Hd as [Hd | Hd];
                    [discriminate Hd |]);
            by apply elem_of_nil in Hd |]).
  by apply elem_of_nil in Hl.
Qed.

Lemma setter_names_per_draw (c : SetterCall) (name : string) :
  name ∈ setter_names c -> name ∈ per_draw_names.
Proof.
  unfold per_draw_names. destruct c; simpl; intros Hn;
    repeat (apply elem_of_cons in Hn as [-> | Hn]);
    try (by apply elem_of_nil in Hn); set_solver.
Qed.

(** X17.  [SetupSceneLights] calls the shader manager without a null
    test: with [m_pShaderManager] null it is undefined at its first
    statement.  With a shader manager attached it returns after setting
    each of its 23 uniforms once, lighting enabled first; none of them is
    a uniform that the per-draw calls set, and the registries and the
    OpenGL context are untouched. *)
Theorem X17_SetupSceneLights_outcome (w : World) :
  match m_pShaderManager (scene w) with
  | NULL => SetupSceneLights w = Undefined NullDereference
  | pShaderManager =>
      exists calls : ShaderManager,
        SetupSceneLights w = Ret (tt, with_uniforms w calls) /\
        calls.*1 = light_names /\
        NoDup light_names /\
        (forall name, name ∈ light_names -> name ∉ per_draw_names) /\
        uniform_store (shaderManager (with_uniforms w calls))
          !! g_UseLightingName = Some (UInt 1)
  end.
Proof.
  destruct (m_pShaderManager (scene w)) eqn:Hp.
  - apply bind_Undefined. unfold setBoolValue, set_uniform.
    rewrite Hp. reflexivity.
  - destruct (SetupSceneLights_attached w Hp) as (calls & Hrun & Hnames & Hfirst).
    exists calls. split; [exact Hrun |]. split; [exact Hnames |].
    split; [apply (bool_decide_unpack _); vm_compute; exact I |].
    split; [exact light_names_apart |].
    destruct calls as [| kv calls]; [discriminate |].
    injection Hfirst as ->.
    assert (Hrest : calls.*1 = tail light_names)
      by (injection Hnames as Hrest; exact Hrest).
    simpl. change (shaderManager w ++ ?x :: calls)
      with (shaderManager w ++ [x] ++ calls).
    rewrite app_assoc, uniform_store_frame, uniform_store_snoc.
    + apply lookup_insert_eq.
    + rewrite Hrest. intros Hin. simpl in Hin.
      repeat (apply elem_of_cons in Hin as [Hin | Hin]; [discriminate Hin |]).
      by apply elem_of_nil in Hin.
Qed.

(** X18.  The lights are configured once and stay.  After
    [SetupSceneLights], any sequence of per-draw calls leaves each of the
    light uniforms holding the value [SetupSceneLights] gave it. *)
Theorem X18_lights_survive_per_draw_calls
    (cs : list SetterCall) (w : World) :
  m_pShaderManager (scene w) = pShaderManager ->
  registry_ok (scene w) ->
  exists w1 w2 : World,
    SetupSceneLights w = Ret (tt, w1) /\
    run_setters cs w1 = Ret (tt, w2) /\
    forall name : string,
      name ∈ light_names ->
      is_Some (uniform_store (shaderManager w1) !! name) /\
      uniform_store (shaderManager w2) !! name =
        uniform_store (shaderManager w1) !! name.
Proof.
  intros Hp Hok.
  destruct (SetupSceneLights_attached w Hp) as (calls & Hrun & Hnames & _).
  destruct (run_setters_pushes cs (with_uniforms w calls) Hp Hok)
    as (calls' & Hrun' & Hnames').
  eexists _, _. split; [exact Hrun |]. split; [exact Hrun' |].
  intros name Hname. split.
  - simpl. rewrite <- Hnames in Hname. clear -Hname.
    induction calls as [| [k v] calls IH] using rev_ind.
    + by apply elem_of_nil in Hname.
    + rewrite app_assoc, uniform_store_snoc.
      rewrite fmap_app in Hname. apply elem_of_app in Hname as [Hname | Hname].
      * destruct (decide (k = name)) as [-> | Hne].
        -- rewrite lookup_insert_eq. eauto.
        -- rewrite lookup_insert_ne by exact Hne. apply IH, Hname.
      * apply list_elem_of_singleton in Hname. simpl in Hname. subst k.
        rewrite lookup_insert_eq. eauto.
  - simpl. apply uniform_store_frame. intros Hin.
    destruct (Hnames' name Hin) as (c & _ & Hn).
    exact (light_names_apart name Hname (setter_names_per_draw c name Hn)).
Qed.

(** ** Scene set-up *)

Lemma LoadSceneTextures_sequence (w : World) :
  LoadSceneTextures w =
    (CreateGLTextures scene_textures ≫= fun _ => BindGLTextures) w.
Proof.
  unfold LoadSceneTextures, scene_textures. simpl CreateGLTextures.
  unfold mbind, M_bind, mret, M_ret.
  repeat match goal with
         | |- context [CreateGLTexture ?f ?t ?w0] =>
             destruct (CreateGLTexture f t w0) as [[? ?] | ?];
             [| reflexivity]
         end.
  reflexivity.
Qed.

Lemma length_registered (regs : list (string * string)) :
  (length (registered regs) <= length regs)%nat.
Proof.
  unfold registered. induction regs as [| r regs IH]; simpl; [lia |].
  destruct (registers r.1); simpl; lia.
Qed.

Lemma LoadSceneTextures_room (w : World) :
  registry_ok (scene w) ->
  m_loadedTextures (scene w)
    + Z.of_nat (length (registered scene_textures)) <= MAX_SLOTS ->
  exists w1 : World,
    LoadSceneTextures w =
      Ret (tt, mk_World (scene w1) (shaderManager w1)
                 (glContext w1 ++ bind_calls 0 (live_textures (scene w1)))) /\
    registry_ok (scene w1) /\
    m_loadedTextures (scene w1) =
      m_loadedTextures (scene w)
      + Z.of_nat (length (registered scene_textures)) /\
    live_tags (scene w1) =
      live_tags (scene w) ++ (registered scene_textures).*2 /\
    shaderManager w1 = shaderManager w /\
    m_objectMaterials (scene w1) = m_objectMaterials (scene w) /\
    m_pShaderManager (scene w1) = m_pShaderManager (scene w).
Proof.
  intros Hok Hroom.
  destruct (CreateGLTextures_room scene_textures w Hok Hroom) as
    (w1 & Hrun & Hok1 & Hcount & Htags & _ & _ & Hsh & Hm & Hp).
  exists w1. split; [| done].
  rewrite LoadSceneTextures_sequence, (bind_Ret _ _ _ _ _ Hrun).
  apply BindGLTextures_units, Hok1.
Qed.

(** X19.  [LoadSceneTextures] is safe on a registry with at most five
    live textures, whichever of its eleven files decode: it returns with
    a well-formed registry whose live tags are the former ones followed
    by the tags of the files that registered, in the order of the calls,
    and it ends by binding every live texture to the unit of its slot.
    When the files that register outnumber the free slots it is
    undefined instead. *)
Theorem X19_LoadSceneTextures_outcome (w : World) :
  registry_ok (scene w) ->
  (length (registered scene_textures) <= 11)%nat /\
  (m_loadedTextures (scene w) <= 5 ->
   exists w' : World,
     LoadSceneTextures w = Ret (tt, w') /\
     registry_ok (scene w') /\
     live_tags (scene w') =
       live_tags (scene w) ++ (registered scene_textures).*2 /\
     (exists calls : list GLCall,
        glContext w' = calls ++ bind_calls 0 (live_textures (scene w'))) /\
     shaderManager w' = shaderManager w /\
     m_objectMaterials (scene w') = m_objectMaterials (scene w)) /\
  (MAX_SLOTS <
     m_loadedTextures (scene w)
     + Z.of_nat (length (registered scene_textures)) ->
   LoadSceneTextures w = Undefined (OutOfBounds MAX_SLOTS)).
Proof.
  intros Hok.
  pose proof (length_registered scene_textures) as Hlen.
    change (length scene_textures) with 11%nat in Hlen.
  split; [exact Hlen |]. split.
  - intros Hfive.
    destruct (LoadSceneTextures_room w Hok) as
      (w1 & Hrun & Hok1 & _ & Htags & Hsh & Hm & _).
    { unfold MAX_SLOTS. lia. }
    eexists. split; [exact Hrun |]. cbn [scene glContext shaderManager].
    split; [exact Hok1 |]. split; [exact Htags |].
    split; [by exists (glContext w1) |]. done.
  - intros Hover. rewrite LoadSceneTextures_sequence.
    apply bind_Undefined, CreateGLTextures_overflow; assumption.
Qed.

Lemma define_materials_result (materials : list OBJECT_MATERIAL.t) :
  forall w : World,
    define_materials materials w =
      Ret (tt,
           mk_World
             (mk_SceneManager (m_pShaderManager (scene w))
                (m_loadedTextures (scene w)) (m_textureIDs (scene w))
                (m_objectMaterials (scene w) ++ materials))
             (shaderManager w) (glContext w)).
Proof.
  induction materials as [| m materials IH]; intros w.
  - simpl. rewrite app_nil_r. destruct w as [[] ? ?]. reflexivity.
  - simpl define_materials.
    unfold push_back_material, get_scene, put_scene.
    unfold mbind at 1 2. unfold M_bind at 1 2. cbv beta iota.
    rewrite IH. simpl. rewrite <- app_assoc. reflexivity.
Qed.

(** With pairwise distinct tags, the first material with the tag of an
    entry is that entry. *)
Lemma first_of_distinct (mats : list OBJECT_MATERIAL.t)
    (m : OBJECT_MATERIAL.t) :
  NoDup (OBJECT_MATERIAL.tag <$> mats) ->
  m ∈ mats ->
  exists i : nat,
    list_find (fun x => OBJECT_MATERIAL.tag x = OBJECT_MATERIAL.tag m) mats
      = Some (i, m).
Proof.
  intros Hnodup Hm. apply list_elem_of_lookup in Hm as [i Hi].
  exists i. apply list_find_Some. split; [exact Hi |].
  split; [reflexivity |].
  intros j y Hj Hji Htag.
  assert (Hij : j = i); [| lia].
  apply (NoDup_lookup _ _ _ (OBJECT_MATERIAL.tag m) Hnodup).
  - rewrite list_lookup_fmap, Hj. simpl. by rewrite Htag.
  - rewrite list_lookup_fmap, Hi. reflexivity.
Qed.

(** X20.  [PrepareScene] needs a shader manager: with
    [m_pShaderManager] null it is undefined at its first statement,
    before anything is registered.  With one attached, on a well-formed
    registry with at most five live textures, it returns; it has appended
    its twelve materials to the material list and registered the files
    that decode.  Started without materials, every one of the twelve
    then resolves to itself: [SetShaderMaterial] with its tag pushes its
    own three values, none being hidden behind an equal tag. *)
Theorem X20_PrepareScene_outcome (w : World) :
  registry_ok (scene w) ->
  m_loadedTextures (scene w) <= 5 ->
  match m_pShaderManager (scene w) with
  | NULL => PrepareScene w = Undefined NullDereference
  | pShaderManager =>
      exists w' : World,
        PrepareScene w = Ret (tt, w') /\
        registry_ok (scene w') /\
        m_objectMaterials (scene w') =
          m_objectMaterials (scene w) ++ scene_materials /\
        live_tags (scene w') =
          live_tags (scene w) ++ (registered scene_textures).*2 /\
        (m_objectMaterials (scene w) = [] ->
         forall (m indeterminate : OBJECT_MATERIAL.t),
           m ∈ scene_materials ->
           SetShaderMaterial indeterminate (OBJECT_MATERIAL.tag m) w' =
             Ret (tt, with_uniforms w' (material_uniforms m)))
  end.
Proof.
  intros Hok Hfive. destruct (m_pShaderManager (scene w)) eqn:Hp.
  - unfold PrepareScene. apply bind_Undefined, bind_Undefined.
    unfold setBoolValue, set_uniform. rewrite Hp. reflexivity.
  - destruct (SetupSceneLights_attached w Hp) as (calls & Hlights & _).
    pose proof (define_materials_result scene_materials
                  (with_uniforms w calls)) as Hmats.
    cbn [scene shaderManager glContext with_uniforms] in Hmats.
    set (w2 := mk_World _ _ _) in Hmats.
    pose proof (length_registered scene_textures) as Hlen.
    change (length scene_textures) with 11%nat in Hlen.
    destruct (LoadSceneTextures_room w2) as
      (w3 & Hload & Hok3 & _ & Htags & Hsh & Hm & Hp3).
    { exact Hok. }
    { unfold MAX_SLOTS. cbn [scene m_loadedTextures w2]. lia. }
    eexists. split.
    { unfold PrepareScene.
      rewrite (bind_Ret _ _ _ _ _ Hlights), (bind_Ret _ _ _ _ _ Hmats).
      exact Hload. }
    cbn [scene]. split; [exact Hok3 |]. split; [exact Hm |].
    split; [exact Htags |].
    intros Hnone m indeterminate Hin.
    destruct (first_of_distinct scene_materials m) as [i Hfind];
      [apply (bool_decide_unpack _); vm_compute; exact I | exact Hin |].
    rewrite SetShaderMaterial_attached.
    + cbn [scene]. rewrite Hm. cbn [scene m_objectMaterials w2].
      rewrite Hnone. simpl app.
      rewrite (find_material_first _ _ i m indeterminate Hfind).
      reflexivity.
    + cbn [scene]. rewrite Hp3. exact Hp.
    + cbn [scene]. rewrite Hm. cbn [scene m_objectMaterials w2].
      rewrite Hnone. discriminate.
Qed.

(** ** Clock hands *)

Lemma in_turn_strict (lo : Q) (x : float) :
  in_turn true lo x = true ->
  exists q : Q, F32.to_Q x = Some q /\ (lo < q)%Q /\ (q <= 0)%Q.
Proof.
  unfold in_turn. destruct (F32.to_Q x) as [q |]; [| discriminate].
  intros Hq. apply andb_true_iff in Hq as [Hhi Hlo].
  exists q. split; [reflexivity |]. split.
  - apply negb_true_iff in Hlo. apply Qnot_le_lt. intros Hle.
    apply Qle_bool_iff in Hle. congruence.
  - apply Qle_bool_iff, Hhi.
Qed.

Lemma in_turn_closed (lo : Q) (x : float) :
  in_turn false lo x = true ->
  exists q : Q, F32.to_Q x = Some q /\ (lo <= q)%Q /\ (q <= 0)%Q.
Proof.
  unfold in_turn. destruct (F32.to_Q x) as [q |]; [| discriminate].
  intros Hq. apply andb_true_iff in Hq as [Hhi Hlo].
  exists q. split; [reflexivity |]. split; apply Qle_bool_iff; assumption.
Qed.

Lemma all_hour_ranges_checked :
  forallb (fun h => forallb (hour_range_check h) (range 60)) (range 24)
    = true.
Proof. vm_compute. reflexivity. Qed.

Lemma all_minute_ranges_checked :
  forallb minute_range_check (range 60) = true.
Proof. vm_compute. reflexivity. Qed.

Lemma all_second_ranges_checked :
  forallb second_range_check (range 61) = true.
Proof. vm_compute. reflexivity. Qed.

(** X21.  No hand is ever turned by more than one revolution, and always
    clockwise: for every time [localtime_s] can report the three angles
    are finite, the hour hand's in (-360, 0], the minute hand's in
    [-354, 0] and the second hand's in [-360, 0].  The hour hand's angle
    depends on the minute of the half-day only: two times that agree on
    it give the same [float], so the morning and the afternoon hour
    coincide. *)
Theorem X21_hands_within_one_turn (timeinfo : tm) :
  valid_time timeinfo ->
  (exists q : Q, F32.to_Q (hourAngle timeinfo) = Some q /\
                 (-360 < q)%Q /\ (q <= 0)%Q) /\
  (exists q : Q, F32.to_Q (minuteAngle timeinfo) = Some q /\
                 (-354 <= q)%Q /\ (q <= 0)%Q) /\
  (exists q : Q, F32.to_Q (secondAngle timeinfo) = Some q /\
                 (-360 <= q)%Q /\ (q <= 0)%Q) /\
  (forall timeinfo' : tm,
     valid_time timeinfo' ->
     dial_minute timeinfo' = dial_minute timeinfo ->
     hourAngle timeinfo' = hourAngle timeinfo).
Proof.
  destruct timeinfo as [s m h]. intros (Hh & Hm & Hs). simpl in Hh, Hm, Hs.
  split; [| split; [| split]].
  - pose proof (forallb_elem_of _ _ h all_hour_ranges_checked
                  (elem_of_range 24 h ltac:(lia))) as Hhours.
    cbv beta in Hhours.
    pose proof (forallb_elem_of _ _ m Hhours
                  (elem_of_range 60 m ltac:(lia))) as Hhour.
    exact (in_turn_strict _ _ Hhour).
  - pose proof (forallb_elem_of _ _ m all_minute_ranges_checked
                  (elem_of_range 60 m ltac:(lia))) as Hmin.
    exact (in_turn_closed _ _ Hmin).
  - pose proof (forallb_elem_of _ _ s all_second_ranges_checked
                  (elem_of_range 61 s ltac:(lia))) as Hsec.
    exact (in_turn_closed _ _ Hsec).
  - intros [s' m' h'] (Hh' & Hm' & _). unfold dial_minute.
    simpl in Hh', Hm' |- *. intros Hdial.
    unfold hourAngle, int_rem. simpl.
    rewrite !Z.rem_mod_nonneg by lia.
    pose proof (Z.mod_pos_bound h 12 ltac:(lia)).
    pose proof (Z.mod_pos_bound h' 12 ltac:(lia)).
    assert (Hhour : h' mod 12 = h mod 12) by lia.
    assert (Hmin : m' = m) by lia.
    rewrite Hhour, Hmin. reflexivity.
Qed.

Lemma near_Q_bounds (eps : Q) (x : float) (q0 : Q) :
  F32.near_Q eps x q0 = true ->
  exists q : Q, F32.to_Q x = Some q /\
                (q0 - eps <= q)%Q /\ (q <= q0 + eps)%Q.
Proof.
  unfold F32.near_Q. destruct (F32.to_Q x) as [q |]; [| discriminate].
  intros Hq. apply Qle_bool_iff, Qabs_Qle_condition in Hq as [Hlo Hhi].
  exists q. split; [reflexivity |]. split; lra.
Qed.

Lemma spec_hourAngle_dial (timeinfo : tm) :
  (spec_hourAngle timeinfo == - (inject_Z (dial_minute timeinfo) * (1 # 2)))%Q.
Proof.
  unfold spec_hourAngle, dial_minute.
  rewrite inject_Z_plus, inject_Z_mult. field.
Qed.

(** X22.  Rounding never makes the hour hand step back: of two times in
    the same half-day turn of the dial, the later one has the strictly
    smaller (further clockwise) hour-hand angle. *)
Theorem X22_hour_hand_advances (timeinfo timeinfo' : tm) :
  valid_time timeinfo ->
  valid_time timeinfo' ->
  dial_minute timeinfo < dial_minute timeinfo' ->
  exists q q' : Q,
    F32.to_Q (hourAngle timeinfo) = Some q /\
    F32.to_Q (hourAngle timeinfo') = Some q' /\
    (q' < q)%Q.
Proof.
  intros Hv Hv' Hdial.
  assert (Hnear : forall t : tm, valid_time t ->
            F32.near_Q (1 # 65536) (hourAngle t) (spec_hourAngle t) = true).
  { intros [s m h] (Hh & Hm & _). simpl in Hh, Hm.
    pose proof (forallb_elem_of _ _ h all_hours_checked
                  (elem_of_range 24 h ltac:(lia))) as Hhours.
    cbv beta in Hhours.
    pose proof (forallb_elem_of _ _ m Hhours
                  (elem_of_range 60 m ltac:(lia))) as Hhour.
    unfold hour_check in Hhour. apply andb_true_iff in Hhour as [Hn _].
    exact Hn. }
  destruct (near_Q_bounds _ _ _ (Hnear _ Hv)) as (q & Hq & Hlo & _).
  destruct (near_Q_bounds _ _ _ (Hnear _ Hv')) as (q' & Hq' & _ & Hhi').
  exists q, q'. split; [exact Hq |]. split; [exact Hq' |].
  rewrite spec_hourAngle_dial in Hlo, Hhi'.
  assert (Hstep : (inject_Z (dial_minute timeinfo) + 1
                   <= inject_Z (dial_minute timeinfo'))%Q).
  { change 1%Q with (inject_Z 1). rewrite <- inject_Z_plus.
    rewrite <- Zle_Qle. lia. }
  lra.
Qed.

End MoreProperties.

(** * The further properties on the reference instances *)

Lemma FreshGL_fresh : fresh_driver (ogl := FreshGL.ogl).
Proof.
  intros calls Hleft. simpl. unfold FreshGL.unused.
  set (used := generated_names calls) in *.
  set (candidates := seqZ 1 (Z.of_nat (S (length used)))).
  destruct (filter (fun n => n ∉ used) candidates) as [| n rest] eqn:Hfilter.
  - exfalso.
    assert (Hall : forall x, x ∈ candidates -> x ∈ used).
    { intros x Hx. destruct (decide (x ∈ used)) as [Hin | Hout]; [exact Hin |].
      assert (Hf : x ∈ filter (fun n => n ∉ used) candidates)
        by (apply list_elem_of_filter; split; assumption).
      rewrite Hfilter in Hf. by apply elem_of_nil in Hf. }
    pose proof (submseteq_length _ _
                  (NoDup_submseteq _ _ (NoDup_seqZ _ _) Hall)) as Hlen.
    unfold candidates in Hlen. rewrite length_seqZ in Hlen. lia.
  - simpl.
    assert (Hn : n ∈ filter (fun n => n ∉ used) candidates)
      by (rewrite Hfilter; apply list_elem_of_here).
    apply list_elem_of_filter in Hn as [Hout Hcand].
    unfold candidates in Hcand. apply elem_of_seqZ in Hcand.
    unfold wrap_GLuint. rewrite Z.mod_small by lia. exact Hout.
Qed.

Lemma empty_world_ok : registry_ok (scene Samples.empty_world).
Proof. split; [reflexivity | simpl; unfold MAX_SLOTS; lia]. Qed.

Lemma tracked_world_ok : registry_ok (scene MoreSamples.tracked_world).
Proof. split; [reflexivity | simpl; unfold MAX_SLOTS; lia]. Qed.

Lemma null_desk_world_ok : registry_ok (scene MoreSamples.null_desk_world).
Proof. split; [reflexivity | simpl; unfold MAX_SLOTS; lia]. Qed.

(** ** Registrations on the sample states *)

Lemma X1_witness :
  exists (b : bool) (w' : World),
    CreateGLTexture (stb := SampleStb.stb) (ogl := SampleGL.ogl)
      "textures/lamp_body.jpg" "bronze2" Samples.desk_world = Ret (b, w') /\
    m_loadedTextures (scene w') = 3.
Proof.
  pose proof (X1_CreateGLTexture_outcome (stb := SampleStb.stb)
                (ogl := SampleGL.ogl) "textures/lamp_body.jpg" "bronze2"
                Samples.desk_world desk_world_ok) as H.
  destruct (CreateGLTexture _ _ _) as [[b w'] | ub].
  - exists b, w'. split; [reflexivity |].
    destruct H as (Hb & _ & Hcount & _). rewrite Hcount, Hb. reflexivity.
  - destruct H as (_ & _ & Hfull). discriminate Hfull.
Defined.

Lemma X2_witness :
  exists w' : World,
    CreateGLTextures (stb := SampleStb.stb) (ogl := SampleGL.ogl)
      [ ("textures/gray.png", "gray");
        ("textures/missing.png", "missing");
        ("textures/Wood_table.png", "desk") ] Samples.empty_world
    = Ret ([false; false; true], w') /\
    live_tags (scene w') = ["desk"].
Proof.
  destruct (X2_rejected_registrations_take_no_slot (stb := SampleStb.stb)
              (ogl := SampleGL.ogl)
              [ ("textures/gray.png", "gray");
                ("textures/missing.png", "missing");
                ("textures/Wood_table.png", "desk") ] Samples.empty_world)
    as (w' & Hrun & _ & _ & Htags & _).
  - exact empty_world_ok.
  - apply Z.leb_le. reflexivity.
  - exists w'. split; [exact Hrun | exact Htags].
Defined.

Lemma X3_witness :
  CreateGLTextures (stb := SampleStb.stb) (ogl := SampleGL.ogl)
    [ ("textures/gray.png", "gray");
      ("textures/Wood_table.png", "seventeenth") ] Samples.full_world
  = Undefined (OutOfBounds 16).
Proof.
  apply (X3_too_many_registrations_overflow (stb := SampleStb.stb)
           (ogl := SampleGL.ogl)).
  - exact full_world_ok.
  - apply Z.ltb_lt. reflexivity.
Defined.

Lemma X4_witness :
  exists slot : Z,
    FindTextureSlot "bronze" Samples.desk_world
      = Ret (slot, Samples.desk_world) /\
    -1 <= slot < 2.
Proof.
  destruct (X4_lookups_agree "bronze" Samples.desk_world desk_world_ok)
    as [(_ & Hslot & _) | (i & e & _ & _ & _ & Hi & Hslot & _)].
  - exists (-1). split; [exact Hslot | lia].
  - exists (Z.of_nat i). split; [exact Hslot |]. simpl in Hi. lia.
Defined.

Lemma desk_is_live : "desk" ∈ live_tags (scene Samples.desk_world).
Proof. apply list_elem_of_here. Qed.

Lemma bronze_is_live : "bronze" ∈ live_tags (scene Samples.desk_world).
Proof. apply list_elem_of_further, list_elem_of_here. Qed.

Lemma crome_is_not_live : "crome" ∉ live_tags (scene Samples.desk_world).
Proof.
  intros Hin. simpl in Hin.
  repeat (apply elem_of_cons in Hin as [Hin | Hin]; [discriminate Hin |]).
  by apply elem_of_nil in Hin.
Qed.

Lemma X5_witness :
  exists (w' : World) (slot id : Z),
    CreateGLTexture (stb := SampleStb.stb) (ogl := SampleGL.ogl)
      "textures/lamp_body.jpg" "desk" Samples.desk_world = Ret (true, w') /\
    0 <= slot < 2 /\
    FindTextureSlot "desk" Samples.desk_world
      = Ret (slot, Samples.desk_world) /\
    FindTextureSlot "desk" w' = Ret (slot, w') /\
    FindTextureID "desk" Samples.desk_world = Ret (id, Samples.desk_world) /\
    FindTextureID "desk" w' = Ret (id, w').
Proof.
  apply (X5_first_registration_wins (stb := SampleStb.stb)
           (ogl := SampleGL.ogl) "textures/lamp_body.jpg" "desk" "desk"
           Samples.desk_world).
  - exact desk_world_ok.
  - apply Z.ltb_lt. reflexivity.
  - reflexivity.
  - exact desk_is_live.
Defined.

Lemma X6_witness :
  exists w' : World,
    CreateGLTexture (stb := SampleStb.stb) (ogl := SampleGL.ogl)
      "textures/Wood_table.png" "crome" Samples.desk_world = Ret (true, w') /\
    FindTextureSlot "crome" w' = Ret (2, w').
Proof.
  destruct (X6_register_then_lookup (stb := SampleStb.stb)
              (ogl := SampleGL.ogl) "textures/Wood_table.png" "crome"
              Samples.desk_world) as (w' & Hrun & _ & _ & Hslot & _).
  - exact desk_world_ok.
  - apply Z.ltb_lt. reflexivity.
  - reflexivity.
  - exact crome_is_not_live.
  - exists w'. split; [exact Hrun | exact Hslot].
Defined.

Lemma X7_witness :
  exists (w1 : World) (i : Z),
    BindGLTextures Samples.desk_world = Ret (tt, w1) /\
    SetShaderTexture "bronze" w1 =
      Ret (tt, with_uniforms w1
                 [ (g_UseTextureName, UInt 1);
                   (g_TextureValueName, USampler2D i) ]).
Proof.
  destruct (X7_sampler_is_the_bound_unit "bronze" Samples.desk_world eq_refl
              desk_world_ok bronze_is_live)
    as (w1 & i & handle & pre & post & Hbind & _ & _ & _ & _ & _ & Hset).
  exists w1, i. split; [exact Hbind | exact Hset].
Defined.

Lemma X8_witness :
  exists w' : World,
    DestroyGLTextures (ogl := SampleGL.ogl) Samples.desk_world
      = Ret (tt, w') /\
    live_tags (scene w') = ["desk"; "bronze"].
Proof.
  destruct (X8_teardown_keeps_every_slot (ogl := SampleGL.ogl)
              Samples.desk_world desk_world_ok)
    as (w' & Hrun & _ & _ & Htags & _).
  exists w'. split; [exact Hrun | exact Htags].
Defined.

Lemma tracked_world_names_left :
  names_left MoreSamples.tracked_world.
Proof. apply Z.ltb_lt. reflexivity. Qed.

Lemma tracked_world_generated :
  forall id, id ∈ live_handles (scene MoreSamples.tracked_world) ->
             id ∈ generated_names (glContext MoreSamples.tracked_world).
Proof. intros id Hid. exact Hid. Qed.

Lemma tracked_world_tracked : handles_tracked MoreSamples.tracked_world.
Proof.
  split; [| exact tracked_world_generated].
  apply (bool_decide_unpack _). vm_compute. exact I.
Qed.

Lemma X9_witness :
  exists w' : World,
    DestroyGLTextures (ogl := FreshGL.ogl) MoreSamples.tracked_world
      = Ret (tt, w') /\
    (1 ∉ live_handles (scene w')) /\
    (2 ∉ live_handles (scene w')).
Proof.
  destruct (X9_teardown_drops_every_handle (ogl := FreshGL.ogl)
              MoreSamples.tracked_world FreshGL_fresh
              tracked_world_names_left tracked_world_ok
              tracked_world_generated)
    as (w' & issued & Hrun & _ & _ & _ & Hgone).
  exists w'. split; [exact Hrun |]. split; apply Hgone.
  - apply list_elem_of_here.
  - apply list_elem_of_further, list_elem_of_here.
Defined.

Lemma X10_witness :
  exists w' : World,
    DestroyGLTextures (ogl := FreshGL.ogl) MoreSamples.tracked_world
      = Ret (tt, w') /\
    handles_tracked w'.
Proof.
  exact (proj2 (proj2
    (X10_live_handles_stay_distinct (stb := SampleStb.stb)
       (ogl := FreshGL.ogl) MoreSamples.tracked_world FreshGL_fresh
       tracked_world_names_left tracked_world_ok tracked_world_tracked))).
Defined.

Lemma X11_witness :
  exists w' : World,
    CreateGLTexture (stb := SampleStb.stb) (ogl := SampleGL.ogl)
      "textures/gray.png" "gray" Samples.desk_world = Ret (false, w') /\
    last_bound (glContext w') = Some 1 /\
    scene w' = scene Samples.desk_world.
Proof.
  destruct (X11_binding_left_by_registration (stb := SampleStb.stb)
              (ogl := SampleGL.ogl) "textures/gray.png" "gray"
              Samples.desk_world desk_world_ok)
    as (w' & Hrun & _ & Hbound & Hscene).
  - apply Z.ltb_lt. reflexivity.
  - exists w'. split; [exact Hrun |]. split; [exact Hbound | exact Hscene].
Defined.

(** ** Materials and per-draw state on the sample states *)

Lemma two_desks_first :
  first_material "desk" (scene MoreSamples.two_desks_world)
    = Some (0%nat, Samples.desk).
Proof. reflexivity. Qed.

Lemma X12_witness :
  FindMaterial "desk" MoreSamples.repainted MoreSamples.two_desks_world =
    Ret ((true,
          OBJECT_MATERIAL.mk "desk"
            (OBJECT_MATERIAL.diffuseColor Samples.desk)
            (OBJECT_MATERIAL.specularColor Samples.desk)
            (OBJECT_MATERIAL.shininess Samples.desk)),
         MoreSamples.two_desks_world).
Proof.
  exact (X12_FindMaterial_first_match "desk" MoreSamples.repainted
           MoreSamples.two_desks_world 0 Samples.desk two_desks_first).
Defined.

Lemma X13_witness :
  SetShaderMaterial MoreSamples.repainted "desk" MoreSamples.two_desks_world =
    Ret (tt, with_uniforms MoreSamples.two_desks_world
               (material_uniforms Samples.desk)).
Proof.
  exact (X13_SetShaderMaterial_pushes_first_match MoreSamples.repainted
           "desk" MoreSamples.two_desks_world 0 Samples.desk eq_refl
           two_desks_first).
Defined.

Lemma X14_witness :
  SetShaderMaterial MoreSamples.repainted "desk" MoreSamples.null_desk_world
    = Undefined NullDereference.
Proof.
  exact (X14_SetShaderMaterial_null_shader_manager MoreSamples.repainted
           "desk" MoreSamples.null_desk_world eq_refl).
Defined.

Lemma X15_witness :
  exists w' : World,
    run_setters
      [ CallSetColor F32.one F32.zero F32.zero F32.one;
        CallSetUVScale F32.one F32.one ] Samples.desk_world = Ret (tt, w') /\
    scene w' = scene Samples.desk_world /\
    uniform_store (shaderManager w') !! g_ModelName =
      uniform_store (shaderManager Samples.desk_world) !! g_ModelName.
Proof.
  destruct (X15_per_draw_calls_frame
              [ CallSetColor F32.one F32.zero F32.zero F32.one;
                CallSetUVScale F32.one F32.one ] Samples.desk_world eq_refl
              desk_world_ok) as (w' & Hrun & Hscene & _ & _ & Hframe).
  exists w'. split; [exact Hrun |]. split; [exact Hscene |].
  apply Hframe. intros c Hc Hname.
  apply elem_of_cons in Hc as [-> | Hc].
  - simpl in Hname.
    repeat (apply elem_of_cons in Hname as [Hname | Hname];
            [discriminate Hname |]).
    by apply elem_of_nil in Hname.
  - apply list_elem_of_singleton in Hc as ->. simpl in Hname.
    repeat (apply elem_of_cons in Hname as [Hname | Hname];
            [discriminate Hname |]).
    by apply elem_of_nil in Hname.
Defined.

Lemma desk_world_first :
  first_material "desk" (scene Samples.desk_world) = Some (0%nat, Samples.desk).
Proof. reflexivity. Qed.

Lemma X16_witness :
  exists w' : World,
    run_setters
      [ CallSetMaterial MoreSamples.repainted "desk";
        CallSetTexture "bronze";
        CallSetColor F32.one F32.zero F32.zero F32.one ] Samples.desk_world
      = Ret (tt, w') /\
    uniform_store (shaderManager w') !! "material.shininess" =
      Some (UFloat (F32.of_int 32)).
Proof.
  destruct (X16_material_carries_over MoreSamples.repainted "desk"
              [ CallSetTexture "bronze";
                CallSetColor F32.one F32.zero F32.zero F32.one ]
              Samples.desk_world 0 Samples.desk eq_refl desk_world_ok
              desk_world_first)
    as (w' & Hrun & _ & _ & Hshine).
  - repeat constructor.
  - exists w'. split; [exact Hrun | exact Hshine].
Defined.

Lemma X18_witness :
  exists w1 w2 : World,
    SetupSceneLights (trig := SampleTrig.trig) Samples.desk_world
      = Ret (tt, w1) /\
    run_setters [CallSetTexture "desk"] w1 = Ret (tt, w2) /\
    uniform_store (shaderManager w2) !! g_UseLightingName =
      uniform_store (shaderManager w1) !! g_UseLightingName.
Proof.
  destruct (X18_lights_survive_per_draw_calls (trig := SampleTrig.trig)
              [CallSetTexture "desk"] Samples.desk_world eq_refl
              desk_world_ok) as (w1 & w2 & Hlights & Hrun & Hkeep).
  exists w1, w2. split; [exact Hlights |]. split; [exact Hrun |].
  apply Hkeep, list_elem_of_here.
Defined.

(** ** Scene set-up on the sample states *)

Lemma X19_witness :
  exists w' : World,
    LoadSceneTextures (stb := SampleStb.stb) (ogl := SampleGL.ogl)
      Samples.empty_world = Ret (tt, w') /\
    live_tags (scene w') = ["desk"; "bronze"].
Proof.
  destruct (proj1 (proj2
              (X19_LoadSceneTextures_outcome (stb := SampleStb.stb)
                 (ogl := SampleGL.ogl) Samples.empty_world empty_world_ok)))
    as (w' & Hrun & _ & Htags & _).
  - apply Z.leb_le. reflexivity.
  - exists w'. split; [exact Hrun | exact Htags].
Defined.

Lemma X20_witness :
  exists w' : World,
    PrepareScene (stb := SampleStb.stb) (ogl := SampleGL.ogl)
      (trig := SampleTrig.trig) Samples.empty_world = Ret (tt, w') /\
    m_objectMaterials (scene w') = scene_materials.
Proof.
  destruct (X20_PrepareScene_outcome (stb := SampleStb.stb)
              (ogl := SampleGL.ogl) (trig := SampleTrig.trig)
              Samples.empty_world empty_world_ok)
    as (w' & Hrun & _ & Hmats & _).
  - apply Z.leb_le. reflexivity.
  - exists w'. split; [exact Hrun | exact Hmats].
Defined.

(** ** Clock hands at sample times *)

Lemma X21_witness :
  hourAngle (mk_tm 59 30 18) = hourAngle (mk_tm 0 30 6).
Proof.
  refine (proj2 (proj2 (proj2
            (X21_hands_within_one_turn (mk_tm 0 30 6) _))) (mk_tm 59 30 18) _ _).
  - unfold valid_time. simpl. lia.
  - unfold valid_time. simpl. lia.
  - reflexivity.
Defined.

Lemma X22_witness :
  exists q q' : Q,
    F32.to_Q (hourAngle (mk_tm 0 2 1)) = Some q /\
    F32.to_Q (hourAngle (mk_tm 0 3 13)) = Some q' /\
    (q' < q)%Q.
Proof.
  apply (X22_hour_hand_advances (mk_tm 0 2 1) (mk_tm 0 3 13)).
  - unfold valid_time. simpl. lia.
  - unfold valid_time. simpl. lia.
  - apply Z.ltb_lt. reflexivity.
Defined.

(** ** The handle that reads as a miss *)

Lemma last_name_world_ok : registry_ok (scene MoreSamples.last_name_world).
Proof. split; [reflexivity | simpl; unfold MAX_SLOTS; lia]. Qed.

Lemma X23_witness :
  FindTextureID "desk" MoreSamples.last_name_world
    = Ret (-1, MoreSamples.last_name_world) /\
  FindTextureSlot "desk" MoreSamples.last_name_world
    = Ret (0, MoreSamples.last_name_world).
Proof.
  destruct (X23_FindTextureID_as_int "desk" MoreSamples.last_name_world 0
              (TEXTURE_INFO.mk "desk" (2 ^ 32 - 1)) last_name_world_ok
              eq_refl) as (r & Hid & Hslot & _ & _ & Hminus).
  - simpl. lia.
  - assert (Hr : r = -1) by (apply Hminus; reflexivity).
    rewrite Hr in Hid. split; [exact Hid | exact Hslot].
Defined.
